(** * HealthMonitor diet tracker: a shallow embedding of [main.py]

    The program is a PyQt5 desktop application.  Its logic lives in a few
    static helpers ([DataManager], [ConfigManager]) and in the slots of three
    windows ([LoginWindow], [RecordDialog], [MainWindow]).  The embedding keeps
    that layout: one Rocq module per Python class, one definition per method,
    with the widgets a slot reads or writes as fields of the window record.

    Python values are modelled as follows.
    - [str] is a sequence of Unicode code points ([list N]); the string
      methods the program calls ([strip], [isdigit], [int], [len]) are
      written out over code points, with the Unicode 14 tables of CPython 3.11.
    - A file is a sequence of bytes; [Path.read_text] decodes strict UTF-8.
    - A [dict] used as a map is a [gmap]; a JSON document is a [jval].
    - An exception is a value [Raise e] of the [result] type.
    - [float] is IEEE binary64 (Rocq's primitive floats). *)

From Stdlib Require Import ZArith NArith List String Ascii Lia PrimFloat Uint63.
From Stdlib Require Import Init.Byte Decimal DecimalString DecimalPos QArith.
From stdpp Require Import gmap strings list fin_maps.

Close Scope Q_scope.

Local Open Scope Z_scope.

(* ===================================================================== *)
(** * Part I: definitions *)
(* ===================================================================== *)

(** ** Exceptions and results *)

Inductive exn :=
| ValueError
| TypeError
| ZeroDivisionError
| UnicodeDecodeError
| JSONDecodeError
| FileNotFoundError.

Inductive result (A : Type) :=
| Ok (a : A)
| Raise (e : exn).
Arguments Ok {A} a.
Arguments Raise {A} e.

#[global] Instance result_ret : MRet result := @Ok.
#[global] Instance result_bind : MBind result := fun A B k r =>
  match r with
  | Ok a => k a
  | Raise e => Raise e
  end.

(** The exceptions above, and the AttributeError that a method call on a
    value without that method raises. *)
Inductive raised :=
| Exn (e : exn)
| AttributeError.

(** How a call ends that may raise either. *)
Inductive outcome (A : Type) :=
| Returned (a : A)
| Raising (e : raised).
Arguments Returned {A} a.
Arguments Raising {A} e.

(** ** Python strings *)

Abbreviation str := (list N).
Abbreviation bytes := (list byte).

(** An ASCII literal of the program text, as code points. *)
Definition lit (s : string) : str :=
  map N_of_ascii (list_ascii_of_string s).

Fixpoint in_ranges (rs : list (N * N)) (c : N) : bool :=
  match rs with
  | [] => false
  | (lo, hi) :: rs' => ((lo <=? c) && (c <=? hi))%N || in_ranges rs' c
  end.

Module Py.

(** Code points for which [str.isspace] holds (what [str.strip()] removes). *)
Definition space_ranges : list (N * N) :=
  [ (0x9, 0xD); (0x1C, 0x20); (0x85, 0x85); (0xA0, 0xA0);
    (0x1680, 0x1680); (0x2000, 0x200A); (0x2028, 0x2029); (0x202F, 0x202F);
    (0x205F, 0x205F); (0x3000, 0x3000) ]%N.

(** Code points of general category Nd: each range is a run of the ten
    digits 0..9, possibly repeated (U+1D7CE..U+1D7FF holds five runs). *)
Definition decimal_ranges : list (N * N) :=
  [ (0x30, 0x39); (0x660, 0x669); (0x6F0, 0x6F9); (0x7C0, 0x7C9);
    (0x966, 0x96F); (0x9E6, 0x9EF); (0xA66, 0xA6F); (0xAE6, 0xAEF);
    (0xB66, 0xB6F); (0xBE6, 0xBEF); (0xC66, 0xC6F); (0xCE6, 0xCEF);
    (0xD66, 0xD6F); (0xDE6, 0xDEF); (0xE50, 0xE59); (0xED0, 0xED9);
    (0xF20, 0xF29); (0x1040, 0x1049); (0x1090, 0x1099); (0x17E0, 0x17E9);
    (0x1810, 0x1819); (0x1946, 0x194F); (0x19D0, 0x19D9); (0x1A80, 0x1A89);
    (0x1A90, 0x1A99); (0x1B50, 0x1B59); (0x1BB0, 0x1BB9); (0x1C40, 0x1C49);
    (0x1C50, 0x1C59); (0xA620, 0xA629); (0xA8D0, 0xA8D9); (0xA900, 0xA909);
    (0xA9D0, 0xA9D9); (0xA9F0, 0xA9F9); (0xAA50, 0xAA59); (0xABF0, 0xABF9);
    (0xFF10, 0xFF19); (0x104A0, 0x104A9); (0x10D30, 0x10D39); (0x11066, 0x1106F);
    (0x110F0, 0x110F9); (0x11136, 0x1113F); (0x111D0, 0x111D9); (0x112F0, 0x112F9);
    (0x11450, 0x11459); (0x114D0, 0x114D9); (0x11650, 0x11659); (0x116C0, 0x116C9);
    (0x11730, 0x11739); (0x118E0, 0x118E9); (0x11950, 0x11959); (0x11C50, 0x11C59);
    (0x11D50, 0x11D59); (0x11DA0, 0x11DA9); (0x16A60, 0x16A69); (0x16AC0, 0x16AC9);
    (0x16B50, 0x16B59); (0x1D7CE, 0x1D7FF); (0x1E140, 0x1E149); (0x1E2F0, 0x1E2F9);
    (0x1E950, 0x1E959); (0x1FBF0, 0x1FBF9) ]%N.

(** Code points whose Numeric_Type is Digit but which are not Nd
    (superscripts, subscripts, circled digits, ...): [str.isdigit] accepts
    them, [int] does not. *)
Definition other_digit_ranges : list (N * N) :=
  [ (0xB2, 0xB3); (0xB9, 0xB9); (0x1369, 0x1371); (0x19DA, 0x19DA);
    (0x2070, 0x2070); (0x2074, 0x2079); (0x2080, 0x2089); (0x2460, 0x2468);
    (0x2474, 0x247C); (0x2488, 0x2490); (0x24EA, 0x24EA); (0x24F5, 0x24FD);
    (0x24FF, 0x24FF); (0x2776, 0x277E); (0x2780, 0x2788); (0x278A, 0x2792);
    (0x10A40, 0x10A43); (0x10E60, 0x10E68); (0x11052, 0x1105A);
    (0x1F100, 0x1F10A) ]%N.

Definition isspace_char (c : N) : bool := in_ranges space_ranges c.
Definition isdecimal_char (c : N) : bool := in_ranges decimal_ranges c.
Definition isdigit_char (c : N) : bool :=
  isdecimal_char c || in_ranges other_digit_ranges c.

(** The value of a decimal digit: its offset in its run of ten. *)
Fixpoint decimal_value_in (rs : list (N * N)) (c : N) : option N :=
  match rs with
  | [] => None
  | (lo, hi) :: rs' =>
      if ((lo <=? c) && (c <=? hi))%N then Some ((c - lo) mod 10)%N
      else decimal_value_in rs' c
  end.
Definition decimal_value (c : N) : option N := decimal_value_in decimal_ranges c.

Fixpoint lstrip (s : str) : str :=
  match s with
  | c :: s' => if isspace_char c then lstrip s' else s
  | [] => []
  end.
Definition rstrip (s : str) : str := rev (lstrip (rev s)).
(** [s.strip()] *)
Definition strip (s : str) : str := rstrip (lstrip s).

(** [s.isdigit()]: non-empty and every character is a digit. *)
Definition isdigit (s : str) : bool :=
  match s with
  | [] => false
  | _ => forallb isdigit_char s
  end.

(** [bool(s)] *)
Definition truthy (s : str) : bool :=
  match s with [] => false | _ => true end.

(** [a or b] on strings *)
Definition or_else (a b : str) : str := if truthy a then a else b.

(** The digits of an [int] literal: decimal digits, single underscores
    allowed between two digits. *)
Fixpoint literal_digits (s : str) (after_digit : bool) : option (list N) :=
  match s with
  | [] => if after_digit then Some [] else None
  | c :: s' =>
      if (c =? 0x5F)%N then
        if after_digit then literal_digits s' false else None
      else
        match decimal_value c with
        | Some d => cons d <$> literal_digits s' true
        | None => None
        end
  end.

Definition digits_value (ds : list N) : Z :=
  fold_left (fun acc d => 10 * acc + Z.of_N d) ds 0.

(** [sys.get_int_max_str_digits()], CPython's default. *)
Definition int_max_str_digits : nat := 4300.

(** [int(s)] for a string argument, base 10. *)
Definition int (s : str) : result Z :=
  let t := strip s in
  let '(negative, body) :=
    match t with
    | 0x2B%N :: r => (false, r)
    | 0x2D%N :: r => (true, r)
    | _ => (false, t)
    end in
  match literal_digits body false with
  | Some ds =>
      if (int_max_str_digits <? length ds)%nat then Raise ValueError
      else Ok (if negative then - digits_value ds else digits_value ds)
  | None => Raise ValueError
  end.

(** [str(n)] for an integer. *)
Definition str_of_Z (n : Z) : str :=
  lit (NilZero.string_of_int (Z.to_int n)).

End Py.

(** ** Files and UTF-8

    The two documents live next to the program; a file system is a finite
    map from file names to contents, a missing key being a missing file. *)

Definition DATA_FILE : string := "data.json".
Definition CONFIG_FILE : string := "config.json".

Module Utf8.

Definition byte_of (n : N) : byte := default x00 (Byte.of_N n).

(** A code point that UTF-8 can carry: not a surrogate, at most U+10FFFF. *)
Definition is_scalar (c : N) : bool :=
  ((c <? 0xD800) || ((0xDFFF <? c) && (c <=? 0x10FFFF)))%N.

Definition encode_char (c : N) : bytes :=
  (if c <? 0x80 then [byte_of c]
   else if c <? 0x800 then
     [byte_of (0xC0 + c / 64); byte_of (0x80 + c mod 64)]
   else if c <? 0x10000 then
     [byte_of (0xE0 + c / 4096); byte_of (0x80 + (c / 64) mod 64);
      byte_of (0x80 + c mod 64)]
   else
     [byte_of (0xF0 + c / 262144); byte_of (0x80 + (c / 4096) mod 64);
      byte_of (0x80 + (c / 64) mod 64); byte_of (0x80 + c mod 64)])%N.

(** [s.encode("utf-8")] *)
Definition encode (s : str) : bytes := concat (map encode_char s).

(** The payload of a continuation byte 10xxxxxx. *)
Definition continuation (b : byte) : option N :=
  let n := Byte.to_N b in
  if ((0x80 <=? n) && (n <=? 0xBF))%N then Some (n - 0x80)%N else None.

(** [b.decode("utf-8")], errors="strict": [None] is UnicodeDecodeError.
    Overlong forms, surrogates and values above U+10FFFF are rejected. *)
Fixpoint decode (bs : bytes) : option str :=
  match bs with
  | [] => Some []
  | b0 :: r0 =>
      let n0 := Byte.to_N b0 in
      if (n0 <? 0x80)%N then cons n0 <$> decode r0
      else if (n0 <? 0xC2)%N then None
      else if (n0 <? 0xE0)%N then
        match r0 with
        | b1 :: r1 =>
            match continuation b1 with
            | Some c1 => cons ((n0 - 0xC0) * 64 + c1)%N <$> decode r1
            | None => None
            end
        | _ => None
        end
      else if (n0 <? 0xF0)%N then
        match r0 with
        | b1 :: b2 :: r2 =>
            match continuation b1, continuation b2 with
            | Some c1, Some c2 =>
                let c := ((n0 - 0xE0) * 4096 + c1 * 64 + c2)%N in
                if ((c <? 0x800) || negb (is_scalar c))%N then None
                else cons c <$> decode r2
            | _, _ => None
            end
        | _ => None
        end
      else if (n0 <? 0xF5)%N then
        match r0 with
        | b1 :: b2 :: b3 :: r3 =>
            match continuation b1, continuation b2, continuation b3 with
            | Some c1, Some c2, Some c3 =>
                let c := ((n0 - 0xF0) * 262144 + c1 * 4096 + c2 * 64 + c3)%N in
                if ((c <? 0x10000) || negb (is_scalar c))%N then None
                else cons c <$> decode r3
            | _, _, _ => None
            end
        | _ => None
        end
      else None
  end.

End Utf8.

Abbreviation FS := (gmap string bytes).

(** [p.exists()] *)
Definition path_exists (p : string) (fs : FS) : bool :=
  bool_decide (is_Some (fs !! p)).

(** [p.read_text(encoding="utf-8")] on a file that exists.  Universal-newline
    translation is left out: the only consumer is [json.loads], for which
    CR, LF and CRLF are the same white space outside strings and the same
    error inside them. *)
Definition read_text (p : string) (fs : FS) : result str :=
  match fs !! p with
  | Some content =>
      match Utf8.decode content with
      | Some text => Ok text
      | None => Raise UnicodeDecodeError
      end
  | None => Raise FileNotFoundError
  end.

(** [p.write_text(text, encoding="utf-8")]: the file is replaced as a whole.
    Failures of the write itself (disk, permissions, text that UTF-8 cannot
    encode) are outside the model. *)
Definition write_text (p : string) (text : str) (fs : FS) : FS :=
  <[p := Utf8.encode text]> fs.

(** ** JSON documents *)

Inductive jval :=
| JNull
| JBool (b : bool)
| JInt (n : Z)
| JStr (s : str)
| JList (items : list jval)
| JDict (items : list (str * jval)).

(** [s == v] for a string [s] and any value [v]: a string equals only the
    same string. *)
Definition str_eq (s : str) (v : jval) : bool :=
  match v with
  | JStr t => bool_decide (s = t)
  | _ => false
  end.

Module Json.

Definition hex_digit (n : N) : N :=
  (if n <? 10 then 0x30 + n else 0x61 + (n - 10))%N.

(** One character of a string, as [json.dumps(..., ensure_ascii=False)]
    writes it. *)
Definition escape_char (c : N) : str :=
  (if c =? 0x22 then [0x5C; 0x22]
   else if c =? 0x5C then lit "\\"
   else if c =? 0x0A then lit "\n"
   else if c =? 0x0D then lit "\r"
   else if c =? 0x09 then lit "\t"
   else if c =? 0x08 then lit "\b"
   else if c =? 0x0C then lit "\f"
   else if c <? 0x20 then lit "\u00" ++ [hex_digit (c / 16); hex_digit (c mod 16)]
   else [c])%N.

Definition quote (s : str) : str :=
  [0x22%N] ++ concat (map escape_char s) ++ [0x22%N].

Fixpoint join (sep : str) (chunks : list str) : str :=
  match chunks with
  | [] => []
  | [c] => c
  | c :: rest => c ++ sep ++ join sep rest
  end.

(** A line break followed by [indent * level] spaces, [indent] being 2. *)
Definition newline_indent (level : nat) : str :=
  0x0A%N :: repeat 0x20%N (2 * level).

Fixpoint dumps_at (level : nat) (v : jval) : str :=
  match v with
  | JNull => lit "null"
  | JBool true => lit "true"
  | JBool false => lit "false"
  | JInt n => Py.str_of_Z n
  | JStr s => quote s
  | JList [] => lit "[]"
  | JList items =>
      lit "[" ++ newline_indent (S level)
      ++ join (lit "," ++ newline_indent (S level))
              (map (dumps_at (S level)) items)
      ++ newline_indent level ++ lit "]"
  | JDict [] => lit "{}"
  | JDict items =>
      lit "{" ++ newline_indent (S level)
      ++ join (lit "," ++ newline_indent (S level))
              (map (fun kv => match kv with
                              | (k, x) => quote k ++ lit ": " ++ dumps_at (S level) x
                              end) items)
      ++ newline_indent level ++ lit "}"
  end.

(** [json.dumps(v, ensure_ascii=False, indent=2)] *)
Definition dumps (v : jval) : str := dumps_at 0 v.

End Json.

(** ** Qt dates

    A [QDate] is a day of the proleptic Gregorian calendar (there is no year
    0) or an invalid date.  It is kept as year, month and day; comparison is
    chronological, which on valid dates is the lexicographic order. *)

Module QDate.

Record t := mk { year : Z; month : Z; day : Z }.

(** The null date, invalid. *)
Definition null : t := mk 0 0 0.

Definition isLeapYear (y : Z) : bool :=
  let y := if y <? 1 then y + 1 else y in
  ((y mod 4 =? 0) && negb (y mod 100 =? 0)) || (y mod 400 =? 0).

Definition daysInMonth (y m : Z) : Z :=
  if m =? 2 then (if isLeapYear y then 29 else 28)
  else if (m =? 4) || (m =? 6) || (m =? 9) || (m =? 11) then 30
  else 31.

Definition isValid (d : t) : bool :=
  negb (year d =? 0)
  && (1 <=? month d) && (month d <=? 12)
  && (1 <=? day d) && (day d <=? daysInMonth (year d) (month d)).

(** [a <= b] *)
Definition leb (a b : t) : bool :=
  (year a <? year b)
  || ((year a =? year b)
      && ((month a <? month b)
          || ((month a =? month b) && (day a <=? day b)))).

(** [a == b] *)
Definition eqb (a b : t) : bool :=
  (year a =? year b) && (month a =? month b) && (day a =? day b).

Definition prev_day (d : t) : t :=
  if 1 <? day d then mk (year d) (month d) (day d - 1)
  else if 1 <? month d then
    mk (year d) (month d - 1) (daysInMonth (year d) (month d - 1))
  else mk (if year d =? 1 then -1 else year d - 1) 12 31.

Definition next_day (d : t) : t :=
  if day d <? daysInMonth (year d) (month d) then mk (year d) (month d) (day d + 1)
  else if month d <? 12 then mk (year d) (month d + 1) 1
  else mk (if year d =? -1 then 1 else year d + 1) 1 1.

(** [d.addDays(n)] *)
Definition addDays (d : t) (n : Z) : t :=
  if 0 <=? n then Nat.iter (Z.to_nat n) next_day d
  else Nat.iter (Z.to_nat (- n)) prev_day d.

Definition digit (n : Z) : N := Z.to_N (48 + n mod 10).
Definition two_digits (n : Z) : str := [digit (n / 10); digit n].
Definition four_digits (n : Z) : str :=
  [digit (n / 1000); digit (n / 100); digit (n / 10); digit n].

(** [d.toString("yyyy-MM-dd")] for years of at most four digits; a
    negative year gets a minus sign. *)
Definition toString (d : t) : str :=
  (if year d <? 0 then lit "-" else []) ++ four_digits (Z.abs (year d))
  ++ lit "-" ++ two_digits (month d) ++ lit "-" ++ two_digits (day d).

Definition digit_value (c : N) : option Z :=
  if ((0x30 <=? c) && (c <=? 0x39))%N then Some (Z.of_N c - 48) else None.

(** A reference reading of [QDate.fromString(s, "yyyy-MM-dd")]: exactly
    four, two and two ASCII digits separated by hyphens; anything else, or
    digits that name no calendar day, gives the null date.  The slots below
    take the parser as a parameter; this one instantiates it. *)
Definition fromString_iso (s : str) : t :=
  match s with
  | [y3; y2; y1; y0; h1; m1; m0; h2; d1; d0] =>
      match digit_value y3, digit_value y2, digit_value y1, digit_value y0,
            digit_value m1, digit_value m0, digit_value d1, digit_value d0 with
      | Some a, Some b, Some c, Some e, Some f, Some g, Some h, Some i =>
          let d := mk (1000 * a + 100 * b + 10 * c + e) (10 * f + g) (10 * h + i) in
          if ((h1 =? 0x2D) && (h2 =? 0x2D))%N && isValid d then d else null
      | _, _, _, _, _, _, _, _ => null
      end
  | _ => null
  end.

End QDate.

(** ** Records and credentials *)

(** One entry of the record list: a dict with the five keys the record
    dialog writes, each of which may be missing in a document edited by
    hand (the slots read them with [get] and a default). *)
Record DietRecord := {
  date : option str;
  meal : option str;
  food : option str;
  calories : option Z;
  note : option str
}.

(** The record as a JSON object, keys in the order the dialog inserts them. *)
Definition record_json (r : DietRecord) : jval :=
  JDict (omap id
    [ (fun v => (lit "date", JStr v)) <$> date r;
      (fun v => (lit "meal", JStr v)) <$> meal r;
      (fun v => (lit "food", JStr v)) <$> food r;
      (fun v => (lit "calories", JInt v)) <$> calories r;
      (fun v => (lit "note", JStr v)) <$> note r ]).

Definition records_json (records : list DietRecord) : jval :=
  JList (map record_json records).

(** [bool(record)]: a dict is true when it has a key. *)
Definition record_truthy (r : DietRecord) : bool :=
  match record_json r with
  | JDict [] => false
  | _ => true
  end.

(** A record as the record dialog creates it: all five keys, a food name
    that is not empty, calories that are not negative, and no white space
    around the food name and the note. *)
Definition as_created (r : DietRecord) : Prop :=
  ∃ d m f n t,
    r = {| date := Some d; meal := Some m; food := Some f;
           calories := Some n; note := Some t |}
    ∧ f ≠ [] ∧ Py.strip f = f ∧ 0 <= n ∧ Py.strip t = t.

Definition default_username : str := [0x8D85; 0x5927; 0x738B]%N.

(** [DEFAULT_CREDENTIALS], with its keys in source order. *)
Definition DEFAULT_ITEMS : list (str * jval) :=
  [ (lit "username", JStr default_username);
    (lit "password", JStr (lit "123456"));
    (lit "height", JInt 170);
    (lit "weight", JInt 65) ].

Definition DEFAULT_CREDENTIALS : gmap str jval := list_to_map DEFAULT_ITEMS.

(** The key set [{"username", "password", "height", "weight"}]. *)
Definition RECOGNIZED_KEYS : list str :=
  [lit "username"; lit "password"; lit "height"; lit "weight"].

(** ** Alert dialogs *)

Inductive alert :=
| AuthUsernameWrong
| AuthPasswordWrong
| FoodMissing
| CaloriesNotNumeric
| SettingsSaved
| OldPasswordWrong
| NewPasswordTooShort
| NewPasswordSameAsOld
| ConfirmationMismatch
| PasswordUpdated.


(** [QDialog.Accepted] and [QDialog.Rejected] *)
Inductive dialog_code := Accepted | Rejected.

(** What a slot of a dialog does besides changing attributes: it shows an
    alert and leaves the dialog open, or closes the dialog with a code. *)
Inductive slot_outcome :=
| Alerted (a : alert)
| Closed (code : dialog_code).

(** ** DataManager *)

Module DataManager.
Section with_json.
(** [json.loads], taken as given. *)
Variable json_loads : str -> result jval.

Definition load_records (fs : FS) : result jval :=
  if negb (path_exists DATA_FILE fs) then Ok (JList [])
  else
    match text ← read_text DATA_FILE fs; json_loads text with
    | Raise JSONDecodeError => Ok (JList [])
    | r => r
    end.
End with_json.

Definition save_records (records : jval) (fs : FS) : FS :=
  write_text DATA_FILE (Json.dumps records) fs.
End DataManager.

(** ** ConfigManager *)

Module ConfigManager.

(** [payload = DEFAULT_CREDENTIALS.copy(); payload.update({k: v for k, v in
    credentials.items() if k in {...}})] *)
Definition payload (credentials : gmap str jval) : gmap str jval :=
  filter (fun kv => kv.1 ∈ RECOGNIZED_KEYS) credentials ∪ DEFAULT_CREDENTIALS.

(** The items of the payload in dict order.  [update] keeps the position of
    a key that is already there, and the comprehension lets through no key
    that [DEFAULT_CREDENTIALS] lacks, so the order is that of the defaults. *)
Definition payload_items (credentials : gmap str jval) : list (str * jval) :=
  omap (fun k => pair k <$> payload credentials !! k) (map fst DEFAULT_ITEMS).

Definition save_credentials (credentials : gmap str jval) (fs : FS) : FS :=
  write_text CONFIG_FILE (Json.dumps (JDict (payload_items credentials))) fs.

(** The dict a JSON object denotes: each item is stored under its key, a
    later item replacing an earlier one with the same key. *)
Definition items_dict (items : list (str * jval)) : gmap str jval :=
  fold_left (fun d kv => <[kv.1 := kv.2]> d) items ∅.

Section with_json.
(** [json.loads], taken as given. *)
Variable json_loads : str -> result jval.

Definition load_credentials (fs : FS) : outcome (gmap str jval) * FS :=
  if negb (path_exists CONFIG_FILE fs) then
    (Returned DEFAULT_CREDENTIALS, save_credentials DEFAULT_CREDENTIALS fs)
  else
    let data :=
      match text ← read_text CONFIG_FILE fs; json_loads text with
      | Raise JSONDecodeError => Ok (JDict [])
      | r => r
      end in
    match data with
    | Ok (JDict items) => (Returned (payload (items_dict items)), fs)
    | Ok _ => (Raising AttributeError, fs)
    | Raise e => (Raising (Exn e), fs)
    end.
End with_json.

End ConfigManager.

(** ** LoginWindow *)

Module LoginWindow.

Record t := mk {
  credentials : gmap str jval;
  username_edit : str;
  password_edit : str;
  authenticated_user : jval
}.

(** [self.credentials.get("username", "admin")] *)
Definition expected_user (w : t) : jval :=
  default (JStr (lit "admin")) (credentials w !! lit "username").

(** [self.credentials.get("password", "123456")] *)
Definition expected_pass (w : t) : jval :=
  default (JStr (lit "123456")) (credentials w !! lit "password").

Definition validate_login (w : t) : t * slot_outcome :=
  let username := Py.strip (username_edit w) in
  let password := password_edit w in
  if negb (str_eq username (expected_user w)) then (w, Alerted AuthUsernameWrong)
  else if negb (str_eq password (expected_pass w)) then (w, Alerted AuthPasswordWrong)
  else
    (mk (credentials w) (username_edit w) (password_edit w)
        (JStr (Py.or_else username [0x5065; 0x5EB7; 0x8FBE; 0x4EBA]%N)),
     Closed Accepted).

(** [QLineEdit(contents)]: the contents are a str; None is taken as the
    parent, there being none, and leaves the field empty; no overload of
    the constructor takes a value of another type. *)
Definition line_edit_of (contents : jval) : result str :=
  match contents with
  | JStr s => Ok s
  | JNull => Ok []
  | _ => Raise TypeError
  end.

Section with_json.
(** [json.loads], taken as given. *)
Variable json_loads : str -> result jval.

(** [__init__] and [_build_ui]: the credentials given, or those of the
    profile file when none or an empty dict is given; their user name in
    [authenticated_user] and in the user name field; an empty password
    field. *)
Definition init (credentials : option (gmap str jval)) (fs : FS) : outcome t * FS :=
  let loaded :=
    match credentials with
    | Some c =>
        if (size c =? 0)%nat then ConfigManager.load_credentials json_loads fs
        else (Returned c, fs)
    | None => ConfigManager.load_credentials json_loads fs
    end in
  match loaded with
  | (Returned c, fs) =>
      let user := default (JStr (lit "admin")) (c !! lit "username") in
      match line_edit_of user with
      | Ok text => (Returned (mk c text [] user), fs)
      | Raise e => (Raising (Exn e), fs)
      end
  | (Raising e, fs) => (Raising e, fs)
  end.
End with_json.

(** What the user does while the login window is open. *)
Inductive user_action :=
| TypeUsername (s : str)
| TypePassword (s : str)
| ClickLogin
| CloseWindow.

Definition edit (a : user_action) (w : t) : t :=
  match a with
  | TypeUsername s => mk (credentials w) s (password_edit w) (authenticated_user w)
  | TypePassword s => mk (credentials w) (username_edit w) s (authenticated_user w)
  | ClickLogin | CloseWindow => w
  end.

(** [exec_()]: the modal loop.  The button runs [validate_login]; an alert
    leaves the window open for the next action; closing the window (or no
    action left) rejects.  The alerts shown on the way are returned. *)
Fixpoint exec_ (w : t) (actions : list user_action) : t * dialog_code * list alert :=
  match actions with
  | [] => (w, Rejected, [])
  | CloseWindow :: _ => (w, Rejected, [])
  | ClickLogin :: rest =>
      match validate_login w with
      | (w', Closed code) => (w', code, [])
      | (w', Alerted a) =>
          match exec_ w' rest with
          | (w'', code, alerts) => (w'', code, a :: alerts)
          end
      end
  | a :: rest => exec_ (edit a w) rest
  end.

Definition get_username (w : t) : jval := authenticated_user w.

End LoginWindow.

(** ** RecordDialog *)

Module RecordDialog.

(** The items of [meal_combo]. *)
Inductive meal_item := Breakfast | Lunch | Dinner.

Definition meal_text (m : meal_item) : str :=
  match m with
  | Breakfast => [0x65E9; 0x9910]%N
  | Lunch => [0x5348; 0x9910]%N
  | Dinner => [0x665A; 0x9910]%N
  end.

Record t := mk {
  record : DietRecord;
  date_edit : QDate.t;
  meal_combo : meal_item;
  food_edit : str;
  calorie_edit : str;
  note_edit : str;
  result_data : option DietRecord
}.

(** The empty dict of [record or {}]. *)
Definition no_record : DietRecord :=
  {| date := None; meal := None; food := None; calories := None; note := None |}.

(** [meal_combo.setCurrentText(text)]: selects the item with that text,
    if there is one. *)
Definition setCurrentText (text : str) (current : meal_item) : meal_item :=
  if bool_decide (text = meal_text Breakfast) then Breakfast
  else if bool_decide (text = meal_text Lunch) then Lunch
  else if bool_decide (text = meal_text Dinner) then Dinner
  else current.

Section with_qt.
Variable fromString : str -> QDate.t.
Variable currentDate : QDate.t.

(** [__init__] and [_build_ui]: an empty form dated today, filled from
    the record when one is given. *)
Definition init (rec : option DietRecord) : t :=
  let record := match rec with
                | Some r => if record_truthy r then r else no_record
                | None => no_record
                end in
  if record_truthy record then
    let date_obj :=
      match date record with
      | Some date_str =>
          if Py.truthy date_str && QDate.isValid (fromString date_str)
          then fromString date_str else currentDate
      | None => currentDate
      end in
    mk record date_obj
       (setCurrentText (default (meal_text Breakfast) (meal record)) Breakfast)
       (default [] (food record))
       (from_option Py.str_of_Z [] (calories record))
       (default [] (note record))
       None
  else mk record currentDate Breakfast [] [] [] None.
End with_qt.

Definition handle_accept (d : t) : result (t * slot_outcome) :=
  let food := Py.strip (food_edit d) in
  let calorie_text := Py.strip (calorie_edit d) in
  if negb (Py.truthy food) then Ok (d, Alerted FoodMissing)
  else if negb (Py.isdigit calorie_text) then Ok (d, Alerted CaloriesNotNumeric)
  else
    n ← Py.int calorie_text;
    Ok (mk (record d) (date_edit d) (meal_combo d) (food_edit d)
           (calorie_edit d) (note_edit d)
           (Some {| date := Some (QDate.toString (date_edit d));
                    meal := Some (meal_text (meal_combo d));
                    food := Some food;
                    calories := Some n;
                    note := Some (Py.strip (note_edit d)) |}),
        Closed Accepted).

(** What the user does while the dialog is open. *)
Inductive user_action :=
| PickDate (d : QDate.t)
| PickMeal (m : meal_item)
| TypeFood (s : str)
| TypeCalories (s : str)
| TypeNote (s : str)
| ClickOk
| ClickCancel.

Definition edit (a : user_action) (d : t) : t :=
  match a with
  | PickDate x => mk (record d) x (meal_combo d) (food_edit d) (calorie_edit d) (note_edit d) (result_data d)
  | PickMeal x => mk (record d) (date_edit d) x (food_edit d) (calorie_edit d) (note_edit d) (result_data d)
  | TypeFood x => mk (record d) (date_edit d) (meal_combo d) x (calorie_edit d) (note_edit d) (result_data d)
  | TypeCalories x => mk (record d) (date_edit d) (meal_combo d) (food_edit d) x (note_edit d) (result_data d)
  | TypeNote x => mk (record d) (date_edit d) (meal_combo d) (food_edit d) (calorie_edit d) x (result_data d)
  | ClickOk | ClickCancel => d
  end.

(** [exec_()]: the modal loop.  OK runs [handle_accept]; an alert leaves the
    dialog open for the next action; Cancel, or closing the window (no
    action left), rejects.  The alerts shown on the way are returned. *)
Fixpoint exec_ (d : t) (actions : list user_action)
  : result (t * dialog_code * list alert) :=
  match actions with
  | [] => Ok (d, Rejected, [])
  | ClickCancel :: _ => Ok (d, Rejected, [])
  | ClickOk :: rest =>
      r ← handle_accept d;
      match r with
      | (d', Closed code) => Ok (d', code, [])
      | (d', Alerted a) =>
          r' ← exec_ d' rest;
          match r' with
          | (d'', code, alerts) => Ok (d'', code, a :: alerts)
          end
      end
  | a :: rest => exec_ (edit a d) rest
  end.

End RecordDialog.

(** ** MainWindow *)

Module MainWindow.

(** A row of the recent-records table: the four text cells and the list
    index its edit and delete buttons are bound to. *)
Record recent_row := {
  row_date : str;
  row_meal : str;
  row_food : str;
  row_calories : str;
  row_index : nat
}.

(** The text of [calorie_delta_label]. *)
Inductive delta_text :=
| Remaining (kcal : Z)
| Exceeded (kcal : Z).

(** The text of a highlight chip. *)
Inductive chip_text :=
| ChipBlank
| ChipDays (n : nat)
| ChipMeals (n : nat)
| ChipRecords (n : nat).

Inductive bmi_status := Underweight | Normal | Overweight | Obese.

(** The text of [body_label]: the one set in [_build_body_card], or
    height, weight, BMI and status. *)
Inductive body_text :=
| BodyPlaceholder
| BodyInfo (height weight : jval) (bmi : float) (status : bmi_status).

(** The attributes of the window.  A widget attribute is [None] until
    [_build_ui] has created the widget; its value is what the widget
    shows or holds.  Widgets that only display text no slot reads back
    (main table, status bar, greeting, tip, preference chips) are left
    out. *)
Record t := mk {
  username : str;
  records : list DietRecord;
  target_calories : Z;
  credentials : gmap str jval;
  recent_table : option (list recent_row);
  calorie_progress : option (Z * Z);
  calorie_label : option (Z * Z);
  calorie_delta_label : option delta_text;
  highlight_labels : gmap str chip_text;
  body_label : option body_text;
  name_input : option str;
  target_spin : option Z;
  height_spin : option Z;
  weight_spin : option Z;
  old_password_input : option str;
  new_password_input : option str;
  confirm_password_input : option str
}.

(** Assignment to one attribute of [self]. *)
Definition set_username (v : str) (w : t) : t :=
  mk v (records w) (target_calories w) (credentials w) (recent_table w)
    (calorie_progress w) (calorie_label w) (calorie_delta_label w)
    (highlight_labels w) (body_label w) (name_input w) (target_spin w)
    (height_spin w) (weight_spin w) (old_password_input w)
    (new_password_input w) (confirm_password_input w).
Definition set_records (v : list DietRecord) (w : t) : t :=
  mk (username w) v (target_calories w) (credentials w) (recent_table w)
    (calorie_progress w) (calorie_label w) (calorie_delta_label w)
    (highlight_labels w) (body_label w) (name_input w) (target_spin w)
    (height_spin w) (weight_spin w) (old_password_input w)
    (new_password_input w) (confirm_password_input w).
Definition set_target_calories (v : Z) (w : t) : t :=
  mk (username w) (records w) v (credentials w) (recent_table w)
    (calorie_progress w) (calorie_label w) (calorie_delta_label w)
    (highlight_labels w) (body_label w) (name_input w) (target_spin w)
    (height_spin w) (weight_spin w) (old_password_input w)
    (new_password_input w) (confirm_password_input w).
Definition set_credentials (v : gmap str jval) (w : t) : t :=
  mk (username w) (records w) (target_calories w) v (recent_table w)
    (calorie_progress w) (calorie_label w) (calorie_delta_label w)
    (highlight_labels w) (body_label w) (name_input w) (target_spin w)
    (height_spin w) (weight_spin w) (old_password_input w)
    (new_password_input w) (confirm_password_input w).
Definition set_recent_table (v : option (list recent_row)) (w : t) : t :=
  mk (username w) (records w) (target_calories w) (credentials w) v
    (calorie_progress w) (calorie_label w) (calorie_delta_label w)
    (highlight_labels w) (body_label w) (name_input w) (target_spin w)
    (height_spin w) (weight_spin w) (old_password_input w)
    (new_password_input w) (confirm_password_input w).
Definition set_calorie_progress (v : option (Z * Z)) (w : t) : t :=
  mk (username w) (records w) (target_calories w) (credentials w)
    (recent_table w) v (calorie_label w) (calorie_delta_label w)
    (highlight_labels w) (body_label w) (name_input w) (target_spin w)
    (height_spin w) (weight_spin w) (old_password_input w)
    (new_password_input w) (confirm_password_input w).
Definition set_calorie_label (v : option (Z * Z)) (w : t) : t :=
  mk (username w) (records w) (target_calories w) (credentials w)
    (recent_table w) (calorie_progress w) v (calorie_delta_label w)
    (highlight_labels w) (body_label w) (name_input w) (target_spin w)
    (height_spin w) (weight_spin w) (old_password_input w)
    (new_password_input w) (confirm_password_input w).
Definition set_calorie_delta_label (v : option delta_text) (w : t) : t :=
  mk (username w) (records w) (target_calories w) (credentials w)
    (recent_table w) (calorie_progress w) (calorie_label w) v
    (highlight_labels w) (body_label w) (name_input w) (target_spin w)
    (height_spin w) (weight_spin w) (old_password_input w)
    (new_password_input w) (confirm_password_input w).
Definition set_highlight_labels (v : gmap str chip_text) (w : t) : t :=
  mk (username w) (records w) (target_calories w) (credentials w)
    (recent_table w) (calorie_progress w) (calorie_label w)
    (calorie_delta_label w) v (body_label w) (name_input w) (target_spin w)
    (height_spin w) (weight_spin w) (old_password_input w)
    (new_password_input w) (confirm_password_input w).
Definition set_body_label (v : option body_text) (w : t) : t :=
  mk (username w) (records w) (target_calories w) (credentials w)
    (recent_table w) (calorie_progress w) (calorie_label w)
    (calorie_delta_label w) (highlight_labels w) v (name_input w)
    (target_spin w) (height_spin w) (weight_spin w) (old_password_input w)
    (new_password_input w) (confirm_password_input w).
Definition set_name_input (v : option str) (w : t) : t :=
  mk (username w) (records w) (target_calories w) (credentials w)
    (recent_table w) (calorie_progress w) (calorie_label w)
    (calorie_delta_label w) (highlight_labels w) (body_label w) v
    (target_spin w) (height_spin w) (weight_spin w) (old_password_input w)
    (new_password_input w) (confirm_password_input w).
Definition set_old_password_input (v : option str) (w : t) : t :=
  mk (username w) (records w) (target_calories w) (credentials w)
    (recent_table w) (calorie_progress w) (calorie_label w)
    (calorie_delta_label w) (highlight_labels w) (body_label w)
    (name_input w) (target_spin w) (height_spin w) (weight_spin w) v
    (new_password_input w) (confirm_password_input w).
Definition set_new_password_input (v : option str) (w : t) : t :=
  mk (username w) (records w) (target_calories w) (credentials w)
    (recent_table w) (calorie_progress w) (calorie_label w)
    (calorie_delta_label w) (highlight_labels w) (body_label w)
    (name_input w) (target_spin w) (height_spin w) (weight_spin w)
    (old_password_input w) v (confirm_password_input w).
Definition set_confirm_password_input (v : option str) (w : t) : t :=
  mk (username w) (records w) (target_calories w) (credentials w)
    (recent_table w) (calorie_progress w) (calorie_label w)
    (calorie_delta_label w) (highlight_labels w) (body_label w)
    (name_input w) (target_spin w) (height_spin w) (weight_spin w)
    (old_password_input w) (new_password_input w) v.

(** A slot returns the window and the alerts it showed, or raises; the
    file system comes back in either case. *)
Definition slot_result : Type := result (t * list alert) * FS.

(** [int(v)] as arithmetic sees it: integers, and booleans as 0 and 1. *)
Definition number_of (v : jval) : result Z :=
  match v with
  | JInt n => Ok n
  | JBool b => Ok (if b then 1 else 0)
  | _ => Raise TypeError
  end.

(** [float(n)], exact for |n| < 2^53. *)
Definition float_of_Z (n : Z) : float :=
  if 0 <=? n then PrimFloat.of_uint63 (Uint63.of_Z n)
  else PrimFloat.opp (PrimFloat.of_uint63 (Uint63.of_Z (- n))).

(** [weight / ((height / 100) ** 2)] on integers; the square is taken as
    the correctly rounded product of the quotient with itself. *)
Definition bmi_of (height weight : Z) : result float :=
  let metres := PrimFloat.div (float_of_Z height) (float_of_Z 100) in
  let squared := PrimFloat.mul metres metres in
  if PrimFloat.eqb squared 0%float then Raise ZeroDivisionError
  else Ok (PrimFloat.div (float_of_Z weight) squared).

Definition classify (bmi : float) : bmi_status :=
  if PrimFloat.ltb bmi 18.5%float then Underweight
  else if PrimFloat.ltb bmi 24%float then Normal
  else if PrimFloat.ltb bmi 28%float then Overweight
  else Obese.

Definition recent_row_of (entry : nat * DietRecord) : recent_row :=
  {| row_date := default [] (date entry.2);
     row_meal := default [] (meal entry.2);
     row_food := default [] (food entry.2);
     row_calories := from_option Py.str_of_Z [] (calories entry.2);
     row_index := entry.1 |}.

(** [list(reversed(list(enumerate(records))[-4:]))] *)
Definition latest (records : list DietRecord) : list (nat * DietRecord) :=
  let indexed := imap pair records in
  reverse (drop (length indexed - 4) indexed).

Definition refresh_recent_records (w : t) : t :=
  match recent_table w with
  | None => w
  | Some _ => set_recent_table (Some (map recent_row_of (latest (records w)))) w
  end.

(** [sum(record.get("calories", 0) for record in records
         if record.get("date") == today)] *)
Definition today_total (records : list DietRecord) (today : str) : Z :=
  fold_left Z.add
    (map (fun record => default 0 (calories record))
         (filter (fun record => date record = Some today) records))
    0.

(** [label.setText(...)] for the chip under [key], if there is one. *)
Definition set_chip (key : str) (text : chip_text) (w : t) : t :=
  match highlight_labels w !! key with
  | Some _ => set_highlight_labels (<[key := text]> (highlight_labels w)) w
  | None => w
  end.

Section slots.
(** [QDate.fromString(s, "yyyy-MM-dd")] and [QDate.currentDate()] *)
Variable fromString : str -> QDate.t.
Variable currentDate : QDate.t.

Definition update_calorie_summary (w : t) : t :=
  match calorie_progress w, calorie_label w with
  | Some _, Some _ =>
      let today := QDate.toString currentDate in
      let total := today_total (records w) today in
      let w := set_calorie_progress
                 (Some (target_calories w, Z.min total (target_calories w))) w in
      let w := set_calorie_label (Some (total, target_calories w)) w in
      match calorie_delta_label w with
      | Some _ =>
          let remaining := target_calories w - total in
          if 0 <? remaining then set_calorie_delta_label (Some (Remaining remaining)) w
          else
            let extra := Z.abs remaining in
            set_calorie_delta_label (Some (Exceeded extra)) w
      | None => w
      end
  | _, _ => w
  end.

(** The body of the loop of [update_highlights], on the pair
    [(week_days, today_meals)]. *)
Definition highlights_step (acc : gset str * nat) (record : DietRecord)
  : gset str * nat :=
  let today := currentDate in
  let week_start := QDate.addDays today (-6) in
  let date_str := default [] (date record) in
  let date_obj := fromString date_str in
  if negb (QDate.isValid date_obj) then acc
  else
    let week_days :=
      if QDate.leb week_start date_obj && QDate.leb date_obj today
      then {[QDate.toString date_obj]} ∪ acc.1 else acc.1 in
    let today_meals :=
      if QDate.eqb date_obj today then S acc.2 else acc.2 in
    (week_days, today_meals).

Definition update_highlights (w : t) : t :=
  if bool_decide (highlight_labels w = ∅) then w
  else
    let '(week_days, today_meals) :=
      fold_left highlights_step (records w) (∅, 0%nat) in
    let w := set_chip (lit "week") (ChipDays (size week_days)) w in
    let w := set_chip (lit "today") (ChipMeals today_meals) w in
    set_chip (lit "total") (ChipRecords (length (records w))) w.

Definition update_body_card (w : t) : result t :=
  match body_label w with
  | None => Ok w
  | Some _ =>
      let height := default (JInt 170) (credentials w !! lit "height") in
      let weight := default (JInt 65) (credentials w !! lit "weight") in
      h ← number_of height;
      k ← number_of weight;
      bmi ← bmi_of h k;
      Ok (set_body_label (Some (BodyInfo height weight bmi (classify bmi))) w)
  end.

(** [refresh_all]; the calls that write only to widgets left out of the
    window record ([populate_table], [update_preference_summary],
    [update_body_insight]) do not appear. *)
Definition refresh_all (w : t) : result t :=
  let w := refresh_recent_records w in
  let w := update_calorie_summary w in
  let w := update_highlights w in
  update_body_card w.

Definition add_record (actions : list RecordDialog.user_action)
    (w : t) (fs : FS) : slot_result :=
  let dialog := RecordDialog.init fromString currentDate None in
  match RecordDialog.exec_ dialog actions with
  | Raise e => (Raise e, fs)
  | Ok (dialog, code, alerts) =>
      match code, RecordDialog.result_data dialog with
      | Accepted, Some data =>
          if record_truthy data then
            let w := set_records (records w ++ [data]) w in
            let fs := DataManager.save_records (records_json (records w)) fs in
            (w ← refresh_all w; Ok (w, alerts), fs)
          else (Ok (w, alerts), fs)
      | _, _ => (Ok (w, alerts), fs)
      end
  end.

Definition edit_record_by_index (index : Z)
    (actions : list RecordDialog.user_action) (w : t) (fs : FS) : slot_result :=
  if (index <? 0) || (Z.of_nat (length (records w)) <=? index) then (Ok (w, []), fs)
  else
    let dialog :=
      RecordDialog.init fromString currentDate (records w !! Z.to_nat index) in
    match RecordDialog.exec_ dialog actions with
    | Raise e => (Raise e, fs)
    | Ok (dialog, code, alerts) =>
        match code, RecordDialog.result_data dialog with
        | Accepted, Some data =>
            if record_truthy data then
              let w := set_records (<[Z.to_nat index := data]> (records w)) w in
              let fs := DataManager.save_records (records_json (records w)) fs in
              (w ← refresh_all w; Ok (w, alerts), fs)
            else (Ok (w, alerts), fs)
        | _, _ => (Ok (w, alerts), fs)
        end
    end.

(** [confirm] is the button pressed in the confirmation dialog. *)
Definition delete_record_by_index (index : Z) (confirm : dialog_code)
    (w : t) (fs : FS) : slot_result :=
  if (index <? 0) || (Z.of_nat (length (records w)) <=? index) then (Ok (w, []), fs)
  else
    match confirm with
    | Accepted =>
        let w := set_records (delete (Z.to_nat index) (records w)) w in
        let fs := DataManager.save_records (records_json (records w)) fs in
        (w ← refresh_all w; Ok (w, []), fs)
    | Rejected => (Ok (w, []), fs)
    end.

Definition _apply_user_preferences (w : t) : result t :=
  let w := match name_input w with
           | Some _ => set_name_input (Some (username w)) w
           | None => w
           end in
  refresh_all w.

Definition save_settings (w : t) (fs : FS) : slot_result :=
  let w := match name_input w with
           | Some text => set_username (Py.or_else (Py.strip text) (username w)) w
           | None => w
           end in
  let w := match target_spin w with
           | Some value => set_target_calories value w
           | None => w
           end in
  let w := match height_spin w with
           | Some value =>
               set_credentials (<[lit "height" := JInt value]> (credentials w)) w
           | None => w
           end in
  let w := match weight_spin w with
           | Some value =>
               set_credentials (<[lit "weight" := JInt value]> (credentials w)) w
           | None => w
           end in
  let fs := ConfigManager.save_credentials (credentials w) fs in
  (w ← _apply_user_preferences w; Ok (w, [SettingsSaved]), fs).

End slots.

(** [self.credentials.get("password", DEFAULT_CREDENTIALS["password"])] *)
Definition stored_password (w : t) : jval :=
  default (JStr (lit "123456")) (credentials w !! lit "password").

Definition handle_password_change (w : t) (fs : FS) : slot_result :=
  match old_password_input w, new_password_input w, confirm_password_input w with
  | Some old, Some new, Some confirm =>
      let stored := stored_password w in
      if negb (str_eq old stored) then (Ok (w, [OldPasswordWrong]), fs)
      else if (length new <? 6)%nat then (Ok (w, [NewPasswordTooShort]), fs)
      else if str_eq new stored then (Ok (w, [NewPasswordSameAsOld]), fs)
      else if negb (bool_decide (new = confirm)) then (Ok (w, [ConfirmationMismatch]), fs)
      else
        let w := set_credentials (<[lit "password" := JStr new]> (credentials w)) w in
        let fs := ConfigManager.save_credentials (credentials w) fs in
        let w := set_old_password_input (Some []) w in
        let w := set_new_password_input (Some []) w in
        let w := set_confirm_password_input (Some []) w in
        (Ok (w, [PasswordUpdated]), fs)
  | _, _, _ => (Ok (w, []), fs)
  end.

(** The window once [__init__] has set its attributes and built its
    widgets, before the first [refresh_all]: empty tables, blank chips, the
    settings form showing the session values ([height] and [weight] are what
    the two spin boxes hold), empty password fields. *)
Definition built (username : str) (records : list DietRecord)
    (credentials : gmap str jval) (height weight : Z) : t :=
  let username := Py.or_else username [0x5065; 0x5EB7; 0x8FBE; 0x4EBA]%N in
  mk username records 2000 credentials
     (Some []) (Some (2000, -1)) (Some (0, 2000)) (Some (Remaining 0))
     (list_to_map [(lit "week", ChipBlank); (lit "today", ChipBlank);
                   (lit "total", ChipBlank)])
     (Some BodyPlaceholder)
     (Some username) (Some 2000) (Some height) (Some weight)
     (Some []) (Some []) (Some []).

(** A row of the main table: its five text cells. *)
Record table_row := {
  cell_date : str;
  cell_meal : str;
  cell_food : str;
  cell_calories : str;
  cell_note : str
}.

Definition table_row_of (record : DietRecord) : table_row :=
  {| cell_date := default [] (date record);
     cell_meal := default [] (meal record);
     cell_food := default [] (food record);
     cell_calories := from_option Py.str_of_Z [] (calories record);
     cell_note := default [] (note record) |}.

(** [populate_table] on the rows of [self.table] and the count shown in
    the status bar. *)
Definition populate_table (table : option (list table_row)) (status_bar : option nat)
    (w : t) : option (list table_row) * option nat :=
  match table with
  | None => (table, status_bar)
  | Some _ => (Some (map table_row_of (records w)), Some (length (records w)))
  end.

(** The text of a chip of the settings page. *)
Inductive pref_text :=
| PrefBlank
| PrefRecords (n : nat)
| PrefDays (n : nat)
| PrefKcal (kcal : Z).

(** The text of [tip_label]: the one set in [_build_body_card], the
    invitation shown while there is no record, or the latest record. *)
Inductive tip_text :=
| TipPlaceholder
| TipNoRecord
| TipLatest (meal food : str) (cal : Z).

(** [label.setText(...)] for the chip under [key], if there is one. *)
Definition set_pref (key : str) (text : pref_text) (labels : gmap str pref_text)
  : gmap str pref_text :=
  match labels !! key with
  | Some _ => <[key := text]> labels
  | None => labels
  end.

(** [pref_stat_labels] as [_build_preferences_card] leaves it: three
    chips, each showing "--". *)
Definition built_pref_stat_labels : gmap str pref_text :=
  list_to_map [(lit "pref_total", PrefBlank); (lit "pref_week", PrefBlank);
               (lit "pref_today", PrefBlank)].

Section slots.
Variable fromString : str -> QDate.t.
Variable currentDate : QDate.t.

(** The body of the loop of [update_preference_summary], on the pair
    [(week_days, today_total)]. *)
Definition preference_step (acc : gset str * Z) (record : DietRecord)
  : gset str * Z :=
  let today := currentDate in
  let week_start := QDate.addDays today (-6) in
  let date_str := default [] (date record) in
  let date_obj := fromString date_str in
  if negb (QDate.isValid date_obj) then acc
  else
    let week_days :=
      if QDate.leb week_start date_obj && QDate.leb date_obj today
      then {[QDate.toString date_obj]} ∪ acc.1 else acc.1 in
    let today_total :=
      if QDate.eqb date_obj today then acc.2 + default 0 (calories record)
      else acc.2 in
    (week_days, today_total).

(** [update_preference_summary] on [self.pref_stat_labels] *)
Definition update_preference_summary (pref_stat_labels : gmap str pref_text) (w : t)
  : gmap str pref_text :=
  if bool_decide (pref_stat_labels = ∅) then pref_stat_labels
  else
    let labels :=
      set_pref (lit "pref_total") (PrefRecords (length (records w))) pref_stat_labels in
    let '(week_days, today_total) :=
      fold_left preference_step (records w) (∅, 0) in
    let labels := set_pref (lit "pref_week") (PrefDays (size week_days)) labels in
    set_pref (lit "pref_today") (PrefKcal today_total) labels.

End slots.

(** [update_body_insight] on [self.tip_label] *)
Definition update_body_insight (tip_label : option tip_text) (w : t) : option tip_text :=
  match tip_label with
  | None => tip_label
  | Some _ =>
      match last (records w) with
      | None => Some TipNoRecord
      | Some latest =>
          let food := default [0x7F8E; 0x5473; 0x98DF; 0x7269]%N (food latest) in
          let meal := default [0x9910; 0x6B21]%N (meal latest) in
          let cal := default 0 (calories latest) in
          Some (TipLatest meal food cal)
      end
  end.

(** [current_row]; [table] is the current row of [self.table], -1 when no
    row is current. *)
Definition current_row (table : option Z) : Z :=
  match table with
  | None => -1
  | Some currentRow => currentRow
  end.

(** The two alerts that ask for a selection. *)
Inductive selection_alert := SelectToEdit | SelectToDelete.

Definition selection_alert_text (a : selection_alert) : string * string :=
  match a with
  | SelectToEdit => ("温馨提示", "请选择一条记录进行编辑。")
  | SelectToDelete => ("温馨提示", "请选择要删除的记录。")
  end%string.

(** A slot of the selected row either shows its alert and returns, or goes
    on as the slot of that index. *)
Inductive selected_result :=
| NoSelection (a : selection_alert)
| OnRow (r : slot_result).

Section selected.
Variable fromString : str -> QDate.t.
Variable currentDate : QDate.t.

Definition edit_selected_record (table : option Z)
    (actions : list RecordDialog.user_action) (w : t) (fs : FS) : selected_result :=
  let row := current_row table in
  if row <? 0 then NoSelection SelectToEdit
  else OnRow (edit_record_by_index fromString currentDate row actions w fs).

Definition delete_selected_record (table : option Z) (confirm : dialog_code)
    (w : t) (fs : FS) : selected_result :=
  let row := current_row table in
  if row <? 0 then NoSelection SelectToDelete
  else OnRow (delete_record_by_index fromString currentDate row confirm w fs).

End selected.

(** How [handle_logout] leaves the window when it returns: as it was,
    the confirmation having been rejected; shown again after a login; or
    hidden, with [QApplication.quit] called. *)
Inductive logout_outcome :=
| Stayed (w : t)
| Relogged (w : t)
| QuitCalled (w : t).

Section logout.
Variable json_loads : str -> result jval.
Variable fromString : str -> QDate.t.
Variable currentDate : QDate.t.

(** [handle_logout], given the button pressed in the confirmation and what
    the user does in the login window.  The result of a login that is
    accepted is a str, [validate_login] having stored it. *)
Definition handle_logout (confirm : dialog_code)
    (actions : list LoginWindow.user_action) (w : t) (fs : FS)
  : outcome (logout_outcome * list alert) * FS :=
  match confirm with
  | Rejected => (Returned (Stayed w, []), fs)
  | Accepted =>
      match ConfigManager.load_credentials json_loads fs with
      | (Raising e, fs) => (Raising e, fs)
      | (Returned credentials, fs) =>
          match LoginWindow.init json_loads (Some credentials) fs with
          | (Raising e, fs) => (Raising e, fs)
          | (Returned login, fs) =>
              match LoginWindow.exec_ login actions with
              | (login, Accepted, alerts) =>
                  match LoginWindow.get_username login with
                  | JStr name =>
                      let w := set_username name w in
                      match ConfigManager.load_credentials json_loads fs with
                      | (Raising e, fs) => (Raising e, fs)
                      | (Returned credentials, fs) =>
                          let w := set_credentials credentials w in
                          match _apply_user_preferences fromString currentDate w with
                          | Ok w => (Returned (Relogged w, alerts), fs)
                          | Raise e => (Raising (Exn e), fs)
                          end
                      end
                  | _ => (Raising (Exn TypeError), fs)
                  end
              | (_, Rejected, alerts) => (Returned (QuitCalled w, alerts), fs)
              end
          end
      end
  end.
End logout.

End MainWindow.

(** What the user has typed into the password form. *)
Definition with_password_form (old new confirm : str) (w : MainWindow.t) : MainWindow.t :=
  MainWindow.set_old_password_input (Some old)
    (MainWindow.set_new_password_input (Some new)
       (MainWindow.set_confirm_password_input (Some confirm) w)).

(** A session used in the examples: the default profile, no record yet. *)
Definition fresh_window : MainWindow.t :=
  MainWindow.built (lit "bob") [] DEFAULT_CREDENTIALS 170 65.

(** A record as the dialog writes it. *)
Definition entry (day meal_name food_name : str) (kcal : Z) : DietRecord :=
  {| date := Some day; meal := Some meal_name; food := Some food_name;
     calories := Some kcal; note := Some [] |}.

(** A day used in the examples, and a session that has eaten exactly its
    2000 kcal target on that day. *)
Definition example_day : QDate.t := QDate.mk 2024 3 2.

Definition window_on_target : MainWindow.t :=
  MainWindow.built (lit "bob")
    [entry (lit "2024-03-02") (lit "lunch") (lit "rice") 1200;
     entry (lit "2024-03-02") (lit "dinner") (lit "soup") 800]
    DEFAULT_CREDENTIALS 170 65.

(** ** Body-mass index over the rationals

    The classification the specification states, computed without rounding:
    weight / (height / 100)^2 against the bounds 18.5, 24 and 28. *)

Definition bmi_exact (height weight : Z) : Q :=
  (inject_Z weight / (inject_Z height / 100) ^ 2)%Q.

Definition exact_status (height weight : Z) : MainWindow.bmi_status :=
  let bmi := bmi_exact height weight in
  if negb (Qle_bool 18.5 bmi) then MainWindow.Underweight
  else if negb (Qle_bool 24 bmi) then MainWindow.Normal
  else if negb (Qle_bool 28 bmi) then MainWindow.Overweight
  else MainWindow.Obese.

Definition status_eqb (a b : MainWindow.bmi_status) : bool :=
  match a, b with
  | MainWindow.Underweight, MainWindow.Underweight
  | MainWindow.Normal, MainWindow.Normal
  | MainWindow.Overweight, MainWindow.Overweight
  | MainWindow.Obese, MainWindow.Obese => true
  | _, _ => false
  end.

(** The status the window computes agrees with the exact one. *)
Definition status_agrees (height weight : Z) : bool :=
  match MainWindow.bmi_of height weight with
  | Ok bmi => status_eqb (MainWindow.classify bmi) (exact_status height weight)
  | Raise _ => false
  end.

(** The status shown for a height and a weight. *)
Definition status_of (height weight : Z) : result MainWindow.bmi_status :=
  bmi ← MainWindow.bmi_of height weight; Ok (MainWindow.classify bmi).

(** ** Check-in days

    The vocabulary of the weekly count: the date a record parses to, the
    week that ends today, the distinct days of that week on which a record
    with a valid date exists, and the records dated today. *)

#[global] Instance QDate_eq_dec : EqDecision QDate.t.
Proof. solve_decision. Defined.

Section checkin.
Variable fromString : str -> QDate.t.
Variable today : QDate.t.

Definition record_date (record : DietRecord) : QDate.t :=
  fromString (default [] (date record)).

Definition parsable (record : DietRecord) : bool :=
  QDate.isValid (record_date record).

Definition in_week (d : QDate.t) : bool :=
  QDate.leb (QDate.addDays today (-6)) d && QDate.leb d today.

Definition checkin_days (records : list DietRecord) : list QDate.t :=
  remove_dups
    (filter (fun d => in_week d) (map record_date (filter (fun r => parsable r) records))).

Definition meals_today (records : list DietRecord) : nat :=
  length (filter (fun r => parsable r ∧ record_date r = today) records).

End checkin.

(** A week of records for the examples: two on the example day, one three
    days before, one outside the week and one whose date is not a date. *)
Definition example_week : list DietRecord :=
  [ entry (lit "2024-03-02") (lit "breakfast") (lit "egg") 150;
    entry (lit "2024-02-28") (lit "lunch") (lit "rice") 600;
    entry (lit "someday") (lit "lunch") (lit "tea") 5;
    entry (lit "2024-02-20") (lit "dinner") (lit "fish") 400;
    entry (lit "2024-03-02") (lit "dinner") (lit "soup") 300 ].

(** ** The persisted profile *)

(** The value the profile file holds under [key] once [credentials] is
    saved. *)
Definition persisted (credentials : gmap str jval) (key : str) : jval :=
  default JNull (ConfigManager.payload credentials !! key).

(** The session data of a window: what is not a widget. *)
Definition same_session (a b : MainWindow.t) : Prop :=
  MainWindow.username a = MainWindow.username b
  ∧ MainWindow.records a = MainWindow.records b
  ∧ MainWindow.target_calories a = MainWindow.target_calories b
  ∧ MainWindow.credentials a = MainWindow.credentials b.

(** ** A reference reading of [json.loads]

    [DataManager.load_records] takes [json.loads] as a parameter.  This
    parser instantiates it in the examples: documents of null, booleans,
    integers, strings, arrays and objects, with the escapes [json.dumps]
    writes.  A repeated key keeps its first position and its last value, as
    in a Python dict. *)

Module JsonRef.

Definition is_space (c : N) : bool :=
  ((c =? 0x20) || (c =? 0x09) || (c =? 0x0A) || (c =? 0x0D))%N.

Fixpoint skip_space (s : str) : str :=
  match s with
  | c :: s' => if is_space c then skip_space s' else s
  | [] => []
  end.

Definition hex_value (c : N) : option N :=
  (if (0x30 <=? c) && (c <=? 0x39) then Some (c - 0x30)
   else if (0x61 <=? c) && (c <=? 0x66) then Some (c - 0x61 + 10)
   else if (0x41 <=? c) && (c <=? 0x46) then Some (c - 0x41 + 10)
   else None)%N.

(** The characters of a string up to its closing quote, and what follows. *)
Fixpoint string_body (s : str) : option (str * str) :=
  match s with
  | [] => None
  | c :: rest =>
      if (c =? 0x22)%N then Some ([], rest)
      else if (c =? 0x5C)%N then
        match rest with
        | e :: rest' =>
            if (e =? 0x75)%N then
              match rest' with
              | h3 :: h2 :: h1 :: h0 :: rest'' =>
                  match hex_value h3, hex_value h2, hex_value h1, hex_value h0 with
                  | Some a, Some b, Some c', Some d =>
                      prod_map (cons (a * 4096 + b * 256 + c' * 16 + d)%N) id
                        <$> string_body rest''
                  | _, _, _, _ => None
                  end
              | _ => None
              end
            else
              let plain (x : N) := prod_map (cons x) id <$> string_body rest' in
              if (e =? 0x22)%N then plain 0x22%N
              else if (e =? 0x5C)%N then plain 0x5C%N
              else if (e =? 0x2F)%N then plain 0x2F%N
              else if (e =? 0x62)%N then plain 0x08%N
              else if (e =? 0x66)%N then plain 0x0C%N
              else if (e =? 0x6E)%N then plain 0x0A%N
              else if (e =? 0x72)%N then plain 0x0D%N
              else if (e =? 0x74)%N then plain 0x09%N
              else None
        | [] => None
        end
      else if (c <? 0x20)%N then None
      else prod_map (cons c) id <$> string_body rest
  end.

(** The decimal digits at the head of [s], as a number, and what follows. *)
Fixpoint digits (acc : Z) (seen : bool) (s : str) : option (Z * str) :=
  match s with
  | c :: rest =>
      if ((0x30 <=? c) && (c <=? 0x39))%N
      then digits (10 * acc + (Z.of_N c - 48)) true rest
      else if seen then Some (acc, s) else None
  | [] => if seen then Some (acc, []) else None
  end.

Definition dict_set (k : str) (v : jval) (items : list (str * jval))
  : list (str * jval) :=
  if bool_decide (k ∈ items.*1)
  then map (fun kv => if bool_decide (kv.1 = k) then (k, v) else kv) items
  else items ++ [(k, v)].

Fixpoint value (fuel : nat) (s : str) : option (jval * str) :=
  match fuel with
  | O => None
  | S fuel =>
      let s := skip_space s in
      match s with
      | [] => None
      | c :: rest =>
          if (c =? 0x22)%N then prod_map JStr id <$> string_body rest
          else if (c =? 0x5B)%N then
            match skip_space rest with
            | 0x5D%N :: rest' => Some (JList [], rest')
            | _ => prod_map JList id <$> elements fuel rest
            end
          else if (c =? 0x7B)%N then
            match skip_space rest with
            | 0x7D%N :: rest' => Some (JDict [], rest')
            | _ => prod_map JDict id <$> members fuel [] rest
            end
          else if (c =? 0x2D)%N then prod_map (fun n => JInt (- n)) id <$> digits 0 false rest
          else if ((0x30 <=? c) && (c <=? 0x39))%N then prod_map JInt id <$> digits 0 false s
          else
            match s with
            | 0x6E%N :: 0x75%N :: 0x6C%N :: 0x6C%N :: rest' => Some (JNull, rest')
            | 0x74%N :: 0x72%N :: 0x75%N :: 0x65%N :: rest' => Some (JBool true, rest')
            | 0x66%N :: 0x61%N :: 0x6C%N :: 0x73%N :: 0x65%N :: rest' =>
                Some (JBool false, rest')
            | _ => None
            end
      end
  end
with elements (fuel : nat) (s : str) : option (list jval * str) :=
  match fuel with
  | O => None
  | S fuel =>
      match value fuel s with
      | Some (v, rest) =>
          match skip_space rest with
          | 0x2C%N :: rest' => prod_map (cons v) id <$> elements fuel rest'
          | 0x5D%N :: rest' => Some ([v], rest')
          | _ => None
          end
      | None => None
      end
  end
with members (fuel : nat) (seen : list (str * jval)) (s : str)
  : option (list (str * jval) * str) :=
  match fuel with
  | O => None
  | S fuel =>
      match skip_space s with
      | 0x22%N :: rest =>
          match string_body rest with
          | Some (k, rest1) =>
              match skip_space rest1 with
              | 0x3A%N :: rest2 =>
                  match value fuel rest2 with
                  | Some (v, rest3) =>
                      match skip_space rest3 with
                      | 0x2C%N :: rest4 => members fuel (dict_set k v seen) rest4
                      | 0x7D%N :: rest4 => Some (dict_set k v seen, rest4)
                      | _ => None
                      end
                  | None => None
                  end
              | _ => None
              end
          | None => None
          end
      | _ => None
      end
  end.

Definition loads (s : str) : result jval :=
  match value (S (length s)) s with
  | Some (v, rest) =>
      match skip_space rest with
      | [] => Ok v
      | _ => Raise JSONDecodeError
      end
  | None => Raise JSONDecodeError
  end.

End JsonRef.

(** ** Sessions

    Text that UTF-8 can carry, the three operations on the record list as
    the user triggers them, and what it means for the record file to hold
    the list of the window. *)

Definition text_ok (s : str) : bool := forallb Utf8.is_scalar s.

Fixpoint jval_text_ok (v : jval) : bool :=
  match v with
  | JStr s => text_ok s
  | JList items => forallb jval_text_ok items
  | JDict items =>
      forallb (fun kv => match kv with (k, x) => text_ok k && jval_text_ok x end) items
  | _ => true
  end.

(** Every object of the document names each of its keys once. *)
Fixpoint keys_distinct (v : jval) : bool :=
  match v with
  | JList items => forallb keys_distinct items
  | JDict items =>
      bool_decide (NoDup items.*1)
      && forallb (fun kv => match kv with (_, x) => keys_distinct x end) items
  | _ => true
  end.

Inductive operation :=
| AddRecord (actions : list RecordDialog.user_action)
| EditRecord (index : Z) (actions : list RecordDialog.user_action)
| DeleteRecord (index : Z) (confirm : dialog_code).

Section session.
Variable fromString : str -> QDate.t.
Variable today : QDate.t.

Definition perform (op : operation) (w : MainWindow.t) (fs : FS)
  : MainWindow.slot_result :=
  match op with
  | AddRecord actions => MainWindow.add_record fromString today actions w fs
  | EditRecord index actions =>
      MainWindow.edit_record_by_index fromString today index actions w fs
  | DeleteRecord index confirm =>
      MainWindow.delete_record_by_index fromString today index confirm w fs
  end.

(** One operation after the other, as long as none raises. *)
Fixpoint run (ops : list operation) (w : MainWindow.t) (fs : FS)
  : result (MainWindow.t * FS) :=
  match ops with
  | [] => Ok (w, fs)
  | op :: rest =>
      match perform op w fs with
      | (Ok (w', _), fs') => run rest w' fs'
      | (Raise e, _) => Raise e
      end
  end.

End session.

(** The record file is a fresh serialization of the list in memory. *)
Definition synced (w : MainWindow.t) (fs : FS) : Prop :=
  fs !! DATA_FILE
  = Some (Utf8.encode (Json.dumps (records_json (MainWindow.records w)))).

(** Three operations for the examples: add rice, change it to noodles,
    add tea and delete the first record. *)
Definition example_operations : list operation :=
  [ AddRecord [RecordDialog.TypeFood (lit "rice"); RecordDialog.TypeCalories (lit "600");
               RecordDialog.ClickOk];
    EditRecord 0 [RecordDialog.TypeFood (lit "noodles"); RecordDialog.ClickOk];
    AddRecord [RecordDialog.TypeFood (lit "tea"); RecordDialog.TypeCalories (lit "5");
               RecordDialog.TypeNote (lit "green"); RecordDialog.ClickOk];
    DeleteRecord 0 Accepted ].

(* ===================================================================== *)
(** * Part II: properties *)
(* ===================================================================== *)

(** Two literals that differ, and membership in the recognized keys. *)
Ltac lit_neq :=
  let H := fresh in intros H; vm_compute in H; discriminate H.
Ltac in_keys := solve [unfold RECOGNIZED_KEYS; repeat constructor].

(** ** Authentication *)

Section login.
Import LoginWindow.

Lemma str_eq_true (s : str) (v : jval) : str_eq s v = true ↔ v = JStr s.
Proof.
  destruct v; simpl; try (split; [discriminate | discriminate]).
  rewrite bool_decide_eq_true. split; congruence.
Qed.

Lemma str_eq_false (s : str) (v : jval) : str_eq s v = false ↔ v ≠ JStr s.
Proof.
  rewrite <- str_eq_true. destruct (str_eq s v); split; congruence.
Qed.

(** C5, as the code has it: the login is accepted exactly when the entered
    user name with surrounding white space stripped is the stored user
    name and the entered password is the stored password, both compared
    as whole strings; any other input leaves the window as it was and shows
    one of the two authentication alerts. *)
Theorem validate_login_accepts_iff (w : t) :
  ((validate_login w).2 = Closed Accepted
     ↔ expected_user w = JStr (Py.strip (username_edit w))
       ∧ expected_pass w = JStr (password_edit w))
  ∧ ((validate_login w).2 ≠ Closed Accepted →
       validate_login w = (w, Alerted AuthUsernameWrong)
       ∨ validate_login w = (w, Alerted AuthPasswordWrong)).
Proof.
  unfold validate_login.
  destruct (str_eq (Py.strip (username_edit w)) (expected_user w)) eqn:Hu; simpl.
  - destruct (str_eq (password_edit w) (expected_pass w)) eqn:Hp; simpl.
    + apply str_eq_true in Hu, Hp. split; [tauto | congruence].
    + apply str_eq_false in Hp. split; [|auto].
      split; [discriminate | intros [_ ?]; congruence].
  - apply str_eq_false in Hu. split; [|auto].
    split; [discriminate | intros [? _]; congruence].
Qed.

(** C5 as stated fails: with the default profile, the user name followed
    by a space and the right password are accepted, although the entered
    user name is not the stored one. *)
Lemma validate_login_exact_equality_counterexample :
  let w := mk DEFAULT_CREDENTIALS (default_username ++ lit " ") (lit "123456") JNull in
  ¬ ((validate_login w).2 = Closed Accepted
       ↔ expected_user w = JStr (username_edit w)
         ∧ expected_pass w = JStr (password_edit w)).
Proof.
  intros w [Hacc _].
  assert (Hrun : (validate_login w).2 = Closed Accepted) by (vm_compute; reflexivity).
  destruct (Hacc Hrun) as [Huser _].
  vm_compute in Huser. discriminate Huser.
Qed.

(** A rejected login, as an instance of the theorem. *)
Lemma validate_login_accepts_iff_witness :
  let w := mk DEFAULT_CREDENTIALS default_username (lit "12345") JNull in
  validate_login w = (w, Alerted AuthUsernameWrong)
  ∨ validate_login w = (w, Alerted AuthPasswordWrong).
Proof.
  intros w. apply (validate_login_accepts_iff w).
  vm_compute. discriminate.
Defined.

End login.

(** ** Password change *)

Section password.
Import MainWindow.





(** The two rejected changes of the specification's examples. *)
Example password_change_too_short :
  let w := with_password_form (lit "123456") (lit "12345") (lit "12345") fresh_window in
  handle_password_change w ∅ = (Ok (w, [NewPasswordTooShort]), ∅).
Proof. vm_compute. reflexivity. Qed.

Example password_change_same_as_old :
  let w := with_password_form (lit "123456") (lit "123456") (lit "123456") fresh_window in
  handle_password_change w ∅ = (Ok (w, [NewPasswordSameAsOld]), ∅).
Proof. vm_compute. reflexivity. Qed.

End password.

(** ** Record input *)

Section record_input.
Import RecordDialog.

(** What [handle_accept] does, by the outcome of its two checks and of the
    conversion: a missing food name and a calorie text that is not all
    digits are answered with their alerts and leave the dialog as it was; a
    calorie text that [int] converts closes the dialog with the record; one
    that [int] refuses raises out of the slot. *)
Lemma handle_accept_cases (d : t) :
  let food := Py.strip (food_edit d) in
  let calorie_text := Py.strip (calorie_edit d) in
  (food = [] → handle_accept d = Ok (d, Alerted FoodMissing))
  ∧ (food ≠ [] → Py.isdigit calorie_text = false →
       handle_accept d = Ok (d, Alerted CaloriesNotNumeric))
  ∧ (food ≠ [] → Py.isdigit calorie_text = true → ∀ e,
       Py.int calorie_text = Raise e → handle_accept d = Raise e)
  ∧ (food ≠ [] → Py.isdigit calorie_text = true → ∀ n,
       Py.int calorie_text = Ok n →
       ∃ d', handle_accept d = Ok (d', Closed Accepted)
             ∧ result_data d' =
                 Some {| date := Some (QDate.toString (date_edit d));
                         meal := Some (meal_text (meal_combo d));
                         food := Some food;
                         calories := Some n;
                         note := Some (Py.strip (note_edit d)) |}).
Proof.
  intros food calorie_text. subst food calorie_text. unfold handle_accept.
  destruct (Py.strip (food_edit d)) as [|c food] eqn:Hfood; simpl.
  { repeat split; intros; congruence. }
  destruct (Py.isdigit (Py.strip (calorie_edit d))) eqn:Hdigit; simpl.
  2:{ repeat split; intros; congruence. }
  repeat split; intros; try congruence.
  - rewrite H1. reflexivity.
  - rewrite H1. simpl. eexists. split; reflexivity.
Qed.

(** A dialog that is rejected leaves the record list and the files alone;
    the alerts shown in the dialog are all that happened. *)
Lemma add_record_rejected_unchanged (fromString : str → QDate.t) (today : QDate.t)
    (actions : list user_action) (w : MainWindow.t) (fs : FS) d' alerts :
  exec_ (init fromString today None) actions = Ok (d', Rejected, alerts) →
  MainWindow.add_record fromString today actions w fs = (Ok (w, alerts), fs).
Proof. intros H. unfold MainWindow.add_record. rewrite H. reflexivity. Qed.

(** C2, where the code departs from it: a calorie text made of the
    superscript digit U+00B2 passes the [isdigit] check, [int] then raises
    ValueError, and the slot ends without an alert.  The record list and the
    files are as before, but no error message was shown. *)
Theorem add_record_superscript_calories_raises
    (fromString : str → QDate.t) (today : QDate.t) (w : MainWindow.t) (fs : FS) :
  let actions := [TypeFood (lit "apple"); TypeCalories [0xB2%N]; ClickOk] in
  Py.isdigit [0xB2%N] = true
  ∧ Py.int [0xB2%N] = Raise ValueError
  ∧ exec_ (init fromString today None) actions = Raise ValueError
  ∧ MainWindow.add_record fromString today actions w fs = (Raise ValueError, fs).
Proof. repeat split. Qed.

(** The same form with the calorie text "12x" is answered with the alert
    the check is there for. *)
Example add_record_letters_alerted
    (fromString : str → QDate.t) (today : QDate.t) (w : MainWindow.t) (fs : FS) :
  MainWindow.add_record fromString today
    [TypeFood (lit "apple"); TypeCalories (lit "12x"); ClickOk] w fs
  = (Ok (w, [CaloriesNotNumeric]), fs).
Proof. reflexivity. Qed.

End record_input.

(** ** Loading the record file *)

Section load.
Variable json_loads : str → result jval.

Lemma load_records_absent (fs : FS) :
  fs !! DATA_FILE = None →
  DataManager.load_records json_loads fs = Ok (JList []).
Proof.
  intros H. unfold DataManager.load_records, path_exists.
  rewrite H. rewrite bool_decide_eq_false_2; [reflexivity|].
  intros [? ?]; discriminate.
Qed.

Lemma load_records_present (fs : FS) (content : bytes) :
  fs !! DATA_FILE = Some content →
  DataManager.load_records json_loads fs =
    match Utf8.decode content with
    | Some text =>
        match json_loads text with
        | Raise JSONDecodeError => Ok (JList [])
        | r => r
        end
    | None => Raise UnicodeDecodeError
    end.
Proof.
  intros H. unfold DataManager.load_records, path_exists, read_text.
  rewrite H. rewrite bool_decide_eq_true_2 by eauto. simpl.
  destruct (Utf8.decode content); reflexivity.
Qed.

(** Text that [json.loads] rejects gives the empty list. *)
Lemma load_records_malformed_json (fs : FS) (content : bytes) (text : str) :
  fs !! DATA_FILE = Some content →
  Utf8.decode content = Some text →
  json_loads text = Raise JSONDecodeError →
  DataManager.load_records json_loads fs = Ok (JList []).
Proof.
  intros H Hd Hj. rewrite (load_records_present _ _ H), Hd.
  unfold mbind, result_bind. rewrite Hj. reflexivity.
Qed.

(** Text that [json.loads] accepts gives the document. *)
Lemma load_records_well_formed (fs : FS) (content : bytes) (text : str) (v : jval) :
  fs !! DATA_FILE = Some content →
  Utf8.decode content = Some text →
  json_loads text = Ok v →
  DataManager.load_records json_loads fs = Ok v.
Proof.
  intros H Hd Hj. rewrite (load_records_present _ _ H), Hd.
  unfold mbind, result_bind. rewrite Hj. reflexivity.
Qed.

(** C3, where the code departs from it: a record file whose content is not
    UTF-8 (here the single byte FF) makes [read_text] raise
    UnicodeDecodeError, which the handler for JSONDecodeError does not
    catch: the error reaches the caller instead of the empty list. *)
Theorem load_records_invalid_utf8_raises :
  DataManager.load_records json_loads {[DATA_FILE := [xff]]}
  = Raise UnicodeDecodeError.
Proof.
  rewrite (load_records_present _ [xff]) by apply lookup_singleton_eq.
  reflexivity.
Qed.

End load.

(** ** Dashboard views *)

Section views.
Import MainWindow.

Lemma latest_lookup (records : list DietRecord) (i : nat) :
  (i < Nat.min 4 (length records))%nat →
  latest records !! i
  = (fun r => (length records - 1 - i, r)%nat) <$> records !! (length records - 1 - i)%nat.
Proof.
  intros Hi. unfold latest. rewrite length_imap.
  rewrite reverse_lookup by (rewrite length_drop, length_imap; lia).
  rewrite length_drop, length_imap, lookup_drop, list_lookup_imap.
  replace (length records - 4 + (length records - (length records - 4) - S i))%nat
    with (length records - 1 - i)%nat by lia.
  reflexivity.
Qed.

(** C8: the recent-records table shows the last [min 4 n] records of the
    list, newest first: row [i] is the record at index [n - 1 - i], and
    carries that index for its buttons. *)
Theorem refresh_recent_records_last_four (w : t) (rows : list recent_row) :
  recent_table w = Some rows →
  let n := length (records w) in
  recent_table (refresh_recent_records w)
    = Some (map recent_row_of (latest (records w)))
  ∧ (latest (records w)).*2 = reverse (drop (n - 4) (records w))
  ∧ length (latest (records w)) = Nat.min 4 n
  ∧ (length (latest (records w)) <= 4)%nat
  ∧ ∀ i, (i < Nat.min 4 n)%nat →
      latest (records w) !! i
      = (fun r => (n - 1 - i, r)%nat) <$> records w !! (n - 1 - i)%nat.
Proof.
  intros Hbuilt n. subst n.
  assert (Hlen : length (latest (records w)) = Nat.min 4 (length (records w))).
  { unfold latest. rewrite length_reverse, length_drop, !length_imap. lia. }
  repeat split.
  - unfold refresh_recent_records. rewrite Hbuilt. reflexivity.
  - unfold latest. rewrite fmap_reverse, fmap_drop, fmap_imap, length_imap.
    change (imap (fun n : nat => snd ∘ pair n) (records w))
      with (imap (const id) (records w)).
    rewrite imap_const, list_fmap_id. reflexivity.
  - exact Hlen.
  - lia.
  - apply latest_lookup.
Qed.

(** With five records the table shows records 4, 3, 2 and 1. *)
Lemma refresh_recent_records_last_four_witness :
  let w := set_records (map (fun k => entry (lit "2024-03-02") [] [] k) [10; 20; 30; 40; 50])
             fresh_window in
  (latest (records w)).*2
  = reverse (drop (length (records w) - 4) (records w)).
Proof.
  intros w. apply (refresh_recent_records_last_four w []). reflexivity.
Defined.

Example latest_of_empty : latest [] = [].
Proof. reflexivity. Qed.

Example latest_of_one (r : DietRecord) : latest [r] = [(0%nat, r)].
Proof. reflexivity. Qed.

Example latest_of_five (a b c d e : DietRecord) :
  latest [a; b; c; d; e] = [(4%nat, e); (3%nat, d); (2%nat, c); (1%nat, b)].
Proof. reflexivity. Qed.

Lemma fold_left_add_foldr (l : list Z) (acc : Z) :
  fold_left Z.add l acc = acc + foldr Z.add 0 l.
Proof.
  revert acc. induction l as [|x l IH]; intros acc; simpl; [lia|].
  rewrite IH. lia.
Qed.

(** Today's total adds the calories of the records dated today, a record
    without calories counting as 0. *)
Lemma today_total_spec (records : list DietRecord) (today : str) :
  today_total records today
  = foldr Z.add 0
      (map (fun record => default 0 (calories record))
         (filter (fun record => date record = Some today) records)).
Proof. unfold today_total. rewrite fold_left_add_foldr. lia. Qed.

(** C4, as the code has it: the difference between the target and today's
    total is shown as the amount remaining when it is strictly positive;
    when it is zero or negative its absolute value is shown as the amount
    exceeded. *)
Theorem update_calorie_summary_delta (today : QDate.t) (w : t)
    (bar label : Z * Z) (delta : delta_text) :
  calorie_progress w = Some bar →
  calorie_label w = Some label →
  calorie_delta_label w = Some delta →
  let total := today_total (records w) (QDate.toString today) in
  let difference := target_calories w - total in
  (0 < difference →
     calorie_delta_label (update_calorie_summary today w) = Some (Remaining difference))
  ∧ (difference <= 0 →
     calorie_delta_label (update_calorie_summary today w) = Some (Exceeded (Z.abs difference)))
  ∧ calorie_label (update_calorie_summary today w) = Some (total, target_calories w).
Proof.
  intros Hbar Hlabel Hdelta total difference. subst total difference.
  unfold update_calorie_summary. rewrite Hbar, Hlabel. simpl. rewrite Hdelta.
  destruct (Z.ltb_spec 0 (target_calories w
                           - today_total (records w) (QDate.toString today)));
    simpl; repeat split; intros; first [reflexivity | lia].
Qed.

Lemma update_calorie_summary_delta_witness :
  calorie_delta_label (update_calorie_summary example_day window_on_target)
  = Some (Exceeded (Z.abs (target_calories window_on_target
                           - today_total (records window_on_target)
                               (QDate.toString example_day)))).
Proof.
  apply (update_calorie_summary_delta example_day window_on_target
           (2000, -1) (0, 2000) (Remaining 0) eq_refl eq_refl eq_refl).
  vm_compute. discriminate.
Defined.

(** C4 as stated fails: when today's total equals the target the difference
    is 0, which is non-negative, yet the label does not show it as the
    amount remaining (it shows 0 kcal exceeded). *)
Lemma update_calorie_summary_zero_counterexample :
  let w := window_on_target in
  let difference :=
    target_calories w - today_total (records w) (QDate.toString example_day) in
  ¬ (0 <= difference →
     calorie_delta_label (update_calorie_summary example_day w)
     = Some (Remaining difference)).
Proof.
  intros w difference Hclaim.
  assert (H : 0 <= difference) by (vm_compute; discriminate).
  specialize (Hclaim H). vm_compute in Hclaim. discriminate Hclaim.
Qed.

End views.

(** ** Body-mass index *)

Section body_card.
Import MainWindow.

Lemma status_eqb_eq (a b : bmi_status) : status_eqb a b = true → a = b.
Proof. destruct a, b; simpl; congruence. Qed.

(** Every height of the height spin box and every weight of the weight spin
    box, checked one by one. *)
Lemma status_agrees_on_spin_ranges :
  forallb (fun h => forallb (fun k => status_agrees h k) (seqZ 30 171)) (seqZ 100 151)
  = true.
Proof. vm_compute. reflexivity. Qed.

Lemma status_agrees_in_range (h k : Z) :
  100 <= h <= 250 → 30 <= k <= 200 → status_agrees h k = true.
Proof.
  intros Hh Hk.
  pose proof status_agrees_on_spin_ranges as Hall.
  rewrite forallb_forall in Hall.
  assert (Hin : In h (seqZ 100 151)) by (apply list_elem_of_In, elem_of_seqZ; lia).
  specialize (Hall h Hin). rewrite forallb_forall in Hall.
  apply Hall. apply list_elem_of_In, elem_of_seqZ. lia.
Qed.

Lemma exact_status_spec (h k : Z) :
  let bmi := bmi_exact h k in
  ((bmi < 18.5)%Q → exact_status h k = Underweight)
  ∧ ((18.5 <= bmi)%Q → (bmi < 24)%Q → exact_status h k = Normal)
  ∧ ((24 <= bmi)%Q → (bmi < 28)%Q → exact_status h k = Overweight)
  ∧ ((28 <= bmi)%Q → exact_status h k = Obese).
Proof.
  intros bmi. unfold exact_status. fold bmi.
  assert (H1 : (18.5 <= 24)%Q) by (vm_compute; discriminate).
  assert (H2 : (24 <= 28)%Q) by (vm_compute; discriminate).
  destruct (Qle_bool 18.5 bmi) eqn:E1; simpl.
  - apply Qle_bool_iff in E1.
    destruct (Qle_bool 24 bmi) eqn:E2; simpl.
    + apply Qle_bool_iff in E2.
      destruct (Qle_bool 28 bmi) eqn:E3; simpl.
      * apply Qle_bool_iff in E3.
        repeat split; intros; try reflexivity;
          exfalso; eapply Qlt_not_le; eauto.
      * assert (¬ (28 <= bmi)%Q) by (rewrite <- Qle_bool_iff; congruence).
        repeat split; intros; try reflexivity; try contradiction;
          exfalso; eapply Qlt_not_le; eauto.
    + assert (¬ (24 <= bmi)%Q) by (rewrite <- Qle_bool_iff; congruence).
      repeat split; intros; try reflexivity; try contradiction.
      * exfalso; eapply Qlt_not_le; eauto.
      * exfalso. apply H. eapply Qle_trans; eauto.
  - assert (¬ (18.5 <= bmi)%Q) by (rewrite <- Qle_bool_iff; congruence).
    repeat split; intros; try reflexivity; try contradiction.
    + exfalso. apply H. eapply Qle_trans; eauto.
    + exfalso. apply H. eapply Qle_trans; [|eauto]. eapply Qle_trans; eauto.
Qed.

(** C6: for a height of 100 to 250 cm and a weight of 30 to 200 kg the body
    card computes weight / (height / 100)^2 in floating point without error,
    and the status it shows is the one the exact quotient has: underweight
    below 18.5, normal from 18.5 and below 24, overweight from 24 and below
    28, obese from 28.  In particular 170 cm with 65 kg is normal, with 90 kg
    obese and with 50 kg underweight. *)
Theorem update_body_card_classifies :
  (∀ (w : t) (label : body_text) (h k : Z),
     body_label w = Some label →
     credentials w !! lit "height" = Some (JInt h) →
     credentials w !! lit "weight" = Some (JInt k) →
     100 <= h <= 250 → 30 <= k <= 200 →
     ∃ bmi status,
       bmi_of h k = Ok bmi
       ∧ classify bmi = status
       ∧ update_body_card w
         = Ok (set_body_label (Some (BodyInfo (JInt h) (JInt k) bmi status)) w)
       ∧ ((bmi_exact h k < 18.5)%Q → status = Underweight)
       ∧ ((18.5 <= bmi_exact h k)%Q → (bmi_exact h k < 24)%Q → status = Normal)
       ∧ ((24 <= bmi_exact h k)%Q → (bmi_exact h k < 28)%Q → status = Overweight)
       ∧ ((28 <= bmi_exact h k)%Q → status = Obese))
  ∧ status_of 170 65 = Ok Normal
  ∧ status_of 170 90 = Ok Obese
  ∧ status_of 170 50 = Ok Underweight.
Proof.
  split; [|repeat split; vm_compute; reflexivity].
  intros w label h k Hlabel Hh Hk Hhr Hkr.
  pose proof (status_agrees_in_range h k Hhr Hkr) as Hagree.
  unfold status_agrees in Hagree.
  destruct (bmi_of h k) as [bmi|] eqn:Hbmi; [|discriminate].
  apply status_eqb_eq in Hagree.
  exists bmi, (classify bmi). split; [reflexivity|]. split; [reflexivity|].
  split.
  { unfold update_body_card. rewrite Hlabel, Hh, Hk. simpl. rewrite Hbmi. reflexivity. }
  rewrite Hagree. apply exact_status_spec.
Qed.

(** The default profile, 170 cm and 65 kg: BMI 22.49..., normal. *)
Lemma update_body_card_classifies_witness :
  ∃ bmi status,
    bmi_of 170 65 = Ok bmi
    ∧ classify bmi = status
    ∧ update_body_card fresh_window
      = Ok (set_body_label (Some (BodyInfo (JInt 170) (JInt 65) bmi status)) fresh_window)
    ∧ ((bmi_exact 170 65 < 18.5)%Q → status = Underweight)
    ∧ ((18.5 <= bmi_exact 170 65)%Q → (bmi_exact 170 65 < 24)%Q → status = Normal)
    ∧ ((24 <= bmi_exact 170 65)%Q → (bmi_exact 170 65 < 28)%Q → status = Overweight)
    ∧ ((28 <= bmi_exact 170 65)%Q → status = Obese).
Proof.
  apply (proj1 update_body_card_classifies fresh_window BodyPlaceholder 170 65);
    first [reflexivity | lia].
Defined.

End body_card.

(** ** Weekly check-in days *)

Section highlights.
Import MainWindow.

(** *** Dates and their text *)

Lemma digit_inj (a b : Z) : QDate.digit a = QDate.digit b → a mod 10 = b mod 10.
Proof.
  unfold QDate.digit. intros H.
  assert (Ha := Z.mod_pos_bound a 10 ltac:(lia)).
  assert (Hb := Z.mod_pos_bound b 10 ltac:(lia)).
  apply (f_equal Z.of_N) in H. rewrite !Z2N.id in H by lia. lia.
Qed.

Lemma four_digit_decompose (a : Z) :
  0 <= a <= 9999 →
  a = 1000 * ((a / 1000) mod 10) + 100 * ((a / 100) mod 10)
      + 10 * ((a / 10) mod 10) + a mod 10.
Proof.
  intros H.
  replace (a / 1000) with (a / 10 / 10 / 10) by (rewrite !Z.div_div by lia; reflexivity).
  replace (a / 100) with (a / 10 / 10) by (rewrite !Z.div_div by lia; reflexivity).
  pose proof (Z.div_mod a 10 ltac:(lia)).
  pose proof (Z.div_mod (a / 10) 10 ltac:(lia)).
  pose proof (Z.div_mod (a / 10 / 10) 10 ltac:(lia)).
  pose proof (Z.div_mod (a / 10 / 10 / 10) 10 ltac:(lia)).
  assert (a / 10 / 10 / 10 / 10 = 0).
  { rewrite !Z.div_div by lia. apply Z.div_small. lia. }
  lia.
Qed.

Lemma two_digit_decompose (a : Z) :
  0 <= a <= 99 → a = 10 * ((a / 10) mod 10) + a mod 10.
Proof.
  intros H.
  pose proof (Z.div_mod a 10 ltac:(lia)).
  pose proof (Z.div_mod (a / 10) 10 ltac:(lia)).
  assert (a / 10 / 10 = 0).
  { rewrite !Z.div_div by lia. apply Z.div_small. lia. }
  lia.
Qed.

Lemma daysInMonth_le (y m : Z) : QDate.daysInMonth y m <= 31.
Proof.
  unfold QDate.daysInMonth.
  repeat match goal with |- context [if ?b then _ else _] => destruct b end; lia.
Qed.

Lemma isValid_bounds (d : QDate.t) :
  QDate.isValid d = true →
  1 <= QDate.month d <= 12 ∧ 1 <= QDate.day d <= 31.
Proof.
  unfold QDate.isValid. rewrite !andb_true_iff.
  intros [[[[_ H1] H2] H3] H4].
  pose proof (daysInMonth_le (QDate.year d) (QDate.month d)). lia.
Qed.

(** Two valid dates of the years 1 to 9999 with the same text are the same
    date. *)
Lemma toString_inj (a b : QDate.t) :
  QDate.isValid a = true → QDate.isValid b = true →
  1 <= QDate.year a <= 9999 → 1 <= QDate.year b <= 9999 →
  QDate.toString a = QDate.toString b → a = b.
Proof.
  intros Va Vb Ya Yb H.
  apply isValid_bounds in Va, Vb.
  destruct a as [ya ma da], b as [yb mb db]; simpl in *.
  unfold QDate.toString in H; simpl in H.
  destruct (Z.ltb_spec ya 0); [lia|]. destruct (Z.ltb_spec yb 0); [lia|].
  rewrite !Z.abs_eq in H by lia.
  unfold QDate.four_digits, QDate.two_digits in H. simpl in H.
  injection H as Hy3 Hy2 Hy1 Hy0 Hm1 Hm0 Hd1 Hd0.
  apply digit_inj in Hy3, Hy2, Hy1, Hy0, Hm1, Hm0, Hd1, Hd0.
  rewrite (four_digit_decompose ya), (four_digit_decompose yb) by lia.
  rewrite (two_digit_decompose ma), (two_digit_decompose mb) by lia.
  rewrite (two_digit_decompose da), (two_digit_decompose db) by lia.
  congruence.
Qed.

Lemma leb_year (a b : QDate.t) : QDate.leb a b = true → QDate.year a <= QDate.year b.
Proof.
  unfold QDate.leb. rewrite orb_true_iff, andb_true_iff. lia.
Qed.

Lemma eqb_eq (a b : QDate.t) : QDate.eqb a b = true ↔ a = b.
Proof.
  unfold QDate.eqb. rewrite !andb_true_iff, !Z.eqb_eq.
  destruct a, b; simpl. split; [intros [[-> ->] ->]; reflexivity | intros [= -> -> ->]; auto].
Qed.

(** Going back [k] days from a date of year 2 or later stays in year 1 or
    later, as long as [k] is less than a month. *)
Lemma prev_day_year (k : nat) (d : QDate.t) :
  (k <= 28)%nat →
  2 <= QDate.year d
  ∨ (QDate.year d = 1 ∧ QDate.month d = 12 ∧ 31 - Z.of_nat k < QDate.day d) →
  2 <= QDate.year (QDate.prev_day d)
  ∨ (QDate.year (QDate.prev_day d) = 1 ∧ QDate.month (QDate.prev_day d) = 12
     ∧ 31 - Z.of_nat (S k) < QDate.day (QDate.prev_day d)).
Proof.
  intros Hk H. unfold QDate.prev_day.
  destruct (Z.ltb_spec 1 (QDate.day d)); simpl.
  - destruct H as [H|(Hy & Hm & Hd)]; [left; lia | right; lia].
  - destruct (Z.ltb_spec 1 (QDate.month d)); simpl.
    + destruct H as [H|(Hy & Hm & Hd)]; [left; lia | lia].
    + destruct H as [H|(Hy & Hm & Hd)]; [|lia].
      destruct (Z.eqb_spec (QDate.year d) 1); [lia|].
      destruct (Z.eq_dec (QDate.year d) 2); [right; lia | left; lia].
Qed.

Lemma week_start_year (today : QDate.t) :
  1 < QDate.year today → 1 <= QDate.year (QDate.addDays today (-6)).
Proof.
  intros H. unfold QDate.addDays. simpl.
  assert (H0 : 2 <= QDate.year today
               ∨ (QDate.year today = 1 ∧ QDate.month today = 12
                  ∧ 31 - Z.of_nat 0 < QDate.day today)) by (left; lia).
  do 6 (apply prev_day_year in H0; [|lia]).
  lia.
Qed.

(** *** The loop of [update_highlights] *)

Section loop.
Variable fromString : str → QDate.t.
Variable today : QDate.t.

Lemma highlights_fold (records : list DietRecord) (days : gset str) (meals : nat) :
  fold_left (highlights_step fromString today) records (days, meals)
  = (list_to_set
       (QDate.toString <$>
          filter (fun d => in_week today d)
            (record_date fromString <$> filter (fun r => parsable fromString r) records))
     ∪ days,
     (meals + meals_today fromString today records)%nat).
Proof.
  revert days meals. unfold meals_today.
  induction records as [|r records IH]; intros days meals.
  { simpl. f_equal; [symmetry; apply (left_id_L ∅ (∪)) | lia]. }
  simpl fold_left. unfold highlights_step at 2. fold (record_date fromString r).
  destruct (QDate.isValid (record_date fromString r)) eqn:Hvalid; simpl negb; cbv iota.
  2:{ rewrite IH.
      rewrite (filter_cons_False (fun r => parsable fromString r))
        by (unfold parsable; rewrite Hvalid; auto).
      rewrite (filter_cons_False (fun r => parsable fromString r ∧ _))
        by (unfold parsable; rewrite Hvalid; intros [? _]; auto).
      reflexivity. }
  rewrite IH.
  rewrite (filter_cons_True (fun r => parsable fromString r))
    by (unfold parsable; rewrite Hvalid; exact I).
  rewrite fmap_cons. fold (in_week today (record_date fromString r)).
  f_equal.
  - destruct (in_week today (record_date fromString r)) eqn:Hweek.
    + rewrite filter_cons_True by (rewrite Hweek; exact I).
      rewrite fmap_cons, list_to_set_cons. simpl.
      rewrite (assoc_L (∪)). rewrite (comm_L (∪) (list_to_set _) {[_]}).
      reflexivity.
    + rewrite filter_cons_False by (rewrite Hweek; auto). simpl. reflexivity.
  - destruct (QDate.eqb (record_date fromString r) today) eqn:Heq; simpl.
    + apply eqb_eq in Heq.
      rewrite (filter_cons_True (fun r => parsable fromString r ∧ _))
        by (unfold parsable; rewrite Hvalid; split; [exact I | exact Heq]).
      simpl. lia.
    + rewrite (filter_cons_False (fun r => parsable fromString r ∧ _)).
      * reflexivity.
      * intros [_ Heq']. apply eqb_eq in Heq'. congruence.
Qed.

(** Records whose date is not a valid date do not take part in the loop. *)
Lemma highlights_fold_parsable (records : list DietRecord) (acc : gset str * nat) :
  fold_left (highlights_step fromString today) records acc
  = fold_left (highlights_step fromString today)
      (filter (fun r => parsable fromString r) records) acc.
Proof.
  revert acc. induction records as [|r records IH]; intros acc; [reflexivity|].
  simpl fold_left. destruct (parsable fromString r) eqn:Hp.
  - rewrite filter_cons_True by (rewrite Hp; exact I). simpl. apply IH.
  - rewrite filter_cons_False by (rewrite Hp; auto).
    rewrite <- IH. f_equal. unfold highlights_step.
    fold (record_date fromString r). unfold parsable in Hp. rewrite Hp. reflexivity.
Qed.

Lemma week_dates_spec (records : list DietRecord) (d : QDate.t) :
  d ∈ filter (fun d => in_week today d)
        (record_date fromString <$> filter (fun r => parsable fromString r) records)
  ↔ QDate.isValid d = true ∧ in_week today d = true
    ∧ ∃ r, r ∈ records ∧ record_date fromString r = d.
Proof.
  rewrite list_elem_of_filter, list_elem_of_fmap.
  setoid_rewrite list_elem_of_filter. unfold parsable.
  split.
  - intros (Hweek & r & -> & Hvalid & Hr).
    apply Is_true_true in Hweek, Hvalid. eauto.
  - intros (Hvalid & Hweek & r & Hr & <-).
    split; [rewrite Hweek; exact I|].
    exists r. split; [reflexivity|]. split; [rewrite Hvalid; exact I | exact Hr].
Qed.

Lemma size_of_texts (dates : list QDate.t) :
  (∀ a b, a ∈ dates → b ∈ dates → QDate.toString a = QDate.toString b → a = b) →
  size (list_to_set (QDate.toString <$> dates) : gset str) = length (remove_dups dates).
Proof.
  intros Hinj.
  assert (Hsame : (list_to_set (QDate.toString <$> dates) : gset str)
                  = list_to_set (QDate.toString <$> remove_dups dates)).
  { apply set_eq. intros x. rewrite !elem_of_list_to_set, !list_elem_of_fmap.
    setoid_rewrite elem_of_remove_dups. reflexivity. }
  rewrite Hsame, size_list_to_set, length_fmap; [reflexivity|].
  apply NoDup_fmap_2_strong; [|apply NoDup_remove_dups].
  intros a b Ha Hb. apply Hinj; apply elem_of_remove_dups; assumption.
Qed.

End loop.

Lemma set_chip_lookup (key : str) (text : chip_text) (w : t) (k : str) :
  highlight_labels (set_chip key text w) !! k
  = if decide (key = k) then (fun _ => text) <$> highlight_labels w !! k
    else highlight_labels w !! k.
Proof.
  unfold set_chip. destruct (highlight_labels w !! key) eqn:Hkey; simpl.
  - rewrite lookup_insert. destruct (decide (key = k)) as [<-|]; [|reflexivity].
    rewrite Hkey. reflexivity.
  - destruct (decide (key = k)) as [<-|]; [|reflexivity]. rewrite Hkey. reflexivity.
Qed.

Lemma set_chip_records (key : str) (text : chip_text) (w : t) :
  records (set_chip key text w) = records w.
Proof. unfold set_chip. destruct (highlight_labels w !! key); reflexivity. Qed.

(** The two chips after [update_highlights], in terms of the loop. *)
Lemma update_highlights_chips (fromString : str → QDate.t) (today : QDate.t) (w : t) :
  is_Some (highlight_labels w !! lit "week") →
  is_Some (highlight_labels w !! lit "today") →
  let acc := fold_left (highlights_step fromString today) (records w) (∅, 0%nat) in
  highlight_labels (update_highlights fromString today w) !! lit "week"
    = Some (ChipDays (size acc.1))
  ∧ highlight_labels (update_highlights fromString today w) !! lit "today"
    = Some (ChipMeals acc.2).
Proof.
  intros [cw Hweek] [ct Htoday] acc. subst acc. unfold update_highlights.
  rewrite bool_decide_eq_false_2
    by (intros Hempty; rewrite Hempty, lookup_empty in Hweek; discriminate).
  destruct (fold_left _ _ _) as [days meals]. simpl.
  rewrite !set_chip_lookup.
  repeat first
    [ rewrite decide_True by reflexivity
    | rewrite decide_False by (intros Heq; vm_compute in Heq; discriminate Heq) ].
  rewrite Hweek, Htoday. split; reflexivity.
Qed.

(** C7: with today in the years 2 to 9999, the week chip shows the number
    of distinct valid dates [d] with [today - 6 <= d <= today] that are the
    date of at least one record, and the today chip the number of records
    whose date is valid and is today; records whose date string is not a
    valid date change neither number. *)
Theorem update_highlights_week_and_today
    (fromString : str → QDate.t) (today : QDate.t) (w : t) :
  1 < QDate.year today <= 9999 →
  is_Some (highlight_labels w !! lit "week") →
  is_Some (highlight_labels w !! lit "today") →
  let w' := update_highlights fromString today w in
  let days := checkin_days fromString today (records w) in
  let kept := set_records (filter (fun r => parsable fromString r) (records w)) w in
  highlight_labels w' !! lit "week" = Some (ChipDays (length days))
  ∧ NoDup days
  ∧ (∀ d, d ∈ days ↔
       QDate.isValid d = true
       ∧ QDate.leb (QDate.addDays today (-6)) d = true ∧ QDate.leb d today = true
       ∧ ∃ r, r ∈ records w ∧ fromString (default [] (date r)) = d)
  ∧ highlight_labels w' !! lit "today"
    = Some (ChipMeals (meals_today fromString today (records w)))
  ∧ highlight_labels (update_highlights fromString today kept) !! lit "week"
    = highlight_labels w' !! lit "week"
  ∧ highlight_labels (update_highlights fromString today kept) !! lit "today"
    = highlight_labels w' !! lit "today".
Proof.
  intros Hyear Hweek Htoday w' days kept. subst w' days.
  destruct (update_highlights_chips fromString today w Hweek Htoday) as [Hw Ht].
  destruct (update_highlights_chips fromString today kept Hweek Htoday) as [Hw' Ht'].
  rewrite highlights_fold in Hw, Ht. simpl in Hw, Ht.
  assert (Hkept : records kept = filter (fun r => parsable fromString r) (records w))
    by reflexivity.
  rewrite Hkept, <- highlights_fold_parsable, highlights_fold in Hw', Ht'.
  simpl in Hw', Ht'.
  assert (Hstart := week_start_year today (proj1 Hyear)).
  assert (Hdays : ∀ d, d ∈ checkin_days fromString today (records w) ↔
       QDate.isValid d = true
       ∧ QDate.leb (QDate.addDays today (-6)) d = true ∧ QDate.leb d today = true
       ∧ ∃ r, r ∈ records w ∧ fromString (default [] (date r)) = d).
  { intros d. unfold checkin_days. rewrite elem_of_remove_dups, week_dates_spec.
    unfold in_week, record_date. rewrite andb_true_iff. tauto. }
  split; [|split; [apply NoDup_remove_dups|split; [exact Hdays|]]].
  - rewrite Hw. do 2 f_equal. unfold checkin_days.
    rewrite (right_id_L ∅ (∪)). apply size_of_texts.
    intros a b Ha Hb.
    apply week_dates_spec in Ha as (Va & Wa & _), Hb as (Vb & Wb & _).
    unfold in_week in Wa, Wb. apply andb_true_iff in Wa as [Wa1 Wa2], Wb as [Wb1 Wb2].
    apply leb_year in Wa1, Wa2, Wb1, Wb2.
    apply toString_inj; [assumption | assumption | lia | lia].
  - rewrite Hw', Ht', Hw, Ht. repeat split.
Qed.

(** The example week read on its last day: two check-in days (the day
    itself and the one three days before) and two meals today. *)
Lemma update_highlights_week_and_today_witness :
  let w := set_records example_week fresh_window in
  highlight_labels (update_highlights QDate.fromString_iso example_day w) !! lit "week"
  = Some (ChipDays (length (checkin_days QDate.fromString_iso example_day (records w)))).
Proof.
  intros w.
  apply (update_highlights_week_and_today QDate.fromString_iso example_day w);
    [vm_compute; split; [reflexivity | discriminate] | vm_compute; eauto ..].
Defined.

Example example_week_counts :
  let w := update_highlights QDate.fromString_iso example_day
             (set_records example_week fresh_window) in
  highlight_labels w !! lit "week" = Some (ChipDays 2)
  ∧ highlight_labels w !! lit "today" = Some (ChipMeals 2)
  ∧ highlight_labels w !! lit "total" = Some (ChipRecords 5).
Proof. vm_compute. repeat split. Qed.

End highlights.

(** ** Saving the settings *)

Section settings.
Import MainWindow.

Lemma same_session_refl (w : t) : same_session w w.
Proof. repeat split. Qed.

Lemma same_session_trans (a b c : t) :
  same_session a b → same_session b c → same_session a c.
Proof. unfold same_session. intros (? & ? & ? & ?) (? & ? & ? & ?). repeat split; congruence. Qed.

Lemma set_chip_session (key : str) (text : chip_text) (w : t) :
  same_session (set_chip key text w) w.
Proof. unfold set_chip. destruct (highlight_labels w !! key); repeat split. Qed.

Lemma refresh_recent_records_session (w : t) : same_session (refresh_recent_records w) w.
Proof. unfold refresh_recent_records. destruct (recent_table w); repeat split. Qed.

Lemma update_calorie_summary_session (today : QDate.t) (w : t) :
  same_session (update_calorie_summary today w) w.
Proof.
  unfold update_calorie_summary.
  destruct (calorie_progress w), (calorie_label w); try apply same_session_refl.
  simpl. destruct (calorie_delta_label w); [|repeat split].
  destruct (0 <? _); repeat split.
Qed.

Lemma update_highlights_session (fromString : str → QDate.t) (today : QDate.t) (w : t) :
  same_session (update_highlights fromString today w) w.
Proof.
  unfold update_highlights. destruct (bool_decide _); [apply same_session_refl|].
  destruct (fold_left _ _ _) as [days meals].
  eapply same_session_trans; [apply set_chip_session|].
  eapply same_session_trans; [apply set_chip_session|].
  apply set_chip_session.
Qed.

(** With an integer height of 100 to 250 and weight of 30 to 200 in the
    profile, [refresh_all] returns, and touches widgets only. *)
Lemma refresh_all_returns (fromString : str → QDate.t) (today : QDate.t) (w : t) (h k : Z) :
  credentials w !! lit "height" = Some (JInt h) →
  credentials w !! lit "weight" = Some (JInt k) →
  100 <= h <= 250 → 30 <= k <= 200 →
  ∃ w', refresh_all fromString today w = Ok w' ∧ same_session w' w.
Proof.
  intros Hh Hk Hhr Hkr. unfold refresh_all.
  set (w3 := update_highlights fromString today
               (update_calorie_summary today (refresh_recent_records w))).
  assert (Hs : same_session w3 w).
  { eapply same_session_trans; [apply update_highlights_session|].
    eapply same_session_trans; [apply update_calorie_summary_session|].
    apply refresh_recent_records_session. }
  destruct Hs as (Hu & Hr & Ht & Hc).
  unfold update_body_card. destruct (body_label w3); [|exists w3; repeat split; assumption].
  rewrite Hc, Hh, Hk. simpl.
  pose proof (status_agrees_in_range h k Hhr Hkr) as Hagree.
  unfold status_agrees in Hagree.
  destruct (bmi_of h k) as [bmi|]; [|discriminate]. simpl.
  eexists. split; [reflexivity|]. repeat split; assumption.
Qed.

Lemma payload_lookup (creds : gmap str jval) (k : str) :
  k ∈ RECOGNIZED_KEYS →
  ConfigManager.payload creds !! k
  = match creds !! k with
    | Some v => Some v
    | None => DEFAULT_CREDENTIALS !! k
    end.
Proof.
  intros Hk. unfold ConfigManager.payload.
  destruct (creds !! k) as [v|] eqn:Hv.
  - apply lookup_union_Some_l. apply map_lookup_filter_Some. auto.
  - rewrite lookup_union_r; [reflexivity|].
    apply map_lookup_filter_None. left. exact Hv.
Qed.

Lemma persisted_insert_ne (creds : gmap str jval) (key k : str) (v : jval) :
  k ∈ RECOGNIZED_KEYS → key ≠ k →
  persisted (<[key := v]> creds) k = persisted creds k.
Proof.
  intros Hk Hne. unfold persisted.
  rewrite !payload_lookup by assumption. rewrite lookup_insert_ne by assumption.
  reflexivity.
Qed.

Lemma persisted_insert_eq (creds : gmap str jval) (k : str) (v : jval) :
  k ∈ RECOGNIZED_KEYS → persisted (<[k := v]> creds) k = v.
Proof.
  intros Hk. unfold persisted.
  rewrite payload_lookup by assumption. rewrite lookup_insert_eq. reflexivity.
Qed.

(** The payload always has the four keys, in the order of the defaults. *)
Lemma payload_items_spec (creds : gmap str jval) :
  ConfigManager.payload_items creds
  = [ (lit "username", persisted creds (lit "username"));
      (lit "password", persisted creds (lit "password"));
      (lit "height", persisted creds (lit "height"));
      (lit "weight", persisted creds (lit "weight")) ].
Proof.
  unfold ConfigManager.payload_items, persisted. simpl.
  rewrite !payload_lookup by in_keys.
  destruct (creds !! lit "username"), (creds !! lit "password"),
    (creds !! lit "height"), (creds !! lit "weight"); reflexivity.
Qed.

(** What [save_settings] writes depends on the two spin boxes and on the
    credentials only. *)
Lemma save_settings_file (fromString : str → QDate.t) (today : QDate.t)
    (w : t) (fs : FS) (h k : Z) :
  height_spin w = Some h →
  weight_spin w = Some k →
  (save_settings fromString today w fs).2
  = ConfigManager.save_credentials
      (<[lit "weight" := JInt k]> (<[lit "height" := JInt h]> (credentials w))) fs.
Proof.
  intros Hh Hk. destruct w as [? ? ? ? ? ? ? ? ? ? name ? ? ? ? ? ?].
  simpl in Hh, Hk. subst.
  cbv [save_settings set_username set_target_calories set_credentials
       credentials height_spin weight_spin name_input target_spin username snd].
  destruct name, target_spin0; reflexivity.
Qed.

(** C10: saving the settings writes the profile file with the height and
    weight of the two spin boxes and with the user name and password it
    would have held before; no other file changes, and the nickname has no
    influence on what is written: it only becomes the display name of the
    session. *)
Theorem save_settings_frame (fromString : str → QDate.t) (today : QDate.t)
    (w : t) (fs : FS) (nick : str) (goal h k : Z) :
  name_input w = Some nick →
  target_spin w = Some goal →
  height_spin w = Some h →
  weight_spin w = Some k →
  100 <= h <= 250 → 30 <= k <= 200 →
  let r := save_settings fromString today w fs in
  r.2 = <[CONFIG_FILE :=
            Utf8.encode (Json.dumps (JDict
              [ (lit "username", persisted (credentials w) (lit "username"));
                (lit "password", persisted (credentials w) (lit "password"));
                (lit "height", JInt h);
                (lit "weight", JInt k) ]))]> fs
  ∧ r.2 !! DATA_FILE = fs !! DATA_FILE
  ∧ (∀ nick', (save_settings fromString today (set_name_input (Some nick') w) fs).2 = r.2)
  ∧ ∃ w', r.1 = Ok (w', [SettingsSaved])
      ∧ username w' = Py.or_else (Py.strip nick) (username w)
      ∧ target_calories w' = goal
      ∧ credentials w'
        = <[lit "weight" := JInt k]> (<[lit "height" := JInt h]> (credentials w))
      ∧ records w' = records w.
Proof.
  intros Hnick Hgoal Hh Hk Hhr Hkr r.
  assert (Hr2 : r.2 = ConfigManager.save_credentials
              (<[lit "weight" := JInt k]> (<[lit "height" := JInt h]> (credentials w))) fs).
  { subst r. apply save_settings_file; assumption. }
  assert (Hfile : r.2
            = <[CONFIG_FILE :=
                  Utf8.encode (Json.dumps (JDict
                    [ (lit "username", persisted (credentials w) (lit "username"));
                      (lit "password", persisted (credentials w) (lit "password"));
                      (lit "height", JInt h);
                      (lit "weight", JInt k) ]))]> fs).
  { rewrite Hr2. unfold ConfigManager.save_credentials, write_text.
    rewrite payload_items_spec.
    repeat first
      [ rewrite persisted_insert_eq by in_keys
      | rewrite persisted_insert_ne by first [in_keys | lit_neq] ].
    reflexivity. }
  split; [exact Hfile|].
  split; [rewrite Hfile; apply lookup_insert_ne; discriminate|].
  split.
  { intros nick'. rewrite Hr2.
    exact (save_settings_file fromString today (set_name_input (Some nick') w) fs h k Hh Hk). }
  subst r. unfold save_settings. rewrite Hnick. simpl.
  rewrite Hgoal. simpl. rewrite Hh. simpl. rewrite Hk. simpl.
  unfold _apply_user_preferences. simpl. rewrite Hnick.
  match goal with
  | |- context [refresh_all fromString today ?v] =>
      destruct (refresh_all_returns fromString today v h k) as (w' & Hw' & Hs)
  end; try assumption.
  - simpl. rewrite lookup_insert_ne by lit_neq. apply lookup_insert_eq.
  - simpl. apply lookup_insert_eq.
  - rewrite Hw'. simpl. exists w'. split; [reflexivity|].
    destruct Hs as (Hu & Hrec & Ht & Hc). simpl in *. auto.
Qed.

(** The default session, with a new nickname, 180 cm and 70 kg. *)
Lemma save_settings_frame_witness :
  let w := set_name_input (Some (lit "alice")) (built (lit "bob") [] DEFAULT_CREDENTIALS 180 70) in
  (save_settings QDate.fromString_iso example_day w ∅).2 !! DATA_FILE
  = (∅ : FS) !! DATA_FILE.
Proof.
  intros w.
  assert (Hh : 100 <= 180 <= 250) by lia.
  assert (Hk : 30 <= 70 <= 200) by lia.
  exact (proj1 (proj2 (save_settings_frame QDate.fromString_iso example_day w ∅
                         (lit "alice") 2000 180 70
                         eq_refl eq_refl eq_refl eq_refl Hh Hk))).
Defined.

Example save_settings_example :
  let w := set_name_input (Some (lit "alice")) (built (lit "bob") [] DEFAULT_CREDENTIALS 180 70) in
  (save_settings QDate.fromString_iso example_day w ∅).2
  = {[ CONFIG_FILE :=
         Utf8.encode (Json.dumps (JDict
           [ (lit "username", JStr default_username);
             (lit "password", JStr (lit "123456"));
             (lit "height", JInt 180);
             (lit "weight", JInt 70) ])) ]}.
Proof. vm_compute. reflexivity. Qed.

End settings.

(** ** UTF-8 *)

Section utf8.
Import Utf8.
Local Open Scope N_scope.

(** Division and remainder by constants, for [lia]. *)
Local Ltac Zify.zify_post_hook ::= Z.to_euclidean_division_equations.

Lemma to_N_byte_of (n : N) : n < 256 → Byte.to_N (byte_of n) = n.
Proof.
  intros H. unfold byte_of.
  destruct (Byte.of_N n) as [b|] eqn:E.
  - simpl. apply Byte.to_of_N. exact E.
  - apply Byte.of_N_None_iff in E. lia.
Qed.

Lemma decode_unfold (bs : bytes) :
  decode bs =
    match bs with
    | [] => Some []
    | b0 :: r0 =>
        let n0 := Byte.to_N b0 in
        if n0 <? 0x80 then cons n0 <$> decode r0
        else if n0 <? 0xC2 then None
        else if n0 <? 0xE0 then
          match r0 with
          | b1 :: r1 =>
              match continuation b1 with
              | Some c1 => cons ((n0 - 0xC0) * 64 + c1) <$> decode r1
              | None => None
              end
          | _ => None
          end
        else if n0 <? 0xF0 then
          match r0 with
          | b1 :: b2 :: r2 =>
              match continuation b1, continuation b2 with
              | Some c1, Some c2 =>
                  let c := (n0 - 0xE0) * 4096 + c1 * 64 + c2 in
                  if (c <? 0x800) || negb (is_scalar c) then None
                  else cons c <$> decode r2
              | _, _ => None
              end
          | _ => None
          end
        else if n0 <? 0xF5 then
          match r0 with
          | b1 :: b2 :: b3 :: r3 =>
              match continuation b1, continuation b2, continuation b3 with
              | Some c1, Some c2, Some c3 =>
                  let c := (n0 - 0xF0) * 262144 + c1 * 4096 + c2 * 64 + c3 in
                  if (c <? 0x10000) || negb (is_scalar c) then None
                  else cons c <$> decode r3
              | _, _, _ => None
              end
          | _ => None
          end
        else None
    end.
Proof. destruct bs; reflexivity. Qed.

Lemma continuation_byte_of (p : N) :
  p < 64 → continuation (byte_of (0x80 + p)) = Some p.
Proof.
  intros H. unfold continuation. rewrite to_N_byte_of by lia.
  destruct (N.leb_spec 0x80 (0x80 + p)); [|lia].
  destruct (N.leb_spec (0x80 + p) 0xBF); [|lia].
  simpl. f_equal. lia.
Qed.

Ltac decide_ltb :=
  repeat match goal with
  | |- context [?a <? ?b] => destruct (N.ltb_spec a b); try lia
  | |- context [?a <=? ?b] => destruct (N.leb_spec a b); try lia
  end.

(** Decoding what [encode_char] wrote gives the character back. *)
Lemma decode_encode_char (c : N) (rest : bytes) :
  is_scalar c = true →
  decode (encode_char c ++ rest) = cons c <$> decode rest.
Proof.
  intros Hc. unfold is_scalar in Hc.
  assert (Hs : c < 0xD800 ∨ (0xDFFF < c ∧ c <= 0x10FFFF)).
  { apply orb_true_iff in Hc as [H|H].
    - left. apply N.ltb_lt. exact H.
    - right. apply andb_true_iff in H as [H1 H2].
      split; [apply N.ltb_lt; exact H1 | apply N.leb_le; exact H2]. }
  clear Hc. unfold encode_char.
  destruct (N.ltb_spec c 0x80) as [H1|H1].
  { simpl app. rewrite decode_unfold. cbv zeta.
    rewrite to_N_byte_of by lia.
    destruct (N.ltb_spec c 0x80); [reflexivity | lia]. }
  destruct (N.ltb_spec c 0x800) as [H2|H2].
  { simpl app. rewrite decode_unfold. cbv zeta.
    rewrite to_N_byte_of by lia.
    rewrite continuation_byte_of by lia.
    destruct (N.ltb_spec (0xC0 + c / 64) 0x80); [lia|].
    destruct (N.ltb_spec (0xC0 + c / 64) 0xC2); [lia|].
    destruct (N.ltb_spec (0xC0 + c / 64) 0xE0); [|lia].
    do 2 f_equal. lia. }
  destruct (N.ltb_spec c 0x10000) as [H3|H3].
  { simpl app. rewrite decode_unfold. cbv zeta.
    rewrite to_N_byte_of by lia.
    rewrite !continuation_byte_of by lia.
    destruct (N.ltb_spec (0xE0 + c / 4096) 0x80); [lia|].
    destruct (N.ltb_spec (0xE0 + c / 4096) 0xC2); [lia|].
    destruct (N.ltb_spec (0xE0 + c / 4096) 0xE0); [lia|].
    destruct (N.ltb_spec (0xE0 + c / 4096) 0xF0); [|lia].
    replace ((0xE0 + c / 4096 - 0xE0) * 4096 + (c / 64) mod 64 * 64 + c mod 64)
      with c by lia.
    unfold is_scalar.
    destruct (N.ltb_spec c 0x800); [lia|].
    destruct Hs as [Hs|[Hs1 Hs2]].
    - destruct (N.ltb_spec c 0xD800); [reflexivity | lia].
    - destruct (N.ltb_spec c 0xD800); [reflexivity|].
      destruct (N.ltb_spec 0xDFFF c); [|lia].
      destruct (N.leb_spec c 0x10FFFF); [reflexivity | lia]. }
  simpl app. rewrite decode_unfold. cbv zeta.
  rewrite to_N_byte_of by lia.
  rewrite !continuation_byte_of by lia.
  destruct (N.ltb_spec (0xF0 + c / 262144) 0x80); [lia|].
  destruct (N.ltb_spec (0xF0 + c / 262144) 0xC2); [lia|].
  destruct (N.ltb_spec (0xF0 + c / 262144) 0xE0); [lia|].
  destruct (N.ltb_spec (0xF0 + c / 262144) 0xF0); [lia|].
  destruct (N.ltb_spec (0xF0 + c / 262144) 0xF5); [|lia].
  replace ((0xF0 + c / 262144 - 0xF0) * 262144 + (c / 4096) mod 64 * 4096
           + (c / 64) mod 64 * 64 + c mod 64)
    with c by lia.
  unfold is_scalar.
  destruct (N.ltb_spec c 0x10000); [lia|].
  destruct (N.ltb_spec c 0xD800); [lia|].
  destruct (N.ltb_spec 0xDFFF c); [|lia].
  destruct (N.leb_spec c 0x10FFFF); [reflexivity | lia].
Qed.

(** Text without surrogates survives being written and read. *)
Lemma decode_encode (s : str) :
  text_ok s = true → decode (encode s) = Some s.
Proof.
  unfold text_ok, encode. induction s as [|c s IH]; simpl; [reflexivity|].
  rewrite andb_true_iff. intros [Hc Hs].
  rewrite decode_encode_char by exact Hc.
  rewrite IH by exact Hs. reflexivity.
Qed.

End utf8.

(** ** The text [json.dumps] writes *)

Section dumps.
Import Json.

Lemma jval_nested_ind (P : jval → Prop) :
  P JNull → (∀ b, P (JBool b)) → (∀ n, P (JInt n)) → (∀ s, P (JStr s)) →
  (∀ items, Forall P items → P (JList items)) →
  (∀ items, Forall (fun kv => P kv.2) items → P (JDict items)) →
  ∀ v, P v.
Proof.
  intros Hnull Hbool Hint Hstr Hlist Hdict.
  fix IH 1. intros [| b | n | s | items | items].
  - exact Hnull.
  - apply Hbool.
  - apply Hint.
  - apply Hstr.
  - apply Hlist. induction items as [|x items IHitems]; constructor.
    + apply IH.
    + exact IHitems.
  - apply Hdict. induction items as [|[k x] items IHitems]; constructor.
    + apply IH.
    + exact IHitems.
Qed.

Lemma is_scalar_small (c : N) : (c < 0xD800)%N → Utf8.is_scalar c = true.
Proof.
  intros H. unfold Utf8.is_scalar.
  destruct (N.ltb_spec c 0xD800); [reflexivity | lia].
Qed.

Lemma text_ok_app (a b : str) : text_ok (a ++ b) = text_ok a && text_ok b.
Proof. apply forallb_app. Qed.

Lemma text_ok_lit (s : string) : text_ok (lit s) = true.
Proof.
  unfold text_ok, lit. apply forallb_forall. intros c Hc.
  apply in_map_iff in Hc as (a & <- & _).
  apply is_scalar_small. pose proof (N_ascii_bounded a). lia.
Qed.

Lemma text_ok_newline_indent (level : nat) : text_ok (newline_indent level) = true.
Proof.
  unfold newline_indent, text_ok.
  apply forallb_forall. intros c [<-|Hc]; [reflexivity|].
  apply repeat_spec in Hc as ->. reflexivity.
Qed.

Lemma text_ok_escape_char (c : N) :
  Utf8.is_scalar c = true → text_ok (escape_char c) = true.
Proof.
  intros Hc. unfold escape_char.
  repeat match goal with
  | |- context [if ?b then _ else _] => destruct b eqn:?
  end; try apply text_ok_lit; try reflexivity.
  - rewrite text_ok_app, text_ok_lit. simpl. unfold text_ok. simpl.
    unfold hex_digit.
    repeat match goal with
    | |- context [if ?b then _ else _] => destruct b eqn:?
    end; rewrite !is_scalar_small; try reflexivity;
      repeat match goal with
      | H : (_ <? _)%N = true |- _ => apply N.ltb_lt in H
      | H : (_ <? _)%N = false |- _ => apply N.ltb_ge in H
      end;
      try (pose proof (N.mod_lt c 16 ltac:(lia)); lia);
      try (assert (c / 16 < 2)%N by (apply N.Div0.div_lt_upper_bound; lia); lia).
  - unfold text_ok. simpl. rewrite Hc. reflexivity.
Qed.

Lemma text_ok_quote (s : str) : text_ok s = true → text_ok (quote s) = true.
Proof.
  intros Hs. unfold quote. rewrite !text_ok_app.
  assert (Hbody : text_ok (concat (map escape_char s)) = true).
  { induction s as [|c s IH]; [reflexivity|].
    unfold text_ok in Hs. simpl in Hs. apply andb_true_iff in Hs as [Hc Hs].
    simpl. rewrite text_ok_app, text_ok_escape_char by exact Hc.
    apply IH. exact Hs. }
  rewrite Hbody. reflexivity.
Qed.

Lemma text_ok_join (sep : str) (chunks : list str) :
  text_ok sep = true →
  Forall (fun chunk => text_ok chunk = true) chunks →
  text_ok (join sep chunks) = true.
Proof.
  intros Hsep Hall. induction Hall as [|c chunks Hc Hall IH]; [reflexivity|].
  destruct chunks as [|c' chunks]; [exact Hc|].
  change (join sep (c :: c' :: chunks)) with (c ++ sep ++ join sep (c' :: chunks)).
  rewrite !text_ok_app, Hc, Hsep, IH. reflexivity.
Qed.

Lemma dumps_at_list (level : nat) (x : jval) (items : list jval) :
  dumps_at level (JList (x :: items))
  = lit "[" ++ newline_indent (S level)
    ++ join (lit "," ++ newline_indent (S level))
         (map (dumps_at (S level)) (x :: items))
    ++ newline_indent level ++ lit "]".
Proof. reflexivity. Qed.

Lemma dumps_at_dict (level : nat) (kv : str * jval) (items : list (str * jval)) :
  dumps_at level (JDict (kv :: items))
  = lit "{" ++ newline_indent (S level)
    ++ join (lit "," ++ newline_indent (S level))
         (map (fun kv => quote kv.1 ++ lit ": " ++ dumps_at (S level) kv.2)
            (kv :: items))
    ++ newline_indent level ++ lit "}".
Proof.
  destruct kv as [k x].
  change (dumps_at level (JDict ((k, x) :: items)))
    with (lit "{" ++ newline_indent (S level)
          ++ join (lit "," ++ newline_indent (S level))
               (map (fun kv => match kv with
                               | (k, x) => quote k ++ lit ": " ++ dumps_at (S level) x
                               end) ((k, x) :: items))
          ++ newline_indent level ++ lit "}").
  do 4 f_equal. apply map_ext. intros [k' x']. reflexivity.
Qed.

(** A document whose strings hold no surrogate is written as text that
    holds none. *)
Lemma text_ok_dumps_at (v : jval) :
  jval_text_ok v = true → ∀ level, text_ok (dumps_at level v) = true.
Proof.
  induction v as [| b | n | s | items IH | items IH] using jval_nested_ind;
    intros Hok level.
  - apply text_ok_lit.
  - destruct b; apply text_ok_lit.
  - apply text_ok_lit.
  - apply text_ok_quote. exact Hok.
  - destruct items as [|x items]; [apply text_ok_lit|].
    rewrite dumps_at_list.
    rewrite !text_ok_app, !text_ok_lit, !text_ok_newline_indent.
    rewrite ?andb_true_l, ?andb_true_r. apply text_ok_join.
    + rewrite text_ok_app, text_ok_lit, text_ok_newline_indent. reflexivity.
    + apply Forall_map. change (forallb jval_text_ok (x :: items) = true) in Hok.
      rewrite forallb_forall in Hok.
      rewrite Forall_forall in IH. apply Forall_forall. intros y Hy.
      apply IH; [exact Hy|]. apply Hok. apply list_elem_of_In. exact Hy.
  - destruct items as [|kv items]; [apply text_ok_lit|].
    rewrite dumps_at_dict.
    rewrite !text_ok_app, !text_ok_lit, !text_ok_newline_indent.
    rewrite ?andb_true_l, ?andb_true_r. apply text_ok_join.
    + rewrite text_ok_app, text_ok_lit, text_ok_newline_indent. reflexivity.
    + apply Forall_map.
      change (forallb (fun kv => match kv with
                                 | (k, x) => text_ok k && jval_text_ok x
                                 end) (kv :: items) = true) in Hok.
      rewrite forallb_forall in Hok.
      apply Forall_forall. intros [k x] Hkx.
      rewrite Forall_forall in IH. specialize (IH (k, x) Hkx).
      specialize (Hok (k, x) (proj1 (list_elem_of_In _ _) Hkx)).
      apply andb_true_iff in Hok as [Hk Hx]. cbn [fst snd].
      rewrite !text_ok_app, text_ok_lit, (text_ok_quote k Hk).
      rewrite ?andb_true_l. apply IH. exact Hx.
Qed.

End dumps.

(** ** The reference parser reads what [json.dumps] writes *)

Section parser.
Import Json JsonRef.
Local Open Scope N_scope.
Local Ltac Zify.zify_post_hook ::= Z.to_euclidean_division_equations.

Lemma skip_space_newline_indent (level : nat) (s : str) :
  skip_space (newline_indent level ++ s) = skip_space s.
Proof.
  unfold newline_indent. generalize (2 * level)%nat. intros n.
  change (skip_space (repeat 32 n ++ s) = skip_space s).
  induction n as [|n IH]; simpl; auto.
Qed.

Lemma hex_value_hex_digit (d : N) : d < 16 → hex_value (hex_digit d) = Some d.
Proof.
  intros H. unfold hex_digit, hex_value.
  destruct (N.ltb_spec d 10).
  - destruct (N.leb_spec 0x30 (0x30 + d)); [|lia].
    destruct (N.leb_spec (0x30 + d) 0x39); [|lia]. simpl. f_equal. lia.
  - destruct (N.leb_spec 0x30 (0x61 + (d - 10))); [|lia].
    destruct (N.leb_spec (0x61 + (d - 10)) 0x39); [lia|]. simpl.
    destruct (N.leb_spec 0x61 (0x61 + (d - 10))); [|lia].
    destruct (N.leb_spec (0x61 + (d - 10)) 0x66); [|lia]. simpl. f_equal. lia.
Qed.

(** One escaped character is read back as the character. *)
Lemma string_body_escape_char (c : N) (tail : str) :
  string_body (escape_char c ++ tail)
  = prod_map (cons c) id <$> string_body tail.
Proof.
  unfold escape_char.
  destruct (N.eqb_spec c 0x22) as [->|H1]; [reflexivity|].
  destruct (N.eqb_spec c 0x5C) as [->|H2]; [reflexivity|].
  destruct (N.eqb_spec c 0x0A) as [->|H3]; [reflexivity|].
  destruct (N.eqb_spec c 0x0D) as [->|H4]; [reflexivity|].
  destruct (N.eqb_spec c 0x09) as [->|H5]; [reflexivity|].
  destruct (N.eqb_spec c 0x08) as [->|H6]; [reflexivity|].
  destruct (N.eqb_spec c 0x0C) as [->|H7]; [reflexivity|].
  destruct (N.ltb_spec c 0x20) as [H8|H8].
  - change (lit "\u00" ++ [hex_digit (c / 16); hex_digit (c mod 16)])
      with ([0x5C; 0x75; 0x30; 0x30; hex_digit (c / 16); hex_digit (c mod 16)]).
    cbn [app string_body].
    change (0x5C =? 0x22) with false. change (0x5C =? 0x5C) with true.
    change (0x75 =? 0x75) with true. cbv iota.
    change (hex_value 0x30) with (Some 0).
    rewrite !hex_value_hex_digit by lia.
    replace (0 * 4096 + 0 * 256 + c / 16 * 16 + c mod 16) with c by lia.
    reflexivity.
  - cbn [app string_body].
    destruct (N.eqb_spec c 0x22); [contradiction|].
    destruct (N.eqb_spec c 0x5C); [contradiction|].
    destruct (N.ltb_spec c 0x20); [lia|]. reflexivity.
Qed.

Lemma string_body_escaped (s rest : str) :
  string_body (concat (map escape_char s) ++ 0x22 :: rest) = Some (s, rest).
Proof.
  induction s as [|c s IH]; [reflexivity|].
  simpl concat. rewrite <- app_assoc, string_body_escape_char, IH. reflexivity.
Qed.

(** *** Integers *)

Lemma lit_cons (a : ascii) (s : string) : lit (String a s) = N_of_ascii a :: lit s.
Proof. reflexivity. Qed.

Lemma digits_step (acc : Z) (seen : bool) (c : N) (rest : str) :
  48 ≤ c ≤ 57 →
  digits acc seen (c :: rest) = digits (10 * acc + (Z.of_N c - 48)) true rest.
Proof.
  intros [Hlo Hhi]. cbn [digits].
  destruct (N.leb_spec 48 c); [|lia]. destruct (N.leb_spec c 57); [|lia].
  reflexivity.
Qed.

(** What follows a number is no digit: reading digits stops there. *)
Lemma digits_uint_acc (d : uint) (p : positive) (tail : str) :
  (∀ acc, digits acc true tail = Some (acc, tail)) →
  digits (Z.pos p) true (lit (NilEmpty.string_of_uint d) ++ tail)
  = Some (Z.pos (Pos.of_uint_acc d p), tail).
Proof.
  intros Htail. revert p.
  induction d as [|d IH|d IH|d IH|d IH|d IH|d IH|d IH|d IH|d IH|d IH]; intros p;
    [apply Htail|..];
    cbn [NilEmpty.string_of_uint Pos.of_uint_acc]; rewrite lit_cons; cbn [app];
    (rewrite digits_step by (vm_compute; split; discriminate));
    rewrite <- IH; f_equal; cbn [N_of_ascii N_of_digits]; lia.
Qed.

Lemma digits_uint (d : uint) (seen : bool) (tail : str) :
  (∀ acc, digits acc true tail = Some (acc, tail)) →
  d ≠ Nil ∨ seen = true →
  digits 0 seen (lit (NilEmpty.string_of_uint d) ++ tail)
  = Some (Z.of_N (Pos.of_uint d), tail).
Proof.
  intros Htail. revert seen.
  induction d as [|d IH|d IH|d IH|d IH|d IH|d IH|d IH|d IH|d IH|d IH]; intros seen Hd;
    [destruct Hd as [Hd| ->]; [contradiction | apply Htail]|..];
    cbn [NilEmpty.string_of_uint Pos.of_uint]; rewrite lit_cons; cbn [app];
    (rewrite digits_step by (vm_compute; split; discriminate));
    [ apply IH; right; reflexivity
    | cbn [Z.of_N]; rewrite <- (digits_uint_acc d _ tail Htail); f_equal .. ].
Qed.

Lemma digits_to_uint (p : positive) (tail : str) :
  (∀ acc, digits acc true tail = Some (acc, tail)) →
  digits 0 false (lit (NilEmpty.string_of_uint (Pos.to_uint p)) ++ tail)
  = Some (Z.pos p, tail).
Proof.
  intros Htail. rewrite digits_uint; [|exact Htail|].
  - rewrite DecimalPos.Unsigned.of_to. reflexivity.
  - left. apply DecimalPos.Unsigned.to_uint_nonnil.
Qed.

(** *** Values *)

Lemma skip_space_idemp (s : str) : skip_space (skip_space s) = skip_space s.
Proof.
  induction s as [|c s IH]; [reflexivity|]. cbn [skip_space].
  destruct (is_space c) eqn:E; [exact IH|]. cbn [skip_space]. rewrite E. reflexivity.
Qed.

Lemma value_skip_space (fuel : nat) (s : str) : value fuel (skip_space s) = value fuel s.
Proof. destruct fuel; [reflexivity|]. cbn [value]. rewrite skip_space_idemp. reflexivity. Qed.

Lemma value_newline_indent (fuel level : nat) (s : str) :
  value fuel (newline_indent level ++ s) = value fuel s.
Proof.
  rewrite <- value_skip_space, skip_space_newline_indent. apply value_skip_space.
Qed.

Lemma value_space (fuel : nat) (s : str) : value fuel (0x20 :: s) = value fuel s.
Proof.
  rewrite <- (value_skip_space fuel (0x20 :: s)).
  change (skip_space (0x20 :: s)) with (skip_space s). apply value_skip_space.
Qed.

Lemma value_quote (fuel : nat) (s tail : str) :
  value (S fuel) (quote s ++ tail) = Some (JStr s, tail).
Proof.
  unfold quote. rewrite <- !app_assoc.
  change (value (S fuel) ([0x22] ++ concat (map escape_char s) ++ [0x22] ++ tail))
    with (prod_map JStr id <$> string_body (concat (map escape_char s) ++ 0x22 :: tail)).
  rewrite string_body_escaped. reflexivity.
Qed.

Lemma is_space_digit (c : N) : 48 ≤ c ≤ 57 → is_space c = false.
Proof.
  intros [Hlo Hhi]. unfold is_space.
  repeat match goal with
  | |- context [c =? ?k] => destruct (N.eqb_spec c k); [lia|]
  end. reflexivity.
Qed.

Lemma value_digit (fuel : nat) (c : N) (rest : str) :
  48 ≤ c ≤ 57 →
  value (S fuel) (c :: rest) = prod_map JInt id <$> digits 0 false (c :: rest).
Proof.
  intros Hc. pose proof (is_space_digit c Hc) as Hsp. destruct Hc as [Hlo Hhi].
  cbn [value skip_space]. rewrite Hsp.
  repeat match goal with
  | |- context [c =? ?k] => destruct (N.eqb_spec c k); [lia|]
  end.
  destruct (N.leb_spec 48 c); [|lia]. destruct (N.leb_spec c 57); [|lia].
  reflexivity.
Qed.

Lemma value_minus (fuel : nat) (rest : str) :
  value (S fuel) (0x2D :: rest)
  = prod_map (fun n => JInt (- n)) id <$> digits 0 false rest.
Proof. reflexivity. Qed.

Lemma string_of_uint_head (d : uint) :
  d ≠ Nil →
  ∃ c rest, lit (NilEmpty.string_of_uint d) = c :: rest ∧ 48 ≤ c ≤ 57.
Proof.
  destruct d; [contradiction|..]; intros _; eexists _, _;
    (split; [apply lit_cons|]); vm_compute; split; discriminate.
Qed.

Lemma string_of_uint_nonnil (d : uint) :
  d ≠ Nil → NilZero.string_of_uint d = NilEmpty.string_of_uint d.
Proof. destruct d; [contradiction|..]; reflexivity. Qed.

Lemma value_int (fuel : nat) (n : Z) (tail : str) :
  (∀ acc, digits acc true tail = Some (acc, tail)) → value (S fuel) (Py.str_of_Z n ++ tail) = Some (JInt n, tail).
Proof.
  intros Htail. unfold Py.str_of_Z. destruct n as [|p|p].
  - change (lit (NilZero.string_of_int (Z.to_int 0))) with [48]. cbn [app].
    rewrite value_digit by lia. rewrite digits_step by lia.
    change (10 * 0 + (Z.of_N 48 - 48))%Z with 0%Z. rewrite Htail. reflexivity.
  - pose proof (Unsigned.to_uint_nonnil p) as Hp.
    cbn [Z.to_int NilZero.string_of_int]. rewrite (string_of_uint_nonnil _ Hp).
    destruct (string_of_uint_head _ Hp) as (c & rest & Hc & Hd).
    rewrite Hc. cbn [app]. rewrite value_digit by exact Hd.
    change (c :: rest ++ tail) with ((c :: rest) ++ tail).
    rewrite <- Hc, digits_to_uint by exact Htail. reflexivity.
  - pose proof (Unsigned.to_uint_nonnil p) as Hp.
    cbn [Z.to_int NilZero.string_of_int]. rewrite (string_of_uint_nonnil _ Hp).
    rewrite lit_cons. cbn [app]. change (N_of_ascii "-") with 0x2D.
    rewrite value_minus, digits_to_uint by exact Htail. reflexivity.
Qed.

(** A document starts with a character that is neither white space nor a
    closing bracket. *)
Lemma dumps_at_head (level : nat) (v : jval) :
  ∃ c rest, dumps_at level v = c :: rest ∧ is_space c = false ∧ c ≠ 0x5D.
Proof.
  destruct v as [| [|] | n | s | [|x items] | [|kv items]];
    try (eexists _, _; split; [reflexivity|]; split; [reflexivity|discriminate]).
  destruct n as [|p|p];
    try (eexists _, _; split; [reflexivity|]; split; [reflexivity|discriminate]).
  pose proof (Unsigned.to_uint_nonnil p) as Hp.
  destruct (string_of_uint_head _ Hp) as (c & rest & Hc & Hd).
  exists c, rest. split; [|split].
  - cbn [dumps_at]. unfold Py.str_of_Z. cbn [Z.to_int NilZero.string_of_int].
    rewrite (string_of_uint_nonnil _ Hp). exact Hc.
  - apply is_space_digit. exact Hd.
  - lia.
Qed.

Lemma value_open_bracket (fuel : nat) (rest : str) :
  (∀ r, skip_space rest ≠ 0x5D :: r) →
  value (S fuel) (0x5B :: rest) = prod_map JList id <$> elements fuel rest.
Proof.
  intros H. cbn [value skip_space]. change (is_space 0x5B) with false. cbv iota.
  change (0x5B =? 0x22) with false. change (0x5B =? 0x5B) with true. cbv iota.
  destruct (skip_space rest) as [|c r] eqn:E; [reflexivity|].
  destruct c as [|p]; [reflexivity|].
  repeat (destruct p as [p|p|]; try reflexivity).
  exfalso. exact (H r eq_refl).
Qed.

Lemma value_open_brace (fuel : nat) (rest : str) :
  (∀ r, skip_space rest ≠ 0x7D :: r) →
  value (S fuel) (0x7B :: rest) = prod_map JDict id <$> members fuel [] rest.
Proof.
  intros H. cbn [value skip_space]. change (is_space 0x7B) with false. cbv iota.
  change (0x7B =? 0x22) with false. change (0x7B =? 0x5B) with false.
  change (0x7B =? 0x7B) with true. cbv iota.
  destruct (skip_space rest) as [|c r] eqn:E; [reflexivity|].
  destruct c as [|p]; [reflexivity|].
  repeat (destruct p as [p|p|]; try reflexivity).
  exfalso. exact (H r eq_refl).
Qed.

(** *** Arrays and objects *)

Lemma join_cons (sep c c' : str) (chunks : list str) :
  join sep (c :: c' :: chunks) = c ++ sep ++ join sep (c' :: chunks).
Proof. reflexivity. Qed.

Lemma join_head (sep c : str) (chunks : list str) :
  ∃ more, join sep (c :: chunks) = c ++ more.
Proof.
  destruct chunks; [exists []; symmetry; apply app_nil_r | eexists; apply join_cons].
Qed.

Lemma members_skip_space (fuel : nat) (seen : list (str * jval)) (s : str) :
  members fuel seen (skip_space s) = members fuel seen s.
Proof. destruct fuel; [reflexivity|]. cbn [members]. rewrite skip_space_idemp. reflexivity. Qed.

Lemma members_newline_indent (fuel level : nat) (seen : list (str * jval)) (s : str) :
  members fuel seen (newline_indent level ++ s) = members fuel seen s.
Proof.
  rewrite <- members_skip_space, skip_space_newline_indent. apply members_skip_space.
Qed.

(** The items of an array, each on its line, up to the closing bracket. *)
Lemma elements_join (inner level : nat) (items : list jval) :
  Forall (fun x => keys_distinct x = true → ∀ level fuel tail,
            (length (dumps_at level x) < fuel)%nat →
            (∀ acc, digits acc true tail = Some (acc, tail)) →
            value fuel (dumps_at level x ++ tail) = Some (x, tail)) items →
  forallb keys_distinct items = true →
  items ≠ [] →
  ∀ fuel tail,
    (length (join (lit "," ++ newline_indent inner) (map (dumps_at inner) items)) + 1
     < fuel)%nat →
    elements fuel
      (newline_indent inner
       ++ join (lit "," ++ newline_indent inner) (map (dumps_at inner) items)
       ++ newline_indent level ++ 0x5D :: tail)
    = Some (items, tail).
Proof.
  intros Hall.
  induction Hall as [|x items Hx Hall IH]; intros Hk Hne fuel tail Hfuel; [congruence|].
  cbn [forallb] in Hk. apply andb_true_iff in Hk as [Hkx Hk].
  destruct fuel as [|f]; [lia|].
  destruct items as [|y ys].
  - cbn [map join] in *. cbn [elements].
    rewrite value_newline_indent, (Hx Hkx); [|lia|intros acc; reflexivity].
    rewrite skip_space_newline_indent. reflexivity.
  - cbn [map] in *. rewrite join_cons in *.
    remember (join (lit "," ++ newline_indent inner) (map (dumps_at inner) (y :: ys)))
      as J eqn:HJ.
    rewrite !length_app in Hfuel. change (length (lit ",")) with 1%nat in Hfuel.
    rewrite <- !app_assoc. cbn [elements].
    rewrite value_newline_indent, (Hx Hkx); [|lia|intros acc; reflexivity].
    change (lit ",") with [0x2C]. cbn [app skip_space].
    change (is_space 0x2C) with false. cbv iota.
    subst J. rewrite IH; [reflexivity|exact Hk|discriminate|lia].
Qed.

Lemma members_step (fuel : nat) (seen : list (str * jval)) (k rest : str) :
  members (S fuel) seen (quote k ++ lit ": " ++ rest)
  = match value fuel rest with
    | Some (v, rest3) =>
        match skip_space rest3 with
        | 0x2C :: rest4 => members fuel (dict_set k v seen) rest4
        | 0x7D :: rest4 => Some (dict_set k v seen, rest4)
        | _ => None
        end
    | None => None
    end.
Proof.
  unfold quote. rewrite <- !app_assoc. change (lit ": ") with [0x3A; 0x20].
  cbn [members app skip_space]. change (is_space 0x22) with false. cbv iota.
  rewrite string_body_escaped. cbn [skip_space].
  change (is_space 0x3A) with false. cbv iota.
  rewrite value_space. reflexivity.
Qed.

Lemma dict_set_fresh (k : str) (v : jval) (items : list (str * jval)) :
  k ∉ items.*1 → dict_set k v items = items ++ [(k, v)].
Proof.
  intros H. unfold dict_set. rewrite bool_decide_eq_false_2 by exact H. reflexivity.
Qed.

Lemma foldl_dict_set (items seen : list (str * jval)) :
  NoDup (seen ++ items).*1 →
  foldl (fun acc kv => dict_set kv.1 kv.2 acc) seen items = seen ++ items.
Proof.
  revert seen. induction items as [|[k v] items IH]; intros seen Hnd.
  - rewrite app_nil_r. reflexivity.
  - cbn [foldl fst snd]. rewrite dict_set_fresh.
    + rewrite IH; rewrite <- app_assoc; [reflexivity | exact Hnd].
    + rewrite fmap_app in Hnd. apply NoDup_app in Hnd as (_ & Hdisj & _).
      intros Hin. apply (Hdisj k Hin). left.
Qed.

(** The members of an object, each on its line, up to the closing brace. *)
Lemma members_join (inner level : nat) (items : list (str * jval)) :
  Forall (fun kv => keys_distinct kv.2 = true → ∀ level fuel tail,
            (length (dumps_at level kv.2) < fuel)%nat →
            (∀ acc, digits acc true tail = Some (acc, tail)) →
            value fuel (dumps_at level kv.2 ++ tail) = Some (kv.2, tail)) items →
  forallb (fun kv => match kv with (_, x) => keys_distinct x end) items = true →
  items ≠ [] →
  ∀ fuel seen tail,
    (length (join (lit "," ++ newline_indent inner)
               (map (fun kv => quote kv.1 ++ lit ": " ++ dumps_at inner kv.2) items)) + 1
     < fuel)%nat →
    members fuel seen
      (newline_indent inner
       ++ join (lit "," ++ newline_indent inner)
            (map (fun kv => quote kv.1 ++ lit ": " ++ dumps_at inner kv.2) items)
       ++ newline_indent level ++ 0x7D :: tail)
    = Some (foldl (fun acc kv => dict_set kv.1 kv.2 acc) seen items, tail).
Proof.
  intros Hall.
  induction Hall as [|[k x] items Hx Hall IH]; intros Hk Hne fuel seen tail Hfuel;
    [congruence|].
  cbn [forallb] in Hk. apply andb_true_iff in Hk as [Hkx Hk]. cbn [fst snd] in Hx.
  destruct fuel as [|f]; [lia|].
  destruct items as [|y ys].
  - cbn [map join fst snd] in *. rewrite !length_app in Hfuel.
    rewrite <- !app_assoc, members_newline_indent, members_step.
    rewrite (Hx Hkx); [|lia|intros acc; reflexivity].
    rewrite skip_space_newline_indent. reflexivity.
  - cbn [map fst snd] in *. rewrite join_cons in *.
    remember (join (lit "," ++ newline_indent inner)
                (map (fun kv => quote kv.1 ++ lit ": " ++ dumps_at inner kv.2) (y :: ys)))
      as J eqn:HJ.
    rewrite !length_app in Hfuel. change (length (lit ",")) with 1%nat in Hfuel.
    rewrite <- !app_assoc, members_newline_indent, members_step.
    rewrite (Hx Hkx); [|lia|intros acc; reflexivity].
    change (lit ",") with [0x2C]. cbn [app skip_space].
    change (is_space 0x2C) with false. cbv iota.
    subst J. rewrite IH; [reflexivity|exact Hk|discriminate|lia].
Qed.

(** The reference parser reads a document back from the text [json.dumps]
    wrote for it, whatever follows the text, as soon as that is no digit;
    the fuel needed is bounded by the length of the text. *)
Lemma value_dumps_at (v : jval) :
  keys_distinct v = true →
  ∀ level fuel tail,
    (length (dumps_at level v) < fuel)%nat →
    (∀ acc, digits acc true tail = Some (acc, tail)) →
    value fuel (dumps_at level v ++ tail) = Some (v, tail).
Proof.
  induction v as [| b | n | s | items IH | items IH] using jval_nested_ind;
    intros Hk level fuel tail Hfuel Htail;
    (destruct fuel as [|f]; [lia|]).
  - reflexivity.
  - destruct b; reflexivity.
  - apply value_int. exact Htail.
  - apply value_quote.
  - destruct items as [|x items]; [reflexivity|].
    rewrite dumps_at_list in *. change (lit "[") with [0x5B] in *.
    change (lit "]") with [0x5D] in *.
    rewrite !length_app in Hfuel. cbn [length] in Hfuel.
    rewrite <- !app_assoc. cbn [app]. rewrite value_open_bracket.
    + rewrite (elements_join (S level) level (x :: items) IH);
        [reflexivity|exact Hk|discriminate|lia].
    + intros r. rewrite skip_space_newline_indent.
      destruct (join_head (lit "," ++ newline_indent (S level))
                  (dumps_at (S level) x) (map (dumps_at (S level)) items))
        as [more Hmore].
      cbn [map]. rewrite Hmore.
      destruct (dumps_at_head (S level) x) as (c & rest & -> & Hsp & Hne).
      rewrite <- !app_assoc. cbn [app skip_space]. rewrite Hsp. congruence.
  - destruct items as [|kv items]; [reflexivity|].
    cbn [keys_distinct] in Hk. apply andb_true_iff in Hk as [Hnd Hk].
    apply bool_decide_eq_true_1 in Hnd.
    rewrite dumps_at_dict in *. change (lit "{") with [0x7B] in *.
    change (lit "}") with [0x7D] in *.
    rewrite !length_app in Hfuel. cbn [length] in Hfuel.
    rewrite <- !app_assoc. cbn [app]. rewrite value_open_brace.
    + rewrite (members_join (S level) level (kv :: items) IH);
        [|exact Hk|discriminate|lia].
      rewrite foldl_dict_set by exact Hnd. reflexivity.
    + intros r. rewrite skip_space_newline_indent.
      destruct (join_head (lit "," ++ newline_indent (S level))
                  (quote kv.1 ++ lit ": " ++ dumps_at (S level) kv.2)
                  (map (fun kv => quote kv.1 ++ lit ": " ++ dumps_at (S level) kv.2)
                     items))
        as [more Hmore].
      cbn [map]. rewrite Hmore. unfold quote.
      rewrite <- !app_assoc. cbn [app skip_space].
      change (is_space 0x22) with false. cbv iota. discriminate.
Qed.

(** [json.loads(json.dumps(v, ensure_ascii=False, indent=2)) == v] for the
    reference parser, on every document whose objects repeat no key. *)
Lemma loads_dumps (v : jval) : keys_distinct v = true → loads (dumps v) = Ok v.
Proof.
  intros Hk.
  pose proof (value_dumps_at v Hk 0 (S (length (dumps_at 0 v))) []
                ltac:(lia) ltac:(reflexivity)) as H.
  rewrite app_nil_r in H. unfold loads, dumps. rewrite H. reflexivity.
Qed.

(** A record list is such a document. *)
Lemma keys_distinct_records (list : list DietRecord) :
  keys_distinct (records_json list) = true.
Proof.
  unfold records_json. cbn [keys_distinct]. apply forallb_forall. intros v Hv.
  apply in_map_iff in Hv as (r & <- & _).
  destruct r as [[d|] [m|] [f|] [c|] [n|]]; vm_compute; reflexivity.
Qed.

Lemma loads_dumps_records (list : list DietRecord) :
  loads (dumps (records_json list)) = Ok (records_json list).
Proof. apply loads_dumps, keys_distinct_records. Qed.

End parser.

(** ** Saving and loading the record list *)

Section round_trip.
Import MainWindow.
Variable json_loads : str → result jval.
Variable fromString : str → QDate.t.
Variable today : QDate.t.

Lemma update_body_card_session (w w' : t) :
  update_body_card w = Ok w' → same_session w' w.
Proof.
  unfold update_body_card, mbind, result_bind. destruct (body_label w).
  - destruct (number_of _); [|discriminate].
    destruct (number_of _); [|discriminate].
    destruct (bmi_of _ _); [|discriminate].
    intros [= <-]. repeat split.
  - intros [= <-]. apply same_session_refl.
Qed.

Lemma refresh_all_session (w w' : t) :
  refresh_all fromString today w = Ok w' → same_session w' w.
Proof.
  unfold refresh_all. intros H. apply update_body_card_session in H.
  eapply same_session_trans; [exact H|].
  eapply same_session_trans; [apply update_highlights_session|].
  eapply same_session_trans; [apply update_calorie_summary_session|].
  apply refresh_recent_records_session.
Qed.

(** Once the list has been assigned and saved, the refresh keeps both. *)
Lemma saved_then_refreshed (w w' : t) (fs : FS) (list : list DietRecord) :
  refresh_all fromString today (set_records list w) = Ok w' →
  synced w' (DataManager.save_records (records_json list) fs).
Proof.
  intros H. apply refresh_all_session in H as (_ & Hrec & _).
  unfold synced, DataManager.save_records, write_text.
  rewrite Hrec. apply lookup_insert_eq.
Qed.

Lemma perform_unchanged_or_synced (op : operation) (w w' : t) (fs fs' : FS)
    (alerts : list alert) :
  perform fromString today op w fs = (Ok (w', alerts), fs') →
  (records w' = records w ∧ fs' = fs) ∨ synced w' fs'.
Proof.
  destruct op as [actions | index actions | index confirm]; simpl.
  - unfold add_record.
    destruct (RecordDialog.exec_ _ _) as [[[dialog code] shown]|]; [|discriminate].
    destruct code; [|intros [= <- _ <-]; auto].
    destruct (RecordDialog.result_data dialog) as [data|]; [|intros [= <- _ <-]; auto].
    destruct (record_truthy data); [|intros [= <- _ <-]; auto].
    unfold mbind, result_bind.
    destruct (refresh_all _ _ _) as [w2|] eqn:Hrefresh; [|discriminate].
    intros [= <- _ <-]. right.
    eapply saved_then_refreshed. exact Hrefresh.
  - unfold edit_record_by_index.
    destruct (_ || _); [intros [= <- _ <-]; auto|].
    destruct (RecordDialog.exec_ _ _) as [[[dialog code] shown]|]; [|discriminate].
    destruct code; [|intros [= <- _ <-]; auto].
    destruct (RecordDialog.result_data dialog) as [data|]; [|intros [= <- _ <-]; auto].
    destruct (record_truthy data); [|intros [= <- _ <-]; auto].
    unfold mbind, result_bind.
    destruct (refresh_all _ _ _) as [w2|] eqn:Hrefresh; [|discriminate].
    intros [= <- _ <-]. right.
    eapply saved_then_refreshed. exact Hrefresh.
  - unfold delete_record_by_index.
    destruct (_ || _); [intros [= <- _ <-]; auto|].
    destruct confirm; [|intros [= <- _ <-]; auto].
    unfold mbind, result_bind.
    destruct (refresh_all _ _ _) as [w2|] eqn:Hrefresh; [|discriminate].
    intros [= <- _ <-]. right.
    eapply saved_then_refreshed. exact Hrefresh.
Qed.

Lemma synced_same_records (w w' : t) (fs : FS) :
  records w' = records w → synced w fs → synced w' fs.
Proof. unfold synced. intros ->. auto. Qed.

Lemma run_keeps_synced (ops : list operation) (w w' : t) (fs fs' : FS) :
  synced w fs → run fromString today ops w fs = Ok (w', fs') → synced w' fs'.
Proof.
  revert w fs. induction ops as [|op ops IH]; intros w fs Hs; simpl.
  - intros [= <- <-]. exact Hs.
  - destruct (perform fromString today op w fs) as [[[w1 alerts]|] fs1] eqn:Hop;
      [|discriminate].
    apply perform_unchanged_or_synced in Hop as [[Hrec ->]|Hs1].
    + apply IH. eapply synced_same_records; eauto.
    + apply IH. exact Hs1.
Qed.

Lemma run_unchanged_or_synced (ops : list operation) (w w' : t) (fs fs' : FS) :
  run fromString today ops w fs = Ok (w', fs') →
  (records w' = records w ∧ fs' = fs) ∨ synced w' fs'.
Proof.
  revert w fs. induction ops as [|op ops IH]; intros w fs; simpl.
  - intros [= <- <-]. auto.
  - destruct (perform fromString today op w fs) as [[[w1 alerts]|] fs1] eqn:Hop;
      [|discriminate].
    intros Hrun.
    apply perform_unchanged_or_synced in Hop as [[Hrec ->]|Hs1].
    + destruct (IH _ _ Hrun) as [[Hrec' ->]|Hs]; [left | right; exact Hs].
      split; [congruence | reflexivity].
    + right. eapply run_keeps_synced; eauto.
Qed.

(** Loading a file that holds a fresh serialization gives the list back,
    when the strings hold no surrogate and [json.loads] reads what
    [json.dumps] wrote. *)
Lemma load_synced (w : t) (fs : FS) :
  synced w fs →
  jval_text_ok (records_json (records w)) = true →
  json_loads (Json.dumps (records_json (records w))) = Ok (records_json (records w)) →
  DataManager.load_records json_loads fs = Ok (records_json (records w)).
Proof.
  intros Hs Hok Hjson.
  eapply load_records_well_formed; [exact Hs| |exact Hjson].
  apply decode_encode. apply text_ok_dumps_at. exact Hok.
Qed.

(** C9: loading right after saving returns the saved list, given that its
    strings are text UTF-8 can carry and that [json.loads] reads back what
    [json.dumps] wrote for it, which the reference parser does for every
    record list; and every add, edit or delete either leaves list and file
    as they were (the dialog was cancelled, the index was out of range) or
    leaves the file holding a fresh serialization of the list in memory, so
    that after any sequence of operations the file holds that serialization
    as soon as it held it before or one operation took effect, and loading
    it gives the list in memory. *)
Theorem save_load_round_trip :
  (∀ (list : list DietRecord) (fs : FS),
     jval_text_ok (records_json list) = true →
     json_loads (Json.dumps (records_json list)) = Ok (records_json list) →
     DataManager.load_records json_loads
       (DataManager.save_records (records_json list) fs)
     = Ok (records_json list))
  ∧ (∀ (list : list DietRecord) (fs : FS),
       jval_text_ok (records_json list) = true →
       DataManager.load_records JsonRef.loads
         (DataManager.save_records (records_json list) fs)
       = Ok (records_json list))
  ∧ (∀ (op : operation) (w w' : t) (fs fs' : FS) (alerts : list alert),
       perform fromString today op w fs = (Ok (w', alerts), fs') →
       (records w' = records w ∧ fs' = fs) ∨ synced w' fs')
  ∧ (∀ (ops : list operation) (w w' : t) (fs fs' : FS),
       run fromString today ops w fs = Ok (w', fs') →
       ((records w' = records w ∧ fs' = fs) ∨ synced w' fs')
       ∧ (synced w fs → synced w' fs')
       ∧ (synced w' fs' →
          jval_text_ok (records_json (records w')) = true →
          json_loads (Json.dumps (records_json (records w')))
            = Ok (records_json (records w')) →
          DataManager.load_records json_loads fs' = Ok (records_json (records w')))
       ∧ (synced w' fs' →
          jval_text_ok (records_json (records w')) = true →
          DataManager.load_records JsonRef.loads fs'
          = Ok (records_json (records w')))).
Proof.
  split; [|split; [|split]].
  - intros list fs Hok Hjson.
    eapply load_records_well_formed; [|apply decode_encode, text_ok_dumps_at, Hok|exact Hjson].
    unfold DataManager.save_records, write_text. apply lookup_insert_eq.
  - intros list fs Hok.
    eapply load_records_well_formed;
      [|apply decode_encode, text_ok_dumps_at, Hok|apply loads_dumps_records].
    unfold DataManager.save_records, write_text. apply lookup_insert_eq.
  - intros op w w' fs fs' alerts. apply perform_unchanged_or_synced.
  - intros ops w w' fs fs' Hrun. split; [|split; [|split]].
    + eapply run_unchanged_or_synced. exact Hrun.
    + intros Hs. eapply run_keeps_synced; eauto.
    + apply load_synced.
    + intros Hs Hok.
      eapply load_records_well_formed; [exact Hs| |apply loads_dumps_records].
      apply decode_encode, text_ok_dumps_at, Hok.
Qed.

End round_trip.

(** The example operations on the fresh session, with the reference
    parsers: the run ends with one record, the file holds its
    serialization, and loading the file gives it back. *)
Lemma save_load_round_trip_witness :
  ∃ w' fs',
    run QDate.fromString_iso example_day example_operations fresh_window ∅ = Ok (w', fs')
    ∧ synced w' fs'
    ∧ DataManager.load_records JsonRef.loads fs'
      = Ok (records_json (MainWindow.records w')).
Proof.
  destruct (run QDate.fromString_iso example_day example_operations fresh_window ∅)
    as [[w' fs']|] eqn:Hrun; [|vm_compute in Hrun; discriminate Hrun].
  exists w', fs'. split; [reflexivity|].
  pose proof (proj2 (proj2 (proj2 (save_load_round_trip JsonRef.loads
                                     QDate.fromString_iso example_day)))
                example_operations fresh_window w' ∅ fs' Hrun)
    as (Hstep & _ & _ & Hload).
  assert (Hs : synced w' fs').
  { destruct Hstep as [[Hrec _]|Hs]; [|exact Hs].
    vm_compute in Hrun. injection Hrun as <- <-. vm_compute in Hrec. discriminate Hrec. }
  split; [exact Hs|].
  apply Hload; [exact Hs|].
  vm_compute in Hrun. injection Hrun as <- <-. vm_compute. reflexivity.
Defined.

(* ===================================================================== *)
(** * Part III: further properties *)
(* ===================================================================== *)

(** ** The profile file *)

Section profile.
Import ConfigManager.

Lemma payload_lookup_other (creds : gmap str jval) (k : str) :
  k ∉ RECOGNIZED_KEYS → payload creds !! k = None.
Proof.
  intros Hk. unfold payload. apply lookup_union_None. split.
  - apply map_lookup_filter_None. right. intros v _. exact Hk.
  - unfold DEFAULT_CREDENTIALS. apply not_elem_of_list_to_map.
    intros Hin. apply Hk. exact Hin.
Qed.

Lemma default_lookup_recognized (k : str) :
  k ∈ RECOGNIZED_KEYS → is_Some (DEFAULT_CREDENTIALS !! k).
Proof.
  intros Hk. unfold RECOGNIZED_KEYS in Hk.
  repeat (apply elem_of_cons in Hk as [->|Hk]; [vm_compute; eauto|]).
  apply elem_of_nil in Hk. contradiction.
Qed.

Lemma dom_payload (creds : gmap str jval) :
  dom (payload creds) = list_to_set RECOGNIZED_KEYS.
Proof.
  apply set_eq. intros k. rewrite elem_of_dom, elem_of_list_to_set.
  destruct (decide (k ∈ RECOGNIZED_KEYS)) as [Hk|Hk].
  - rewrite payload_lookup by exact Hk. split; [auto|]. intros _.
    destruct (creds !! k); [eauto|]. apply default_lookup_recognized. exact Hk.
  - rewrite payload_lookup_other by exact Hk. split; [intros []; discriminate|tauto].
Qed.

Lemma rev_reverse {A} (l : list A) : rev l = reverse l.
Proof. unfold reverse. apply rev_alt. Qed.

Lemma items_dict_list_to_map (items : list (str * jval)) :
  items_dict items = list_to_map (rev items).
Proof.
  unfold items_dict, list_to_map. symmetry.
  apply (fold_left_rev_right (fun p m => <[p.1 := p.2]> m)).
Qed.

Lemma items_dict_lookup_Some (items : list (str * jval)) (k : str) (v : jval) :
  NoDup items.*1 → (k, v) ∈ items → items_dict items !! k = Some v.
Proof.
  intros Hnd Hin. rewrite items_dict_list_to_map.
  apply elem_of_list_to_map.
  - rewrite rev_reverse, fmap_reverse, reverse_Permutation. exact Hnd.
  - rewrite rev_reverse. apply elem_of_reverse. exact Hin.
Qed.

Lemma items_dict_lookup_None (items : list (str * jval)) (k : str) :
  k ∉ items.*1 → items_dict items !! k = None.
Proof.
  intros Hk. rewrite items_dict_list_to_map. apply not_elem_of_list_to_map.
  rewrite rev_reverse, fmap_reverse, elem_of_reverse. exact Hk.
Qed.

(** Merging what was written gives back what was merged. *)
Lemma payload_items_dict (creds : gmap str jval) :
  payload (items_dict (payload_items creds)) = payload creds.
Proof.
  apply map_eq. intros k.
  destruct (decide (k ∈ RECOGNIZED_KEYS)) as [Hk|Hk].
  - rewrite (payload_lookup _ k Hk).
    assert (Hv : items_dict (payload_items creds) !! k = Some (persisted creds k)).
    { apply items_dict_lookup_Some.
      - rewrite payload_items_spec. apply (bool_decide_unpack _). vm_compute. exact I.
      - rewrite payload_items_spec. unfold RECOGNIZED_KEYS in Hk.
        repeat (apply elem_of_cons in Hk as [->|Hk]; [solve [repeat constructor]|]).
        apply elem_of_nil in Hk. contradiction. }
    rewrite Hv. unfold persisted.
    destruct (payload creds !! k) as [v|] eqn:E; [reflexivity|].
    exfalso. assert (Hd : k ∈ dom (payload creds)).
    { rewrite dom_payload. apply elem_of_list_to_set. exact Hk. }
    apply elem_of_dom in Hd as [v Hd]. congruence.
  - rewrite !payload_lookup_other by exact Hk. reflexivity.
Qed.

Lemma payload_default : payload DEFAULT_CREDENTIALS = DEFAULT_CREDENTIALS.
Proof.
  apply map_eq. intros k.
  destruct (decide (k ∈ RECOGNIZED_KEYS)) as [Hk|Hk].
  - rewrite payload_lookup by exact Hk.
    destruct (DEFAULT_CREDENTIALS !! k); reflexivity.
  - rewrite payload_lookup_other by exact Hk. symmetry.
    unfold DEFAULT_CREDENTIALS. apply not_elem_of_list_to_map.
    intros Hin. apply Hk. exact Hin.
Qed.

Lemma payload_items_default : payload_items DEFAULT_CREDENTIALS = DEFAULT_ITEMS.
Proof. rewrite payload_items_spec. vm_compute. reflexivity. Qed.

(** Loading a profile file that holds the text [json.dumps] wrote for an
    object, with the reference parser. *)
Lemma load_credentials_dumps (fs : FS) (items : list (str * jval)) :
  fs !! CONFIG_FILE = Some (Utf8.encode (Json.dumps (JDict items))) →
  jval_text_ok (JDict items) = true →
  keys_distinct (JDict items) = true →
  load_credentials JsonRef.loads fs = (Returned (payload (items_dict items)), fs).
Proof.
  intros Hfile Hok Hkeys. unfold load_credentials, path_exists, read_text.
  rewrite Hfile. rewrite bool_decide_eq_true_2 by eauto. cbn [negb].
  pose proof (decode_encode _ (text_ok_dumps_at _ Hok 0)) as Hdecode.
  fold (Json.dumps (JDict items)) in Hdecode. rewrite Hdecode.
  unfold mbind, result_bind. rewrite (loads_dumps _ Hkeys). reflexivity.
Qed.

(** X1: on the first run, when there is no profile file, [load_credentials]
    writes the default profile and returns it; the file it wrote is read
    back as the default profile, and is then left as it is. *)
Theorem load_credentials_first_run (json_loads : str → result jval) (fs : FS) :
  fs !! CONFIG_FILE = None →
  let r := load_credentials json_loads fs in
  r.1 = Returned DEFAULT_CREDENTIALS
  ∧ r.2 = <[CONFIG_FILE := Utf8.encode (Json.dumps (JDict DEFAULT_ITEMS))]> fs
  ∧ load_credentials JsonRef.loads r.2 = (Returned DEFAULT_CREDENTIALS, r.2).
Proof.
  intros Hnone r.
  assert (Hr : r = (Returned DEFAULT_CREDENTIALS,
                    <[CONFIG_FILE := Utf8.encode (Json.dumps (JDict DEFAULT_ITEMS))]> fs)).
  { subst r. unfold load_credentials, path_exists. rewrite Hnone.
    rewrite bool_decide_eq_false_2 by (intros [? ?]; discriminate). cbn [negb].
    unfold save_credentials, write_text. rewrite payload_items_default. reflexivity. }
  rewrite Hr. cbn [fst snd]. split; [reflexivity|]. split; [reflexivity|].
  rewrite (load_credentials_dumps _ DEFAULT_ITEMS).
  - rewrite <- payload_items_default, payload_items_dict, payload_default. reflexivity.
  - apply lookup_insert_eq.
  - vm_compute. reflexivity.
  - vm_compute. reflexivity.
Qed.

Lemma load_credentials_first_run_witness :
  (load_credentials JsonRef.loads ∅).1 = Returned DEFAULT_CREDENTIALS.
Proof.
  exact (proj1 (load_credentials_first_run JsonRef.loads ∅ (lookup_empty _))).
Defined.

(** X2: loading after saving: what [load_credentials] returns for the file
    [save_credentials] wrote is the payload of the credentials saved, that
    is their four recognized entries, the defaults standing in for missing
    ones; the strings written must be text UTF-8 can carry, and objects
    among the values must not repeat a key. *)
Theorem load_after_save_credentials (credentials : gmap str jval) (fs : FS) :
  jval_text_ok (JDict (payload_items credentials)) = true →
  keys_distinct (JDict (payload_items credentials)) = true →
  load_credentials JsonRef.loads (save_credentials credentials fs)
  = (Returned (payload credentials), save_credentials credentials fs).
Proof.
  intros Hok Hkeys.
  rewrite (load_credentials_dumps _ (payload_items credentials));
    [|apply lookup_insert_eq|exact Hok|exact Hkeys].
  rewrite payload_items_dict. reflexivity.
Qed.

Lemma load_after_save_credentials_witness :
  load_credentials JsonRef.loads
    (save_credentials (<[lit "height" := JInt 180]> DEFAULT_CREDENTIALS) ∅)
  = (Returned (payload (<[lit "height" := JInt 180]> DEFAULT_CREDENTIALS)),
     save_credentials (<[lit "height" := JInt 180]> DEFAULT_CREDENTIALS) ∅).
Proof.
  apply (load_after_save_credentials (<[lit "height" := JInt 180]> DEFAULT_CREDENTIALS) ∅);
    vm_compute; reflexivity.
Defined.

(** X3: what [load_credentials] returns for a file that holds a JSON object:
    a dict with exactly the four recognized keys, each with the value the
    object gives it, or with the default when the object lacks the key;
    every other key of the object is dropped.  The file is not touched. *)
Theorem load_credentials_merges (json_loads : str → result jval) (fs : FS)
    (content : bytes) (text : str) (items : list (str * jval)) :
  fs !! CONFIG_FILE = Some content →
  Utf8.decode content = Some text →
  json_loads text = Ok (JDict items) →
  NoDup items.*1 →
  ∃ merged,
    load_credentials json_loads fs = (Returned merged, fs)
    ∧ dom merged = list_to_set RECOGNIZED_KEYS
    ∧ (∀ k v, k ∈ RECOGNIZED_KEYS → (k, v) ∈ items → merged !! k = Some v)
    ∧ (∀ k, k ∈ RECOGNIZED_KEYS → k ∉ items.*1 →
         merged !! k = DEFAULT_CREDENTIALS !! k)
    ∧ (∀ k, k ∉ RECOGNIZED_KEYS → merged !! k = None).
Proof.
  intros Hfile Hdecode Hjson Hnd. exists (payload (items_dict items)).
  split; [|split; [|split; [|split]]].
  - unfold load_credentials, path_exists, read_text. rewrite Hfile, Hdecode.
    rewrite bool_decide_eq_true_2 by eauto. cbn [negb].
    unfold mbind, result_bind. rewrite Hjson. reflexivity.
  - apply dom_payload.
  - intros k v Hk Hin. rewrite payload_lookup by exact Hk.
    rewrite (items_dict_lookup_Some items k v Hnd Hin). reflexivity.
  - intros k Hk Hout. rewrite payload_lookup by exact Hk.
    rewrite (items_dict_lookup_None items k Hout). reflexivity.
  - intros k Hk. apply payload_lookup_other. exact Hk.
Qed.

Lemma load_credentials_merges_witness :
  let items := [(lit "height", JInt 180); (lit "colour", JInt 1)] in
  let fs : FS := {[ CONFIG_FILE := Utf8.encode (Json.dumps (JDict items)) ]} in
  ∃ merged,
    load_credentials JsonRef.loads fs = (Returned merged, fs)
    ∧ merged !! lit "height" = Some (JInt 180)
    ∧ merged !! lit "weight" = Some (JInt 65)
    ∧ merged !! lit "colour" = None.
Proof.
  intros items fs.
  destruct (load_credentials_merges JsonRef.loads fs
              (Utf8.encode (Json.dumps (JDict items))) (Json.dumps (JDict items)) items)
    as (merged & Hload & _ & Hin & Hout & Hother).
  - apply lookup_singleton_eq.
  - vm_compute. reflexivity.
  - vm_compute. reflexivity.
  - apply (bool_decide_unpack _). vm_compute. exact I.
  - exists merged. split; [exact Hload|]. split; [|split].
    + apply Hin; [in_keys | repeat constructor].
    + rewrite Hout; [reflexivity | in_keys |].
      apply (bool_decide_unpack _). vm_compute. exact I.
    + apply Hother. apply (bool_decide_unpack _). vm_compute. exact I.
Defined.

(** X4: a profile file that cannot be read as an object.  Text that
    [json.loads] rejects counts as an empty object: the defaults are
    returned, and the file is left as it is, not rewritten.  Bytes that
    are not UTF-8 raise UnicodeDecodeError, and a document that is no
    object (a list, a number, a string, null) raises AttributeError: the
    handler catches neither. *)
Theorem load_credentials_unreadable (json_loads : str → result jval) (fs : FS)
    (content : bytes) :
  fs !! CONFIG_FILE = Some content →
  (∀ text, Utf8.decode content = Some text →
     json_loads text = Raise JSONDecodeError →
     load_credentials json_loads fs = (Returned DEFAULT_CREDENTIALS, fs))
  ∧ (Utf8.decode content = None →
     load_credentials json_loads fs = (Raising (Exn UnicodeDecodeError), fs))
  ∧ (∀ text v, Utf8.decode content = Some text →
       json_loads text = Ok v → (∀ items, v ≠ JDict items) →
       load_credentials json_loads fs = (Raising AttributeError, fs)).
Proof.
  intros Hfile.
  assert (Hexists : negb (path_exists CONFIG_FILE fs) = false).
  { unfold path_exists. rewrite Hfile, bool_decide_eq_true_2 by eauto. reflexivity. }
  unfold load_credentials, read_text. rewrite Hexists, Hfile.
  split; [|split].
  - intros text -> Hjson. unfold mbind, result_bind. rewrite Hjson.
    change (items_dict []) with (∅ : gmap str jval).
    unfold payload. rewrite map_filter_empty, (left_id_L ∅ (∪)). reflexivity.
  - intros ->. reflexivity.
  - intros text v -> Hjson Hv. unfold mbind, result_bind. rewrite Hjson.
    destruct v; try reflexivity. exfalso. eapply Hv. reflexivity.
Qed.

Lemma load_credentials_unreadable_witness :
  load_credentials JsonRef.loads {[ CONFIG_FILE := [xff] ]}
  = (Raising (Exn UnicodeDecodeError), {[ CONFIG_FILE := [xff] ]}).
Proof.
  apply (proj1 (proj2 (load_credentials_unreadable JsonRef.loads
                         {[ CONFIG_FILE := [xff] ]} [xff] (lookup_singleton_eq _ _)))).
  reflexivity.
Defined.

(** X5: the profile file [save_credentials] writes always holds the four keys
    username, password, height and weight, in this order, each with the
    value of the credentials or with its default; saving what was merged
    writes the same file again, and a key outside the four never reaches
    the file. *)
Theorem save_credentials_four_keys (credentials : gmap str jval) (fs : FS) :
  save_credentials credentials fs
  = <[CONFIG_FILE :=
        Utf8.encode (Json.dumps (JDict
          [ (lit "username",
             default (JStr default_username) (credentials !! lit "username"));
            (lit "password",
             default (JStr (lit "123456")) (credentials !! lit "password"));
            (lit "height", default (JInt 170) (credentials !! lit "height"));
            (lit "weight", default (JInt 65) (credentials !! lit "weight")) ]))]> fs
  ∧ save_credentials (payload credentials) fs = save_credentials credentials fs
  ∧ (∀ key v, key ∉ RECOGNIZED_KEYS →
       save_credentials (<[key := v]> credentials) fs = save_credentials credentials fs).
Proof.
  unfold save_credentials, write_text. split; [|split].
  - rewrite payload_items_spec. unfold persisted.
    rewrite !payload_lookup by in_keys.
    destruct (credentials !! lit "username"), (credentials !! lit "password"),
      (credentials !! lit "height"), (credentials !! lit "weight"); reflexivity.
  - rewrite !payload_items_spec. unfold persisted.
    rewrite !(payload_lookup (payload credentials)) by in_keys.
    destruct (payload credentials !! lit "username") eqn:E1,
      (payload credentials !! lit "password") eqn:E2,
      (payload credentials !! lit "height") eqn:E3,
      (payload credentials !! lit "weight") eqn:E4; try reflexivity;
      exfalso;
      match goal with
      | H : payload credentials !! ?k = None |- _ =>
          assert (Hd : k ∈ dom (payload credentials))
            by (rewrite dom_payload; apply elem_of_list_to_set; in_keys);
          apply elem_of_dom in Hd as [? Hd]; congruence
      end.
  - intros key v Hkey. rewrite !payload_items_spec.
    assert (Hne : ∀ k, k ∈ RECOGNIZED_KEYS →
              persisted (<[key := v]> credentials) k = persisted credentials k).
    { intros k Hk. apply persisted_insert_ne; [exact Hk|]. intros ->. contradiction. }
    rewrite !Hne by in_keys. reflexivity.
Qed.

End profile.

(** ** Python strings and integers *)

Section python.
Import Py.

Lemma lstrip_suffix (s : str) : ∃ k, s = k ++ lstrip s.
Proof.
  induction s as [|c s [k IH]]; [exists []; reflexivity|]. cbn [lstrip].
  destruct (isspace_char c); [|exists []; reflexivity].
  exists (c :: k). cbn [app]. f_equal. exact IH.
Qed.

Lemma lstrip_head (s : str) (c : N) (r : str) :
  lstrip s = c :: r → isspace_char c = false.
Proof.
  induction s as [|a s IH]; [discriminate|]. cbn [lstrip].
  destruct (isspace_char a) eqn:E; [exact IH|]. intros [= <- <-]. exact E.
Qed.

Lemma lstrip_fixed (s : str) :
  (∀ c r, s = c :: r → isspace_char c = false) → lstrip s = s.
Proof.
  intros H. destruct s as [|c r]; [reflexivity|]. cbn [lstrip].
  rewrite (H c r eq_refl). reflexivity.
Qed.

Lemma lstrip_idemp (s : str) : lstrip (lstrip s) = lstrip s.
Proof. apply lstrip_fixed. intros c r H. eapply lstrip_head. exact H. Qed.

(** What [strip] returns starts and ends with a character that is no
    white space. *)
Lemma strip_ends (s : str) :
  (∀ c r, strip s = c :: r → isspace_char c = false)
  ∧ (∀ c r, rev (strip s) = c :: r → isspace_char c = false).
Proof.
  unfold strip, rstrip. split.
  - intros c r H.
    destruct (lstrip_suffix (rev (lstrip s))) as [k Hk].
    apply (f_equal (@rev N)) in Hk. rewrite rev_involutive, rev_app_distr, H in Hk.
    cbn [app] in Hk. eapply lstrip_head. exact Hk.
  - intros c r H. rewrite rev_involutive in H. eapply lstrip_head. exact H.
Qed.

Lemma strip_fixed (s : str) :
  (∀ c r, s = c :: r → isspace_char c = false) →
  (∀ c r, rev s = c :: r → isspace_char c = false) →
  strip s = s.
Proof.
  intros Hhead Hlast. unfold strip, rstrip.
  rewrite (lstrip_fixed s Hhead), (lstrip_fixed (rev s) Hlast).
  apply rev_involutive.
Qed.

Lemma strip_idemp (s : str) : strip (strip s) = strip s.
Proof. apply strip_fixed; apply strip_ends. Qed.

Lemma lstrip_elem (s : str) (c : N) : c ∈ lstrip s → c ∈ s.
Proof.
  intros H. destruct (lstrip_suffix s) as [k Hk]. rewrite Hk.
  apply elem_of_app. right. exact H.
Qed.

Lemma strip_elem (s : str) (c : N) : c ∈ strip s → c ∈ s.
Proof.
  unfold strip, rstrip. intros H.
  apply list_elem_of_In, in_rev, list_elem_of_In in H.
  apply lstrip_elem in H.
  apply list_elem_of_In, in_rev, list_elem_of_In in H.
  apply lstrip_elem. exact H.
Qed.

Lemma digits_value_from (ds : list N) (acc : Z) :
  0 <= acc → 0 <= fold_left (fun acc d => 10 * acc + Z.of_N d) ds acc.
Proof.
  revert acc. induction ds as [|d ds IH]; intros acc Hacc; [exact Hacc|].
  cbn [fold_left]. apply IH. lia.
Qed.

(** A text that [int] reads without a sign. *)
Lemma int_unsigned (s : str) :
  (∀ c r, strip s = c :: r → c ≠ 0x2B%N ∧ c ≠ 0x2D%N) →
  int s = match literal_digits (strip s) false with
          | Some ds =>
              if (int_max_str_digits <? length ds)%nat then Raise ValueError
              else Ok (digits_value ds)
          | None => Raise ValueError
          end.
Proof.
  intros H. unfold int. destruct (strip s) as [|c r] eqn:E; [reflexivity|].
  destruct (H c r eq_refl) as [Hplus Hminus].
  destruct c as [|p]; [reflexivity|].
  repeat (destruct p as [p|p|]; try reflexivity); congruence.
Qed.

(** What [int] makes of a text that [isdigit] accepts is not negative. *)
Lemma int_isdigit_nonneg (s : str) (n : Z) :
  isdigit s = true → int s = Ok n → 0 <= n.
Proof.
  intros Hdigit Hint. rewrite int_unsigned in Hint.
  - destruct (literal_digits (strip s) false) as [ds|]; [|discriminate].
    destruct (_ <? _)%nat; [discriminate|]. injection Hint as <-.
    apply digits_value_from. lia.
  - intros c r E.
    assert (Hc : isdigit_char c = true).
    { assert (Hin : c ∈ s) by (apply strip_elem; rewrite E; left).
      destruct s as [|a s']; [discriminate|]. unfold isdigit in Hdigit.
      rewrite forallb_forall in Hdigit. apply Hdigit, list_elem_of_In, Hin. }
    split; intros ->; vm_compute in Hc; discriminate Hc.
Qed.

(** *** [int(str(n))] *)

Lemma in_ranges_outside (rs : list (N * N)) (c : N) :
  Forall (fun r => (c < r.1 ∨ r.2 < c)%N) rs → in_ranges rs c = false.
Proof.
  induction 1 as [|[lo hi] rs Hr _ IH]; [reflexivity|]. cbn [in_ranges fst snd] in *.
  rewrite IH, orb_false_r. apply andb_false_iff.
  destruct Hr; [left; apply N.leb_gt | right; apply N.leb_gt]; assumption.
Qed.

Lemma ascii_digit_not_space (c : N) : (48 <= c <= 57)%N → isspace_char c = false.
Proof.
  intros Hc. apply in_ranges_outside. unfold space_ranges.
  repeat constructor; cbn [fst snd]; lia.
Qed.

Lemma ascii_digit_isdigit (c : N) : (48 <= c <= 57)%N → isdigit_char c = true.
Proof.
  intros [Hlo Hhi]. unfold isdigit_char, isdecimal_char, decimal_ranges.
  cbn [in_ranges]. rewrite (proj2 (N.leb_le 48 c) Hlo), (proj2 (N.leb_le c 57) Hhi).
  reflexivity.
Qed.

Lemma ascii_digit_value (c : N) : (48 <= c <= 57)%N → decimal_value c = Some (c - 48)%N.
Proof.
  intros [Hlo Hhi]. unfold decimal_value, decimal_ranges. cbn [decimal_value_in].
  rewrite (proj2 (N.leb_le 48 c) Hlo), (proj2 (N.leb_le c 57) Hhi). cbn [andb].
  f_equal. apply N.mod_small. lia.
Qed.

Lemma literal_digits_ascii (s : str) :
  Forall (fun c => (48 <= c <= 57)%N) s →
  literal_digits s true = Some (map (fun c => (c - 48)%N) s)
  ∧ (s ≠ [] → literal_digits s false = Some (map (fun c => (c - 48)%N) s)).
Proof.
  induction 1 as [|c s Hc _ [IH _]]; [split; [reflexivity|congruence]|].
  assert (H : ∀ b, literal_digits (c :: s) b = Some (map (fun c => (c - 48)%N) (c :: s))).
  { intros b. cbn [literal_digits map].
    destruct (N.eqb_spec c 0x5F) as [->|_]; [lia|].
    rewrite (ascii_digit_value c Hc), IH. reflexivity. }
  split; [apply H | intros _; apply H].
Qed.

Lemma uint_digits_ascii (d : uint) :
  Forall (fun c => (48 <= c <= 57)%N) (lit (NilEmpty.string_of_uint d)).
Proof.
  induction d; cbn [NilEmpty.string_of_uint]; [constructor|..];
    rewrite lit_cons; (constructor; [vm_compute; split; discriminate | assumption]).
Qed.

Lemma uint_digits_value (d : uint) (p : positive) :
  fold_left (fun acc d => 10 * acc + Z.of_N d)
    (map (fun c => (c - 48)%N) (lit (NilEmpty.string_of_uint d))) (Z.pos p)
  = Z.pos (Pos.of_uint_acc d p).
Proof.
  revert p. induction d as [|d IH|d IH|d IH|d IH|d IH|d IH|d IH|d IH|d IH|d IH];
    intros p; [reflexivity|..];
    cbn [NilEmpty.string_of_uint Pos.of_uint_acc]; rewrite lit_cons;
    cbn [map fold_left]; rewrite <- IH; f_equal; cbn [N_of_ascii N_of_digits]; lia.
Qed.

Lemma uint_digits_value_0 (d : uint) :
  fold_left (fun acc d => 10 * acc + Z.of_N d)
    (map (fun c => (c - 48)%N) (lit (NilEmpty.string_of_uint d))) 0
  = Z.of_N (Pos.of_uint d).
Proof.
  induction d as [|d IH|d IH|d IH|d IH|d IH|d IH|d IH|d IH|d IH|d IH];
    [reflexivity|..];
    cbn [NilEmpty.string_of_uint Pos.of_uint]; rewrite lit_cons; cbn [map fold_left];
    [ exact IH | exact (uint_digits_value d _) .. ].
Qed.

(** The decimal text of a number that is not negative: digits only. *)
Lemma str_of_Z_ascii (n : Z) :
  0 <= n → Forall (fun c => (48 <= c <= 57)%N) (str_of_Z n) ∧ str_of_Z n ≠ [].
Proof.
  intros Hn. unfold str_of_Z. destruct n as [|p|p]; [| |lia].
  - change (lit (NilZero.string_of_int (Z.to_int 0))) with [48%N].
    split; [|discriminate]. apply Forall_singleton. lia.
  - pose proof (Unsigned.to_uint_nonnil p) as Hp.
    cbn [Z.to_int NilZero.string_of_int]. rewrite (string_of_uint_nonnil _ Hp).
    split; [apply uint_digits_ascii|].
    destruct (string_of_uint_head _ Hp) as (c & rest & -> & _). discriminate.
Qed.

Lemma ascii_digits_strip (s : str) :
  Forall (fun c => (48 <= c <= 57)%N) s → strip s = s.
Proof.
  intros H. apply strip_fixed.
  - intros c r ->. apply ascii_digit_not_space. inversion H. assumption.
  - intros c r E. apply ascii_digit_not_space.
    assert (Hin : In c (rev s)) by (rewrite E; left; reflexivity).
    apply in_rev in Hin. rewrite Forall_forall in H. apply H, list_elem_of_In, Hin.
Qed.

Lemma ascii_digits_isdigit (s : str) :
  Forall (fun c => (48 <= c <= 57)%N) s → s ≠ [] → isdigit s = true.
Proof.
  intros H Hne. destruct s as [|c s]; [congruence|]. unfold isdigit.
  apply forallb_forall. intros x Hx. apply ascii_digit_isdigit.
  rewrite Forall_forall in H. apply H, list_elem_of_In, Hx.
Qed.

(** [int(str(n)) == n] for a number that is not negative and is written
    with no more digits than [int] accepts. *)
Lemma int_str_of_Z (n : Z) :
  0 <= n → (length (str_of_Z n) <= int_max_str_digits)%nat →
  int (str_of_Z n) = Ok n.
Proof.
  intros Hn Hlen. destruct (str_of_Z_ascii n Hn) as [Hascii Hne].
  rewrite int_unsigned.
  - rewrite (ascii_digits_strip _ Hascii).
    rewrite (proj2 (literal_digits_ascii _ Hascii) Hne).
    rewrite length_map. destruct (Nat.ltb_spec int_max_str_digits (length (str_of_Z n)));
      [lia|].
    f_equal. unfold digits_value, str_of_Z. destruct n as [|p|p]; [reflexivity| |lia].
    pose proof (Unsigned.to_uint_nonnil p) as Hp.
    cbn [Z.to_int NilZero.string_of_int]. rewrite (string_of_uint_nonnil _ Hp).
    rewrite uint_digits_value_0, Unsigned.of_to. reflexivity.
  - intros c r E. rewrite (ascii_digits_strip _ Hascii) in E.
    rewrite E in Hascii. inversion Hascii; subst. lia.
Qed.

End python.

(** ** The record dialog *)

Section dialog.
Import RecordDialog.

Lemma truthy_spec (s : str) : Py.truthy s = true ↔ s ≠ [].
Proof. destruct s; simpl; split; congruence. Qed.

Lemma int_strip (s : str) : Py.int (Py.strip s) = Py.int s.
Proof. unfold Py.int. rewrite strip_idemp. reflexivity. Qed.

(** The two ways [handle_accept] returns: it closes the dialog, always
    with [Accepted] and with a record the checks have passed, or it shows
    one of its two alerts and leaves the dialog as it was. *)
Lemma handle_accept_returns (d d' : t) (outcome : slot_outcome) :
  handle_accept d = Ok (d', outcome) →
  (∃ n, outcome = Closed Accepted
        ∧ Py.strip (food_edit d) ≠ []
        ∧ Py.isdigit (Py.strip (calorie_edit d)) = true
        ∧ Py.int (calorie_edit d) = Ok n
        ∧ result_data d'
          = Some {| date := Some (QDate.toString (date_edit d));
                    meal := Some (meal_text (meal_combo d));
                    food := Some (Py.strip (food_edit d));
                    calories := Some n;
                    note := Some (Py.strip (note_edit d)) |})
  ∨ (d' = d ∧ (outcome = Alerted FoodMissing ∨ outcome = Alerted CaloriesNotNumeric)).
Proof.
  unfold handle_accept.
  destruct (Py.truthy (Py.strip (food_edit d))) eqn:Hfood; cbn [negb].
  2:{ intros [= <- <-]. right. auto. }
  destruct (Py.isdigit (Py.strip (calorie_edit d))) eqn:Hdigit; cbn [negb].
  2:{ intros [= <- <-]. right. auto. }
  unfold mbind, result_bind.
  destruct (Py.int (Py.strip (calorie_edit d))) as [n|] eqn:Hint; [|discriminate].
  intros [= <- <-]. left. exists n.
  split; [reflexivity|]. split; [apply truthy_spec, Hfood|]. split; [reflexivity|].
  split; [rewrite <- int_strip; exact Hint | reflexivity].
Qed.

Lemma created_record (d m f t : str) (text : str) (n : Z) :
  Py.strip f ≠ [] → Py.isdigit (Py.strip text) = true → Py.int text = Ok n →
  as_created {| date := Some d; meal := Some m; food := Some (Py.strip f);
                calories := Some n; note := Some (Py.strip t) |}.
Proof.
  intros Hf Hdigit Hint. exists d, m, (Py.strip f), n, (Py.strip t).
  split; [reflexivity|]. split; [exact Hf|]. split; [apply strip_idemp|].
  split; [|apply strip_idemp].
  apply (int_isdigit_nonneg (Py.strip text)); [exact Hdigit|].
  rewrite int_strip. exact Hint.
Qed.

(** However the dialog is used, it shows no alert but its two, and when it
    ends accepted it holds a record as the dialog creates them. *)
Lemma exec_outcome (actions : list user_action) (d d' : t) (code : dialog_code)
    (alerts : list alert) :
  exec_ d actions = Ok (d', code, alerts) →
  Forall (fun a => a = FoodMissing ∨ a = CaloriesNotNumeric) alerts
  ∧ (code = Accepted →
     ∃ data, result_data d' = Some data ∧ as_created data ∧ record_truthy data = true).
Proof.
  revert d alerts. induction actions as [|a actions IH]; intros d alerts.
  { intros [= <- <- <-]. split; [constructor|discriminate]. }
  destruct a; cbn [exec_]; try apply IH.
  - unfold mbind, result_bind.
    destruct (handle_accept d) as [[d1 outcome]|] eqn:Haccept; [|discriminate].
    apply handle_accept_returns in Haccept
      as [(n & -> & Hfood & Hdigit & Hint & Hdata)|[-> [-> | ->]]].
    + intros [= <- <- <-]. split; [constructor|]. intros _.
      eexists. split; [exact Hdata|].
      split; [eapply created_record; eassumption | reflexivity].
    + destruct (exec_ d actions) as [[[d2 code2] alerts2]|] eqn:Hrest; [|discriminate].
      intros [= <- <- <-]. destruct (IH _ _ Hrest) as [Halerts Hacc].
      split; [constructor; auto | exact Hacc].
    + destruct (exec_ d actions) as [[[d2 code2] alerts2]|] eqn:Hrest; [|discriminate].
      intros [= <- <- <-]. destruct (IH _ _ Hrest) as [Halerts Hacc].
      split; [constructor; auto | exact Hacc].
  - intros [= <- <- <-]. split; [constructor|discriminate].
Qed.

Lemma exec_without_ok (actions : list user_action) (d : t) :
  ClickOk ∉ actions → ∃ d', exec_ d actions = Ok (d', Rejected, []).
Proof.
  revert d. induction actions as [|a actions IH]; intros d Hno.
  { eexists. reflexivity. }
  assert (Hrest : ClickOk ∉ actions) by (intros H; apply Hno; right; exact H).
  destruct a; cbn [exec_]; try (apply IH; exact Hrest).
  - exfalso. apply Hno. left.
  - eexists. reflexivity.
Qed.

(** X6: the record [handle_accept] creates.  When the slot closes the
    dialog, the record it leaves in [result_data] has the five keys, the
    date of the date field as text, the meal selected, the food name
    stripped of surrounding white space and not empty, the note stripped,
    and as calories the number [int] reads in the calorie field, which is
    not negative. *)
Theorem handle_accept_creates (d d' : t) :
  handle_accept d = Ok (d', Closed Accepted) →
  ∃ n, Py.int (calorie_edit d) = Ok n ∧ 0 <= n
    ∧ Py.strip (food_edit d) ≠ []
    ∧ result_data d'
      = Some {| date := Some (QDate.toString (date_edit d));
                meal := Some (meal_text (meal_combo d));
                food := Some (Py.strip (food_edit d));
                calories := Some n;
                note := Some (Py.strip (note_edit d)) |}
    ∧ as_created {| date := Some (QDate.toString (date_edit d));
                    meal := Some (meal_text (meal_combo d));
                    food := Some (Py.strip (food_edit d));
                    calories := Some n;
                    note := Some (Py.strip (note_edit d)) |}.
Proof.
  intros H. apply handle_accept_returns in H
    as [(n & _ & Hfood & Hdigit & Hint & Hdata)|[_ [H|H]]]; try discriminate H.
  exists n. split; [exact Hint|].
  pose proof (created_record (QDate.toString (date_edit d)) (meal_text (meal_combo d))
                (food_edit d) (note_edit d) (calorie_edit d) n Hfood Hdigit Hint)
    as Hcreated.
  split; [|split; [exact Hfood|split; [exact Hdata|exact Hcreated]]].
  destruct Hcreated as (? & ? & ? & n' & ? & [= _ _ _ -> _] & _ & _ & Hn & _).
  exact Hn.
Qed.

Lemma handle_accept_creates_witness :
  ∃ n, Py.int (lit " 600 ") = Ok n ∧ 0 <= n.
Proof.
  destruct (handle_accept_creates
              (mk no_record example_day Lunch (lit " rice") (lit " 600 ") (lit " light ") None)
              (mk no_record example_day Lunch (lit " rice") (lit " 600 ") (lit " light ")
                 (Some {| date := Some (lit "2024-03-02");
                          meal := Some (meal_text Lunch);
                          food := Some (lit "rice");
                          calories := Some 600;
                          note := Some (lit "light") |}))
              eq_refl)
    as (n & Hint & Hn & _).
  exists n. split; assumption.
Defined.

Lemma setCurrentText_item (item current : meal_item) :
  setCurrentText (meal_text item) current = item.
Proof. destruct item; vm_compute; reflexivity. Qed.

(** X7: editing without changing anything.  The dialog opened on a record
    as the dialog creates them (its date one that [QDate.fromString] reads
    and [toString] writes back, its meal one of the three of the combo
    box) and closed with OK at once returns the very same record: the
    calories survive [str] and [int], the texts survive [strip].  The last
    three hypotheses keep the record within what the widgets hold, which
    the model of the widgets does not limit: the dates of a QDateEdit and
    the 32767 UTF-16 units of a QLineEdit. *)
Theorem edit_dialog_round_trip (fromString : str → QDate.t) (today : QDate.t)
    (r : DietRecord) (s f t : str) (item : meal_item) (n : Z) :
  as_created r →
  date r = Some s → s ≠ [] →
  QDate.isValid (fromString s) = true →
  QDate.toString (fromString s) = s →
  meal r = Some (meal_text item) →
  food r = Some f → calories r = Some n → note r = Some t →
  (length (Py.str_of_Z n) <= Py.int_max_str_digits)%nat →
  1753 <= QDate.year (fromString s) <= 9999 →
  Z.of_nat (length f) <= 16383 → Z.of_nat (length t) <= 16383 →
  ∃ d', exec_ (init fromString today (Some r)) [ClickOk] = Ok (d', Accepted, [])
        ∧ result_data d' = Some r.
Proof.
  intros (s0 & m0 & f0 & n0 & t0 & -> & Hf & Hfs & Hn & Hts).
  cbn [date meal food calories note].
  intros [= ->] Hs Hvalid Hback [= ->] [= ->] [= ->] [= ->] Hlen _ _ _.
  destruct (str_of_Z_ascii n Hn) as [Hascii Hne].
  assert (Hstrip : Py.strip (Py.str_of_Z n) = Py.str_of_Z n)
    by (apply ascii_digits_strip; exact Hascii).
  set (r := {| date := Some s; meal := Some (meal_text item); food := Some f;
               calories := Some n; note := Some t |}).
  assert (Htruthy : record_truthy r = true) by reflexivity.
  unfold init. rewrite Htruthy, Htruthy. subst r.
  cbn [date meal food calories note default from_option].
  rewrite (proj2 (truthy_spec s) Hs), Hvalid. cbn [andb].
  cbn [id]. rewrite setCurrentText_item. cbn [exec_]. unfold handle_accept.
  cbn [food_edit calorie_edit note_edit date_edit meal_combo record].
  rewrite Hfs, Hts, Hstrip, (proj2 (truthy_spec f) Hf). cbn [negb].
  rewrite (ascii_digits_isdigit _ Hascii Hne). cbn [negb].
  rewrite (int_str_of_Z n Hn Hlen). unfold mbind, result_bind, mret, result_ret.
  rewrite Hback. eexists. split; reflexivity.
Qed.

Lemma edit_dialog_round_trip_witness :
  let r := entry (lit "2024-03-02") (meal_text Lunch) (lit "rice") 600 in
  ∃ d', exec_ (init QDate.fromString_iso example_day (Some r)) [ClickOk]
        = Ok (d', Accepted, [])
        ∧ result_data d' = Some r.
Proof.
  intros r.
  apply (edit_dialog_round_trip QDate.fromString_iso example_day r
           (lit "2024-03-02") (lit "rice") [] Lunch 600);
    try reflexivity; try discriminate; try (vm_compute; lia).
  - exists (lit "2024-03-02"), (meal_text Lunch), (lit "rice"), 600, [].
    repeat split; try reflexivity; try discriminate; lia.
  - vm_compute. split; discriminate.
Defined.

End dialog.

(** ** Adding, editing and deleting records *)

Section operations.
Import MainWindow.
Variable fromString : str → QDate.t.
Variable today : QDate.t.

(** With a height and a weight of the spin boxes' ranges in the profile,
    the refresh that ends every operation returns; it shows the list just
    assigned and leaves the session as it is. *)
Lemma refreshed (w : t) (h k : Z) (list : list DietRecord) :
  credentials w !! lit "height" = Some (JInt h) →
  credentials w !! lit "weight" = Some (JInt k) →
  100 <= h <= 250 → 30 <= k <= 200 →
  ∃ w', refresh_all fromString today (set_records list w) = Ok w'
        ∧ records w' = list
        ∧ username w' = username w
        ∧ target_calories w' = target_calories w
        ∧ credentials w' = credentials w.
Proof.
  intros Hh Hk Hhr Hkr.
  destruct (refresh_all_returns fromString today (set_records list w) h k Hh Hk Hhr Hkr)
    as (w' & Hw' & Hu & Hr & Ht & Hc).
  exists w'. auto.
Qed.

(** An accepted dialog: the record of the dialog goes to the end of the
    list, the list to the file. *)
Lemma add_record_accepted (w : t) (fs : FS) (actions : list RecordDialog.user_action)
    (h k : Z) (d : RecordDialog.t) (alerts : list alert) :
  credentials w !! lit "height" = Some (JInt h) →
  credentials w !! lit "weight" = Some (JInt k) →
  100 <= h <= 250 → 30 <= k <= 200 →
  RecordDialog.exec_ (RecordDialog.init fromString today None) actions
    = Ok (d, Accepted, alerts) →
  ∃ data w',
    RecordDialog.result_data d = Some data
    ∧ as_created data
    ∧ add_record fromString today actions w fs
      = (Ok (w', alerts),
         DataManager.save_records (records_json (records w ++ [data])) fs)
    ∧ records w' = records w ++ [data]
    ∧ username w' = username w
    ∧ target_calories w' = target_calories w
    ∧ credentials w' = credentials w.
Proof.
  intros Hh Hk Hhr Hkr Hexec.
  destruct (exec_outcome _ _ _ _ _ Hexec) as [_ Hacc].
  destruct (Hacc eq_refl) as (data & Hdata & Hcreated & Htruthy).
  destruct (refreshed w h k (records w ++ [data]) Hh Hk Hhr Hkr)
    as (w' & Hw' & Hr & Hu & Ht & Hc).
  exists data, w'. split; [exact Hdata|]. split; [exact Hcreated|].
  split; [|auto].
  unfold add_record. rewrite Hexec, Hdata, Htruthy.
  unfold mbind, result_bind. rewrite Hw'. reflexivity.
Qed.

(** A confirmed deletion at an index of the list. *)
Lemma delete_record_confirmed (w : t) (fs : FS) (i : nat) (h k : Z) :
  credentials w !! lit "height" = Some (JInt h) →
  credentials w !! lit "weight" = Some (JInt k) →
  100 <= h <= 250 → 30 <= k <= 200 →
  (i < length (records w))%nat →
  ∃ w',
    delete_record_by_index fromString today (Z.of_nat i) Accepted w fs
      = (Ok (w', []), DataManager.save_records (records_json (records w')) fs)
    ∧ records w' = delete i (records w)
    ∧ username w' = username w
    ∧ target_calories w' = target_calories w
    ∧ credentials w' = credentials w.
Proof.
  intros Hh Hk Hhr Hkr Hi.
  destruct (refreshed w h k (delete i (records w)) Hh Hk Hhr Hkr)
    as (w' & Hw' & Hr & Hu & Ht & Hc).
  exists w'. split; [|auto].
  unfold delete_record_by_index.
  destruct (Z.ltb_spec (Z.of_nat i) 0); [lia|].
  destruct (Z.leb_spec (Z.of_nat (length (records w))) (Z.of_nat i)); [lia|].
  cbn [orb]. rewrite Nat2Z.id. unfold mbind, result_bind. rewrite Hw', Hr. reflexivity.
Qed.




End operations.




(** ** What leaves the record list alone, and what the list keeps *)

Section store.
Import MainWindow.
Variable fromString : str → QDate.t.
Variable today : QDate.t.

(** X11: a dialog in which OK is never pressed.  Whatever is picked and
    typed, closing or cancelling the dialog changes neither the window nor
    the files, and no alert is shown; this holds for adding and, at any
    index, for editing. *)
Theorem dialog_without_ok_changes_nothing
    (actions : list RecordDialog.user_action) (index : Z) (w : t) (fs : FS) :
  RecordDialog.ClickOk ∉ actions →
  add_record fromString today actions w fs = (Ok (w, []), fs)
  ∧ edit_record_by_index fromString today index actions w fs = (Ok (w, []), fs).
Proof.
  intros Hno. split.
  - unfold add_record.
    destruct (exec_without_ok actions (RecordDialog.init fromString today None) Hno)
      as [d' ->]. reflexivity.
  - unfold edit_record_by_index. destruct (_ || _); [reflexivity|].
    destruct (exec_without_ok actions
                (RecordDialog.init fromString today (records w !! Z.to_nat index)) Hno)
      as [d' ->]. reflexivity.
Qed.

(** X12: rows that are no index of the list.  A negative current row (no
    row is selected, or there is no table) is answered by the two
    selected-row slots with their alert, before anything else happens; a
    row from the length of the list on is passed to the slots by index,
    which return at once, as they do for a negative index: window and
    files are as before.  So is a deletion that is not confirmed. *)
Theorem rows_outside_the_list (table : option Z) (index : Z)
    (actions : list RecordDialog.user_action) (confirm : dialog_code)
    (w : t) (fs : FS) :
  current_row None = -1
  ∧ (current_row table < 0 →
       edit_selected_record fromString today table actions w fs
         = NoSelection SelectToEdit
       ∧ delete_selected_record fromString today table confirm w fs
         = NoSelection SelectToDelete)
  ∧ (Z.of_nat (length (records w)) <= current_row table →
       edit_selected_record fromString today table actions w fs = OnRow (Ok (w, []), fs)
       ∧ delete_selected_record fromString today table confirm w fs
         = OnRow (Ok (w, []), fs))
  ∧ (index < 0 ∨ Z.of_nat (length (records w)) <= index →
       edit_record_by_index fromString today index actions w fs = (Ok (w, []), fs)
       ∧ delete_record_by_index fromString today index confirm w fs = (Ok (w, []), fs))
  ∧ delete_record_by_index fromString today index Rejected w fs = (Ok (w, []), fs).
Proof.
  assert (Hout : ∀ i, i < 0 ∨ Z.of_nat (length (records w)) <= i →
            (i <? 0) || (Z.of_nat (length (records w)) <=? i) = true).
  { intros i [Hi|Hi]; apply orb_true_iff; [left; apply Z.ltb_lt | right; apply Z.leb_le];
      exact Hi. }
  split; [reflexivity|]. split; [|split; [|split]].
  - intros Hrow. unfold edit_selected_record, delete_selected_record.
    rewrite (proj2 (Z.ltb_lt _ _) Hrow). split; reflexivity.
  - intros Hrow. unfold edit_selected_record, delete_selected_record.
    destruct (Z.ltb_spec (current_row table) 0); [lia|].
    unfold edit_record_by_index, delete_record_by_index.
    rewrite (Hout _ (or_intror Hrow)). split; reflexivity.
  - intros Hindex. unfold edit_record_by_index, delete_record_by_index.
    rewrite (Hout _ Hindex). split; reflexivity.
  - unfold delete_record_by_index. destruct (_ || _); reflexivity.
Qed.

Lemma perform_keeps_created (op : operation) (w w' : t) (fs fs' : FS)
    (alerts : list alert) :
  Forall as_created (records w) →
  perform fromString today op w fs = (Ok (w', alerts), fs') →
  Forall as_created (records w').
Proof.
  intros Hall. destruct op as [actions | index actions | index confirm]; simpl.
  - unfold add_record.
    destruct (RecordDialog.exec_ _ _) as [[[dialog code] shown]|] eqn:Hexec; [|discriminate].
    destruct code; [|intros [= <- _ _]; exact Hall].
    destruct (exec_outcome _ _ _ _ _ Hexec) as [_ Hacc].
    destruct (Hacc eq_refl) as (data & -> & Hcreated & ->).
    unfold mbind, result_bind.
    destruct (refresh_all _ _ _) as [w2|] eqn:Hrefresh; [|discriminate].
    intros [= <- _ _]. apply refresh_all_session in Hrefresh as (_ & -> & _).
    cbn. apply Forall_app. split; [exact Hall | constructor; [exact Hcreated|constructor]].
  - unfold edit_record_by_index.
    destruct (_ || _); [intros [= <- _ _]; exact Hall|].
    destruct (RecordDialog.exec_ _ _) as [[[dialog code] shown]|] eqn:Hexec; [|discriminate].
    destruct code; [|intros [= <- _ _]; exact Hall].
    destruct (exec_outcome _ _ _ _ _ Hexec) as [_ Hacc].
    destruct (Hacc eq_refl) as (data & -> & Hcreated & ->).
    unfold mbind, result_bind.
    destruct (refresh_all _ _ _) as [w2|] eqn:Hrefresh; [|discriminate].
    intros [= <- _ _]. apply refresh_all_session in Hrefresh as (_ & -> & _).
    cbn. apply Forall_insert; assumption.
  - unfold delete_record_by_index.
    destruct (_ || _); [intros [= <- _ _]; exact Hall|].
    destruct confirm; [|intros [= <- _ _]; exact Hall].
    unfold mbind, result_bind.
    destruct (refresh_all _ _ _) as [w2|] eqn:Hrefresh; [|discriminate].
    intros [= <- _ _]. apply refresh_all_session in Hrefresh as (_ & -> & _).
    cbn. apply Forall_delete. exact Hall.
Qed.

(** X13: what the list keeps.  If every record of the list is one as the
    dialog creates them (five keys, a food name that is not empty,
    calories that are not negative), then so is every record of the list
    after any sequence of additions, edits and deletions. *)
Theorem run_keeps_created (ops : list operation) (w w' : t) (fs fs' : FS) :
  Forall as_created (records w) →
  run fromString today ops w fs = Ok (w', fs') →
  Forall as_created (records w').
Proof.
  revert w fs. induction ops as [|op ops IH]; intros w fs Hall; simpl.
  - intros [= <- _]. exact Hall.
  - destruct (perform fromString today op w fs) as [[[w1 alerts]|] fs1] eqn:Hop;
      [|discriminate].
    apply IH. eapply perform_keeps_created; eassumption.
Qed.

End store.

Lemma dialog_without_ok_changes_nothing_witness :
  MainWindow.add_record QDate.fromString_iso example_day
    [RecordDialog.TypeFood (lit "rice"); RecordDialog.ClickCancel] fresh_window ∅
  = (Ok (fresh_window, []), ∅).
Proof.
  apply (dialog_without_ok_changes_nothing QDate.fromString_iso example_day
           [RecordDialog.TypeFood (lit "rice"); RecordDialog.ClickCancel] 0 fresh_window ∅).
  intros H. repeat (apply elem_of_cons in H as [H|H]; [discriminate H|]).
  apply elem_of_nil in H. exact H.
Defined.

Lemma run_keeps_created_witness :
  ∃ w' fs',
    run QDate.fromString_iso example_day
      [AddRecord [RecordDialog.TypeFood (lit "rice"); RecordDialog.TypeCalories (lit "600");
                  RecordDialog.ClickOk]] fresh_window ∅
    = Ok (w', fs')
    ∧ Forall as_created (MainWindow.records w').
Proof.
  destruct (run QDate.fromString_iso example_day
              [AddRecord [RecordDialog.TypeFood (lit "rice");
                          RecordDialog.TypeCalories (lit "600");
                          RecordDialog.ClickOk]] fresh_window ∅)
    as [[w' fs']|] eqn:Hrun; [|vm_compute in Hrun; discriminate Hrun].
  exists w', fs'. split; [reflexivity|].
  eapply (run_keeps_created QDate.fromString_iso example_day); [|exact Hrun].
  constructor.
Defined.

(** ** The other views *)

Section side_views.
Import MainWindow.
Variable fromString : str → QDate.t.
Variable today : QDate.t.

Lemma set_pref_lookup (key : str) (text : pref_text) (labels : gmap str pref_text)
    (k : str) :
  set_pref key text labels !! k
  = if decide (key = k) then (fun _ => text) <$> labels !! k else labels !! k.
Proof.
  unfold set_pref. destruct (labels !! key) eqn:Hkey.
  - rewrite lookup_insert. destruct (decide (key = k)) as [<-|]; [|reflexivity].
    rewrite Hkey. reflexivity.
  - destruct (decide (key = k)) as [<-|]; [|reflexivity]. rewrite Hkey. reflexivity.
Qed.

(** The three chips of the settings page after [update_preference_summary],
    in terms of the loop. *)
Lemma update_preference_summary_chips (labels : gmap str pref_text) (w : t) (k : str) :
  is_Some (labels !! k) →
  let acc := fold_left (preference_step fromString today) (records w) (∅, 0) in
  update_preference_summary fromString today labels w !! k
  = if decide (k = lit "pref_total") then Some (PrefRecords (length (records w)))
    else if decide (k = lit "pref_week") then Some (PrefDays (size acc.1))
    else if decide (k = lit "pref_today") then Some (PrefKcal acc.2)
    else labels !! k.
Proof.
  intros [c Hk] acc. subst acc. unfold update_preference_summary.
  rewrite bool_decide_eq_false_2
    by (intros Hempty; rewrite Hempty, lookup_empty in Hk; discriminate).
  destruct (fold_left _ _ _) as [days kcal]. cbn [fst snd].
  rewrite !set_pref_lookup.
  destruct (decide (k = lit "pref_total")) as [->|Htotal].
  { repeat first
      [ rewrite decide_True by reflexivity
      | rewrite decide_False by (intros Heq; vm_compute in Heq; discriminate Heq) ].
    rewrite Hk. reflexivity. }
  destruct (decide (k = lit "pref_week")) as [->|Hweek].
  { repeat first
      [ rewrite decide_True by reflexivity
      | rewrite decide_False by (intros Heq; vm_compute in Heq; discriminate Heq) ].
    rewrite Hk. reflexivity. }
  destruct (decide (k = lit "pref_today")) as [->|Htoday].
  { repeat first
      [ rewrite decide_True by reflexivity
      | rewrite decide_False by (intros Heq; vm_compute in Heq; discriminate Heq) ].
    rewrite Hk. reflexivity. }
  rewrite !decide_False by congruence. reflexivity.
Qed.

(** The chips of the dashboard after [update_highlights]. *)
Lemma update_highlights_chip (w : t) (k : str) :
  is_Some (highlight_labels w !! k) →
  let acc := fold_left (highlights_step fromString today) (records w) (∅, 0%nat) in
  highlight_labels (update_highlights fromString today w) !! k
  = if decide (k = lit "week") then Some (ChipDays (size acc.1))
    else if decide (k = lit "today") then Some (ChipMeals acc.2)
    else if decide (k = lit "total") then Some (ChipRecords (length (records w)))
    else highlight_labels w !! k.
Proof.
  intros [c Hk] acc. subst acc. unfold update_highlights.
  rewrite bool_decide_eq_false_2
    by (intros Hempty; rewrite Hempty, lookup_empty in Hk; discriminate).
  destruct (fold_left _ _ _) as [days meals]. cbn [fst snd].
  rewrite !set_chip_lookup, !set_chip_records.
  destruct (decide (k = lit "week")) as [->|Hweek].
  { repeat first
      [ rewrite decide_True by reflexivity
      | rewrite decide_False by (intros Heq; vm_compute in Heq; discriminate Heq) ].
    rewrite Hk. reflexivity. }
  destruct (decide (k = lit "today")) as [->|Htoday].
  { repeat first
      [ rewrite decide_True by reflexivity
      | rewrite decide_False by (intros Heq; vm_compute in Heq; discriminate Heq) ].
    rewrite Hk. reflexivity. }
  destruct (decide (k = lit "total")) as [->|Htotal].
  { repeat first
      [ rewrite decide_True by reflexivity
      | rewrite decide_False by (intros Heq; vm_compute in Heq; discriminate Heq) ].
    rewrite Hk. reflexivity. }
  rewrite !decide_False by congruence. reflexivity.
Qed.

(** The two loops collect the same days. *)
Lemma loops_same_days (records : list DietRecord) (days : gset str) (kcal : Z)
    (meals : nat) :
  (fold_left (preference_step fromString today) records (days, kcal)).1
  = (fold_left (highlights_step fromString today) records (days, meals)).1.
Proof.
  revert days kcal meals. induction records as [|r records IH]; intros days kcal meals;
    [reflexivity|].
  cbn [fold_left]. unfold preference_step at 2, highlights_step at 2. cbn [fst snd].
  destruct (QDate.isValid _); cbn [negb]; apply IH.
Qed.

(** The loop of the settings page adds the calories of the records whose
    date is valid and is today. *)
Lemma preference_fold_total (records : list DietRecord) (days : gset str) (kcal : Z) :
  (fold_left (preference_step fromString today) records (days, kcal)).2
  = kcal + foldr Z.add 0
             (map (fun r => default 0 (calories r))
                (filter (fun r => parsable fromString r ∧ record_date fromString r = today)
                   records)).
Proof.
  revert days kcal. induction records as [|r records IH]; intros days kcal.
  { cbn. lia. }
  cbn [fold_left]. unfold preference_step at 2. cbn [fst snd].
  fold (record_date fromString r).
  destruct (QDate.isValid (record_date fromString r)) eqn:Hvalid; cbn [negb].
  2:{ rewrite IH, filter_cons_False; [reflexivity|].
      unfold parsable. rewrite Hvalid. intros [H _]. exact H. }
  rewrite IH. destruct (QDate.eqb (record_date fromString r) today) eqn:Heq.
  - apply eqb_eq in Heq.
    rewrite filter_cons_True
      by (unfold parsable; rewrite Hvalid; split; [exact I | exact Heq]).
    cbn [map foldr]. lia.
  - rewrite filter_cons_False; [reflexivity|].
    intros [_ Heq']. apply eqb_eq in Heq'. congruence.
Qed.

Lemma filters_agree (records : list DietRecord) :
  Forall (fun r => QDate.isValid (record_date fromString r) = true
                   ∧ record_date fromString r = today
                   ↔ date r = Some (QDate.toString today)) records →
  filter (fun r => parsable fromString r ∧ record_date fromString r = today) records
  = filter (fun r => date r = Some (QDate.toString today)) records.
Proof.
  induction 1 as [|r records Hr _ IH]; [reflexivity|].
  destruct (decide (date r = Some (QDate.toString today))) as [Hd|Hd].
  - rewrite !filter_cons_True; [rewrite IH; reflexivity|exact Hd|].
    apply Hr in Hd as [Hvalid Heq]. split; [|exact Heq].
    unfold parsable. rewrite Hvalid. exact I.
  - rewrite !filter_cons_False; [exact IH|exact Hd|].
    intros [Hvalid Heq]. apply Hd, Hr. split; [|exact Heq].
    unfold parsable in Hvalid. destruct (QDate.isValid _); [reflexivity|contradiction].
Qed.

(** X14: the settings page and the dashboard count alike.  The chip for the
    days of the week on the settings page shows the number the week chip
    of the dashboard shows, and the two chips for the number of records
    show the length of the list, when these chips exist. *)
Theorem preference_summary_agrees_with_highlights
    (labels : gmap str pref_text) (w : t) :
  is_Some (labels !! lit "pref_week") →
  is_Some (labels !! lit "pref_total") →
  is_Some (highlight_labels w !! lit "week") →
  is_Some (highlight_labels w !! lit "total") →
  ∃ days,
    update_preference_summary fromString today labels w !! lit "pref_week"
      = Some (PrefDays days)
    ∧ highlight_labels (update_highlights fromString today w) !! lit "week"
      = Some (ChipDays days)
    ∧ update_preference_summary fromString today labels w !! lit "pref_total"
      = Some (PrefRecords (length (records w)))
    ∧ highlight_labels (update_highlights fromString today w) !! lit "total"
      = Some (ChipRecords (length (records w))).
Proof.
  intros Hpw Hpt Hw Ht.
  exists (size (fold_left (highlights_step fromString today) (records w) (∅, 0%nat)).1).
  rewrite !update_preference_summary_chips, !update_highlights_chip by assumption.
  repeat first
    [ rewrite decide_True by reflexivity
    | rewrite decide_False by (intros Heq; vm_compute in Heq; discriminate Heq) ].
  rewrite (loops_same_days (records w) ∅ 0 0%nat). repeat split.
Qed.

(** X15: two totals for today.  The calorie card adds the calories of the
    records whose date text is today's; the settings page adds those of
    the records whose date, read by [QDate.fromString], is valid and is
    today.  When these are the same records, that is when the parser reads
    today from today's text only, the two totals are the same number. *)
Theorem preference_today_agrees_with_calorie_card
    (labels : gmap str pref_text) (w : t) (bar label : Z * Z) :
  is_Some (labels !! lit "pref_today") →
  calorie_progress w = Some bar →
  calorie_label w = Some label →
  Forall (fun r => QDate.isValid (record_date fromString r) = true
                   ∧ record_date fromString r = today
                   ↔ date r = Some (QDate.toString today)) (records w) →
  ∃ total,
    total = today_total (records w) (QDate.toString today)
    ∧ update_preference_summary fromString today labels w !! lit "pref_today"
      = Some (PrefKcal total)
    ∧ calorie_label (update_calorie_summary today w) = Some (total, target_calories w).
Proof.
  intros Hpt Hbar Hlabel Hsame.
  exists (today_total (records w) (QDate.toString today)).
  split; [reflexivity|]. split.
  - rewrite update_preference_summary_chips by assumption.
    repeat first
      [ rewrite decide_True by reflexivity
      | rewrite decide_False by (intros Heq; vm_compute in Heq; discriminate Heq) ].
    rewrite preference_fold_total, today_total_spec, Z.add_0_l.
    rewrite (filters_agree (records w) Hsame). reflexivity.
  - unfold update_calorie_summary. rewrite Hbar, Hlabel. cbn.
    destruct (calorie_delta_label w); [|reflexivity].
    destruct (0 <? _); reflexivity.
Qed.

(** X16: the recent-records card and the main table.  Once both are filled,
    the main table has one row for each record, the status bar shows
    their number, and each row of the recent-records card shows the four
    texts the main table shows in the row of the same record, which is the
    record its edit and delete buttons are bound to. *)
Theorem recent_rows_match_table (w : t) (rows : list recent_row)
    (table : list table_row) (status_bar : option nat) :
  recent_table w = Some rows →
  ∃ main recent,
    populate_table (Some table) status_bar w = (Some main, Some (length (records w)))
    ∧ length main = length (records w)
    ∧ recent_table (refresh_recent_records w) = Some recent
    ∧ ∀ i rr, recent !! i = Some rr →
        ∃ r tr,
          records w !! row_index rr = Some r
          ∧ main !! row_index rr = Some tr
          ∧ cell_date tr = row_date rr
          ∧ cell_meal tr = row_meal rr
          ∧ cell_food tr = row_food rr
          ∧ cell_calories tr = row_calories rr.
Proof.
  intros Hrows.
  exists (map table_row_of (records w)), (map recent_row_of (latest (records w))).
  split; [reflexivity|]. split; [apply length_map|].
  split; [unfold refresh_recent_records; rewrite Hrows; reflexivity|].
  intros i rr Hrr. apply list_lookup_fmap_Some in Hrr as ([idx r] & -> & Hrr).
  assert (Hr : records w !! idx = Some r).
  { unfold latest in Hrr. cbv zeta in Hrr.
    apply list_elem_of_lookup_2 in Hrr. rewrite elem_of_reverse in Hrr.
    apply list_elem_of_lookup in Hrr as [j Hj]. rewrite lookup_drop in Hj.
    apply list_lookup_imap_Some in Hj as (r' & Hj & Heq).
    injection Heq as -> ->. exact Hj. }
  exists r, (table_row_of r). cbn [recent_row_of row_index fst snd].
  split; [exact Hr|]. split; [rewrite list_lookup_fmap, Hr; reflexivity|].
  repeat split.
Qed.

(** X17: the tip under the body data.  With no record it invites to add
    one; otherwise it shows meal, food and calories of the last record of
    the list, which for a record as the dialog creates them are the texts
    of the first row of the recent-records card. *)
Theorem body_insight_shows_latest (tip : tip_text) (w : t) :
  update_body_insight None w = None
  ∧ (records w = [] → update_body_insight (Some tip) w = Some TipNoRecord)
  ∧ (∀ r, last (records w) = Some r → as_created r →
       ∃ m f n,
         meal r = Some m ∧ food r = Some f ∧ calories r = Some n
         ∧ update_body_insight (Some tip) w = Some (TipLatest m f n)
         ∧ ∀ rows, recent_table w = Some rows →
             ∃ rr rest,
               recent_table (refresh_recent_records w) = Some (rr :: rest)
               ∧ row_meal rr = m ∧ row_food rr = f
               ∧ row_calories rr = Py.str_of_Z n
               ∧ S (row_index rr) = length (records w)).
Proof.
  split; [reflexivity|]. split.
  { intros Hnil. unfold update_body_insight. rewrite Hnil. reflexivity. }
  intros r Hlast (d & m & f & n & t & -> & _).
  exists m, f, n. split; [reflexivity|]. split; [reflexivity|]. split; [reflexivity|].
  split; [unfold update_body_insight; rewrite Hlast; reflexivity|].
  intros rows Hrows. unfold refresh_recent_records. rewrite Hrows. cbn [recent_table].
  apply last_Some in Hlast as [l' Hl'].
  assert (Hfirst : latest (records w) !! 0%nat = Some (length l',
            {| date := Some d; meal := Some m; food := Some f;
               calories := Some n; note := Some t |})).
  { rewrite latest_lookup by (rewrite Hl', length_app; cbn [length]; lia).
    rewrite Hl', length_app. cbn [length].
    replace (length l' + 1 - 1 - 0)%nat with (length l') by lia.
    rewrite lookup_app_r by lia. rewrite Nat.sub_diag. reflexivity. }
  destruct (latest (records w)) as [|[idx r0] rest] eqn:Hlatest; [discriminate|].
  injection Hfirst as -> ->.
  eexists _, _. split; [reflexivity|]. cbn.
  rewrite Hl', length_app. cbn. repeat split. lia.
Qed.


End side_views.

Lemma preference_summary_agrees_with_highlights_witness :
  let w := MainWindow.set_records example_week fresh_window in
  ∃ days,
    MainWindow.update_preference_summary QDate.fromString_iso example_day
      MainWindow.built_pref_stat_labels w !! lit "pref_week"
      = Some (MainWindow.PrefDays days)
    ∧ MainWindow.highlight_labels
        (MainWindow.update_highlights QDate.fromString_iso example_day w) !! lit "week"
      = Some (MainWindow.ChipDays days).
Proof.
  intros w.
  assert (H1 : is_Some (MainWindow.built_pref_stat_labels !! lit "pref_week"))
    by (vm_compute; eauto).
  assert (H2 : is_Some (MainWindow.built_pref_stat_labels !! lit "pref_total"))
    by (vm_compute; eauto).
  assert (H3 : is_Some (MainWindow.highlight_labels w !! lit "week"))
    by (vm_compute; eauto).
  assert (H4 : is_Some (MainWindow.highlight_labels w !! lit "total"))
    by (vm_compute; eauto).
  destruct (preference_summary_agrees_with_highlights QDate.fromString_iso example_day
              MainWindow.built_pref_stat_labels w H1 H2 H3 H4)
    as (days & Hpref & Hchip & _).
  exists days. split; assumption.
Defined.

Lemma preference_today_agrees_with_calorie_card_witness :
  let w := MainWindow.set_records example_week fresh_window in
  ∃ total,
    total = MainWindow.today_total example_week (QDate.toString example_day)
    ∧ MainWindow.update_preference_summary QDate.fromString_iso example_day
        MainWindow.built_pref_stat_labels w !! lit "pref_today"
      = Some (MainWindow.PrefKcal total).
Proof.
  intros w.
  assert (H1 : is_Some (MainWindow.built_pref_stat_labels !! lit "pref_today"))
    by (vm_compute; eauto).
  assert (H2 : Forall (fun r => QDate.isValid (record_date QDate.fromString_iso r) = true
                               ∧ record_date QDate.fromString_iso r = example_day
                               ↔ date r = Some (QDate.toString example_day))
                 (MainWindow.records w)).
  { repeat (constructor;
      [split;
       [ intros [_ H]; first [reflexivity | vm_compute in H; discriminate H]
       | intros H; first [split; vm_compute; reflexivity | vm_compute in H; discriminate H] ]
      |]).
    constructor. }
  destruct (preference_today_agrees_with_calorie_card QDate.fromString_iso example_day
              MainWindow.built_pref_stat_labels w (2000, -1) (0, 2000)
              H1 eq_refl eq_refl H2)
    as (total & Htotal & Hpref & _).
  exists total. split; assumption.
Defined.

Lemma recent_rows_match_table_witness :
  let w := MainWindow.set_records example_week fresh_window in
  ∃ main recent,
    MainWindow.populate_table (Some []) None w = (Some main, Some 5%nat)
    ∧ length main = 5%nat
    ∧ MainWindow.recent_table (MainWindow.refresh_recent_records w) = Some recent.
Proof.
  intros w.
  destruct (recent_rows_match_table w [] [] None eq_refl)
    as (main & recent & Htable & Hlen & Hrecent & _).
  exists main, recent. split; [exact Htable|]. split; [exact Hlen | exact Hrecent].
Defined.

(** ** From one session to the next *)

Section sessions.
Import MainWindow ConfigManager.
Variable fromString : str → QDate.t.
Variable today : QDate.t.

Lemma payload_has_key (creds : gmap str jval) (k : str) :
  k ∈ RECOGNIZED_KEYS → payload creds !! k = Some (persisted creds k).
Proof.
  intros Hk. unfold persisted.
  assert (Hd : k ∈ dom (payload creds))
    by (rewrite dom_payload; apply elem_of_list_to_set; exact Hk).
  apply elem_of_dom in Hd as [v ->]. reflexivity.
Qed.

(** X19: a password change and the next login.  After a successful change
    the profile file, read by [load_credentials], gives credentials with
    the new password, and a login window working on them accepts exactly
    the stored user name (entered with or without white space around it)
    together with the new password; the old password is refused. *)
Theorem password_change_then_login (w : t) (fs : FS) (old new : str) :
  old_password_input w = Some old →
  new_password_input w = Some new →
  confirm_password_input w = Some new →
  stored_password w = JStr old →
  (6 <= length new)%nat →
  new ≠ old →
  jval_text_ok
    (JDict (payload_items (<[lit "password" := JStr new]> (credentials w)))) = true →
  keys_distinct
    (JDict (payload_items (<[lit "password" := JStr new]> (credentials w)))) = true →
  ∃ w' fs' merged,
    handle_password_change w fs = (Ok (w', [PasswordUpdated]), fs')
    ∧ load_credentials JsonRef.loads fs' = (Returned merged, fs')
    ∧ merged !! lit "password" = Some (JStr new)
    ∧ merged !! lit "username" = Some (persisted (credentials w) (lit "username"))
    ∧ ∀ login : LoginWindow.t,
        LoginWindow.credentials login = merged →
        ((LoginWindow.validate_login login).2 = Closed Accepted
         ↔ persisted (credentials w) (lit "username")
             = JStr (Py.strip (LoginWindow.username_edit login))
           ∧ LoginWindow.password_edit login = new)
        ∧ (LoginWindow.password_edit login = old →
           (LoginWindow.validate_login login).2 ≠ Closed Accepted).
Proof.
  intros Hold Hnew Hconfirm Hstored Hlen Hne Hok Hkeys.
  set (saved := <[lit "password" := JStr new]> (credentials w)) in *.
  assert (Hchange : ∃ w', handle_password_change w fs
            = (Ok (w', [PasswordUpdated]), save_credentials saved fs)).
  { unfold handle_password_change. rewrite Hold, Hnew, Hconfirm, Hstored.
    cbn [str_eq]. rewrite bool_decide_eq_true_2 by reflexivity. cbn [negb].
    destruct (Nat.ltb_spec (length new) 6); [lia|].
    rewrite bool_decide_eq_false_2 by exact Hne.
    rewrite bool_decide_eq_true_2 by reflexivity. cbn [negb].
    eexists. reflexivity. }
  destruct Hchange as [w' Hchange].
  exists w', (save_credentials saved fs), (payload saved).
  assert (Hpass : payload saved !! lit "password" = Some (JStr new)).
  { rewrite payload_has_key by in_keys. f_equal. apply persisted_insert_eq. in_keys. }
  assert (Huser : payload saved !! lit "username"
            = Some (persisted (credentials w) (lit "username"))).
  { rewrite payload_has_key by in_keys. f_equal.
    apply persisted_insert_ne; [in_keys | lit_neq]. }
  split; [exact Hchange|]. split.
  { rewrite (load_credentials_dumps _ (payload_items saved));
      [|apply lookup_insert_eq|exact Hok|exact Hkeys].
    rewrite payload_items_dict. reflexivity. }
  split; [exact Hpass|]. split; [exact Huser|].
  intros login Hcreds.
  assert (Hiff : (LoginWindow.validate_login login).2 = Closed Accepted
            ↔ persisted (credentials w) (lit "username")
                = JStr (Py.strip (LoginWindow.username_edit login))
              ∧ LoginWindow.password_edit login = new).
  { unfold LoginWindow.validate_login, LoginWindow.expected_user, LoginWindow.expected_pass.
    rewrite Hcreds, Huser, Hpass. cbn [from_option id].
    destruct (str_eq (Py.strip (LoginWindow.username_edit login))
                (persisted (credentials w) (lit "username"))) eqn:Hu; cbn [negb snd].
    - apply str_eq_true in Hu.
      destruct (str_eq (LoginWindow.password_edit login) (JStr new)) eqn:Hp; cbn [negb snd].
      + apply str_eq_true in Hp. injection Hp as Hp. split; [intros _|reflexivity].
        split; [exact Hu | symmetry; exact Hp].
      + apply str_eq_false in Hp. split; [discriminate|]. intros [_ Hp']. congruence.
    - apply str_eq_false in Hu. split; [discriminate|]. intros [Hu' _]. congruence. }
  split; [exact Hiff|]. intros Hpw Hacc. apply Hiff in Hacc as [_ Hacc]. congruence.
Qed.

(** X20: settings that are saved are the settings the next start loads.
    After [save_settings] the profile file, read by [load_credentials],
    gives the height and the weight of the two spin boxes, and the user
    name and the password the profile held before. *)
Theorem saved_settings_are_loaded (w : t) (fs : FS) (nick : str) (goal h k : Z) :
  name_input w = Some nick →
  target_spin w = Some goal →
  height_spin w = Some h →
  weight_spin w = Some k →
  100 <= h <= 250 → 30 <= k <= 200 →
  jval_text_ok (JDict (payload_items (credentials w))) = true →
  keys_distinct (JDict (payload_items (credentials w))) = true →
  ∃ w' fs' merged,
    save_settings fromString today w fs = (Ok (w', [SettingsSaved]), fs')
    ∧ load_credentials JsonRef.loads fs' = (Returned merged, fs')
    ∧ merged !! lit "height" = Some (JInt h)
    ∧ merged !! lit "weight" = Some (JInt k)
    ∧ merged !! lit "username" = Some (persisted (credentials w) (lit "username"))
    ∧ merged !! lit "password" = Some (persisted (credentials w) (lit "password"))
    ∧ credentials w' !! lit "height" = merged !! lit "height"
    ∧ credentials w' !! lit "weight" = merged !! lit "weight".
Proof.
  intros Hnick Hgoal Hh Hk Hhr Hkr Hok Hkeys.
  set (saved := <[lit "weight" := JInt k]> (<[lit "height" := JInt h]> (credentials w))).
  assert (Hfile : (save_settings fromString today w fs).2 = save_credentials saved fs)
    by (apply save_settings_file; assumption).
  assert (Hrun : ∃ w', (save_settings fromString today w fs).1 = Ok (w', [SettingsSaved])
                       ∧ credentials w' = saved).
  { unfold save_settings. rewrite Hnick. simpl. rewrite Hgoal. simpl.
    rewrite Hh. simpl. rewrite Hk. simpl.
    unfold _apply_user_preferences. simpl. rewrite Hnick.
    match goal with
    | |- context [refresh_all fromString today ?v] =>
        destruct (refresh_all_returns fromString today v h k) as (w' & Hw' & Hs)
    end; try assumption.
    - simpl. rewrite lookup_insert_ne by lit_neq. apply lookup_insert_eq.
    - simpl. apply lookup_insert_eq.
    - rewrite Hw'. simpl. exists w'. split; [reflexivity|].
      destruct Hs as (_ & _ & _ & Hc). exact Hc. }
  destruct Hrun as (w' & Hrun & Hcreds).
  assert (Hitems : payload_items saved
            = [ (lit "username", persisted (credentials w) (lit "username"));
                (lit "password", persisted (credentials w) (lit "password"));
                (lit "height", JInt h); (lit "weight", JInt k) ]).
  { rewrite payload_items_spec. subst saved.
    repeat first
      [ rewrite persisted_insert_eq by in_keys
      | rewrite persisted_insert_ne by first [in_keys | lit_neq] ].
    reflexivity. }
  rewrite payload_items_spec in Hok, Hkeys.
  exists w', (save_credentials saved fs), (payload saved).
  split; [destruct (save_settings fromString today w fs) as [r fs0]; cbn in *; congruence|].
  split.
  { rewrite (load_credentials_dumps _ (payload_items saved)).
    - rewrite payload_items_dict. reflexivity.
    - apply lookup_insert_eq.
    - rewrite Hitems. cbn [jval_text_ok forallb] in *.
      repeat (apply andb_prop in Hok as [? Hok]).
      repeat (apply andb_true_intro; split); auto.
    - rewrite Hitems. cbn [keys_distinct forallb] in *.
      apply andb_prop in Hkeys as [Hnd Hkeys].
      repeat (apply andb_prop in Hkeys as [? Hkeys]).
      apply andb_true_intro. split.
      + apply bool_decide_eq_true_2. apply (bool_decide_unpack _). vm_compute. exact I.
      + repeat (apply andb_true_intro; split); auto. }
  rewrite !payload_has_key by in_keys. rewrite Hcreds. subst saved.
  repeat first
    [ rewrite persisted_insert_eq by in_keys
    | rewrite persisted_insert_ne by first [in_keys | lit_neq] ].
  rewrite lookup_insert_eq, lookup_insert_ne by lit_neq. rewrite lookup_insert_eq.
  repeat split.
Qed.

End sessions.

Lemma password_change_then_login_witness :
  let w := with_password_form (lit "123456") (lit "abcdef") (lit "abcdef") fresh_window in
  ∃ w' fs' merged,
    MainWindow.handle_password_change w ∅ = (Ok (w', [PasswordUpdated]), fs')
    ∧ ConfigManager.load_credentials JsonRef.loads fs' = (Returned merged, fs')
    ∧ merged !! lit "password" = Some (JStr (lit "abcdef")).
Proof.
  intros w.
  assert (Hlen : (6 <= length (lit "abcdef"))%nat) by (cbn; lia).
  assert (Hne : lit "abcdef" ≠ lit "123456") by discriminate.
  destruct (password_change_then_login w ∅ (lit "123456") (lit "abcdef")
              eq_refl eq_refl eq_refl eq_refl Hlen Hne eq_refl eq_refl)
    as (w' & fs' & merged & Hchange & Hload & Hpass & _).
  exists w', fs', merged. split; [exact Hchange|]. split; [exact Hload | exact Hpass].
Defined.

Lemma saved_settings_are_loaded_witness :
  let w := MainWindow.built (lit "bob") [] DEFAULT_CREDENTIALS 180 70 in
  ∃ w' fs' merged,
    MainWindow.save_settings QDate.fromString_iso example_day w ∅
      = (Ok (w', [SettingsSaved]), fs')
    ∧ ConfigManager.load_credentials JsonRef.loads fs' = (Returned merged, fs')
    ∧ merged !! lit "height" = Some (JInt 180)
    ∧ merged !! lit "weight" = Some (JInt 70).
Proof.
  intros w.
  assert (Hh : 100 <= 180 <= 250) by lia.
  assert (Hk : 30 <= 70 <= 200) by lia.
  destruct (saved_settings_are_loaded QDate.fromString_iso example_day w ∅
              (lit "bob") 2000 180 70 eq_refl eq_refl eq_refl eq_refl Hh Hk
              eq_refl eq_refl)
    as (w' & fs' & merged & Hsave & Hload & Hheight & Hweight & _).
  exists w', fs', merged. repeat split; assumption.
Defined.

(** ** Which file an operation writes, and how operations compose *)

Section frames.
Import MainWindow ConfigManager.
Variable fromString : str → QDate.t.
Variable today : QDate.t.

Lemma perform_writes_data_file (op : operation) (w : t) (fs : FS) (p : string) :
  p ≠ DATA_FILE → (perform fromString today op w fs).2 !! p = fs !! p.
Proof.
  intros Hp.
  assert (Hsave : ∀ v, DataManager.save_records v fs !! p = fs !! p).
  { intros v. unfold DataManager.save_records, write_text.
    apply lookup_insert_ne. congruence. }
  destruct op as [actions | index actions | index confirm]; simpl.
  - unfold add_record.
    destruct (RecordDialog.exec_ _ _) as [[[dialog code] shown]|]; [|reflexivity].
    destruct code; [|reflexivity].
    destruct (RecordDialog.result_data dialog) as [data|]; [|reflexivity].
    destruct (record_truthy data); [|reflexivity]. apply Hsave.
  - unfold edit_record_by_index. destruct (_ || _); [reflexivity|].
    destruct (RecordDialog.exec_ _ _) as [[[dialog code] shown]|]; [|reflexivity].
    destruct code; [|reflexivity].
    destruct (RecordDialog.result_data dialog) as [data|]; [|reflexivity].
    destruct (record_truthy data); [|reflexivity]. apply Hsave.
  - unfold delete_record_by_index. destruct (_ || _); [reflexivity|].
    destruct confirm; [|reflexivity]. apply Hsave.
Qed.

Lemma run_writes_data_file (ops : list operation) (w w' : t) (fs fs' : FS) (p : string) :
  p ≠ DATA_FILE → run fromString today ops w fs = Ok (w', fs') → fs' !! p = fs !! p.
Proof.
  intros Hp. revert w fs. induction ops as [|op ops IH]; intros w fs; simpl.
  - intros [= _ <-]. reflexivity.
  - pose proof (perform_writes_data_file op w fs p Hp) as Hop.
    destruct (perform fromString today op w fs) as [[[w1 alerts]|] fs1]; [|discriminate].
    intros Hrun. rewrite (IH _ _ Hrun). exact Hop.
Qed.

(** X21: each operation writes its own file only.  Adding, editing and
    deleting records write no file but the record file; saving the
    settings, changing the password and loading the credentials write no
    file but the profile file.  This holds whether the operation returns
    or raises. *)
Theorem operations_write_their_own_file (w : t) (fs : FS) (p : string) :
  (∀ op, p ≠ DATA_FILE → (perform fromString today op w fs).2 !! p = fs !! p)
  ∧ (∀ ops w' fs', p ≠ DATA_FILE →
       run fromString today ops w fs = Ok (w', fs') → fs' !! p = fs !! p)
  ∧ (p ≠ CONFIG_FILE → (save_settings fromString today w fs).2 !! p = fs !! p)
  ∧ (p ≠ CONFIG_FILE → (handle_password_change w fs).2 !! p = fs !! p)
  ∧ (∀ json_loads, p ≠ CONFIG_FILE → (load_credentials json_loads fs).2 !! p = fs !! p).
Proof.
  assert (Hsave : ∀ c, p ≠ CONFIG_FILE → save_credentials c fs !! p = fs !! p).
  { intros c Hp. unfold save_credentials, write_text. apply lookup_insert_ne. congruence. }
  split; [intros op Hp; apply perform_writes_data_file; exact Hp|].
  split; [intros ops w' fs' Hp; apply run_writes_data_file; exact Hp|].
  split; [|split].
  - intros Hp. unfold save_settings. cbn [snd]. apply Hsave. exact Hp.
  - intros Hp. unfold handle_password_change.
    destruct (old_password_input w), (new_password_input w), (confirm_password_input w);
      try reflexivity.
    repeat (match goal with |- context [if ?b then _ else _] => destruct b end;
            try reflexivity).
    cbn [snd]. apply Hsave. exact Hp.
  - intros json_loads Hp. unfold load_credentials.
    destruct (negb _); [cbn [snd]; apply Hsave; exact Hp|].
    destruct (match _ with Raise JSONDecodeError => _ | r => r end) as [[]|]; reflexivity.
Qed.

(** X22: adding a record and deleting it again.  When a record has been
    added, deleting the last record of the list, which is the one added,
    gives back the list as it was, and the record file holds what it would
    hold had the old list been saved. *)
Theorem add_then_delete_restores (w : t) (fs : FS)
    (actions : list RecordDialog.user_action) (h k : Z)
    (d : RecordDialog.t) (alerts : list alert) :
  credentials w !! lit "height" = Some (JInt h) →
  credentials w !! lit "weight" = Some (JInt k) →
  100 <= h <= 250 → 30 <= k <= 200 →
  RecordDialog.exec_ (RecordDialog.init fromString today None) actions
    = Ok (d, Accepted, alerts) →
  ∃ w1 fs1 w2,
    add_record fromString today actions w fs = (Ok (w1, alerts), fs1)
    ∧ delete_record_by_index fromString today
        (Z.of_nat (length (records w))) Accepted w1 fs1
      = (Ok (w2, []), DataManager.save_records (records_json (records w)) fs)
    ∧ records w2 = records w
    ∧ username w2 = username w
    ∧ target_calories w2 = target_calories w
    ∧ credentials w2 = credentials w.
Proof.
  intros Hh Hk Hhr Hkr Hexec.
  destruct (add_record_accepted fromString today w fs actions h k d alerts
              Hh Hk Hhr Hkr Hexec)
    as (data & w1 & _ & _ & Hadd & Hr1 & Hu1 & Ht1 & Hc1).
  assert (Hi : (length (records w) < length (records w1))%nat)
    by (rewrite Hr1, length_app; cbn; lia).
  rewrite <- Hc1 in Hh, Hk.
  destruct (delete_record_confirmed fromString today w1
              (DataManager.save_records (records_json (records w ++ [data])) fs)
              (length (records w)) h k Hh Hk Hhr Hkr Hi)
    as (w2 & Hdelete & Hr2 & Hu2 & Ht2 & Hc2).
  assert (Hback : records w2 = records w).
  { rewrite Hr2, Hr1, delete_take_drop, take_app_length, drop_app_ge by lia.
    replace (S (length (records w)) - length (records w))%nat with 1%nat by lia.
    apply app_nil_r. }
  exists w1, (DataManager.save_records (records_json (records w ++ [data])) fs), w2.
  split; [exact Hadd|]. split.
  { rewrite Hdelete, Hback. f_equal.
    unfold DataManager.save_records, write_text. apply insert_insert_eq. }
  split; [exact Hback|]. repeat split; congruence.
Qed.

End frames.

Lemma add_then_delete_restores_witness :
  ∃ w1 fs1 w2,
    MainWindow.add_record QDate.fromString_iso example_day
      [RecordDialog.TypeFood (lit "rice"); RecordDialog.TypeCalories (lit "600");
       RecordDialog.ClickOk] fresh_window ∅
    = (Ok (w1, []), fs1)
    ∧ MainWindow.delete_record_by_index QDate.fromString_iso example_day 0 Accepted w1 fs1
      = (Ok (w2, []), DataManager.save_records (records_json []) ∅)
    ∧ MainWindow.records w2 = [].
Proof.
  assert (Hh : 100 <= 170 <= 250) by lia.
  assert (Hk : 30 <= 65 <= 200) by lia.
  destruct (add_then_delete_restores QDate.fromString_iso example_day fresh_window ∅
              [RecordDialog.TypeFood (lit "rice"); RecordDialog.TypeCalories (lit "600");
               RecordDialog.ClickOk]
              170 65
              (RecordDialog.mk RecordDialog.no_record example_day RecordDialog.Breakfast
                 (lit "rice") (lit "600") []
                 (Some (entry (lit "2024-03-02") (RecordDialog.meal_text RecordDialog.Breakfast)
                          (lit "rice") 600)))
              [] eq_refl eq_refl Hh Hk eq_refl)
    as (w1 & fs1 & w2 & Hadd & Hdelete & Hrec & _).
  exists w1, fs1, w2. split; [exact Hadd|]. split; [exact Hdelete | exact Hrec].
Defined.

(** ** What the views show after the settings are saved *)

Section after_saving.
Import MainWindow.
Variable fromString : str → QDate.t.
Variable today : QDate.t.




End after_saving.


(** ** Logging out and in again *)

Section logging_in.
Import LoginWindow.

Lemma validate_login_cases (w : t) :
  (∃ a, validate_login w = (w, Alerted a)
        ∧ (a = AuthUsernameWrong ∨ a = AuthPasswordWrong))
  ∨ (validate_login w
     = (mk (credentials w) (username_edit w) (password_edit w)
           (JStr (Py.or_else (Py.strip (username_edit w))
                    [0x5065; 0x5EB7; 0x8FBE; 0x4EBA]%N)),
        Closed Accepted)
     ∧ expected_user w = JStr (Py.strip (username_edit w))
     ∧ expected_pass w = JStr (password_edit w)).
Proof.
  unfold validate_login.
  destruct (str_eq (Py.strip (username_edit w)) (expected_user w)) eqn:Hu; cbn [negb].
  - destruct (str_eq (password_edit w) (expected_pass w)) eqn:Hp; cbn [negb].
    + right. apply str_eq_true in Hu. apply str_eq_true in Hp.
      split; [reflexivity|]. split; assumption.
    + left. exists AuthPasswordWrong. split; [reflexivity|right; reflexivity].
  - left. exists AuthUsernameWrong. split; [reflexivity|left; reflexivity].
Qed.

Lemma exec_spec (actions : list user_action) :
  ∀ (login login' : t) (code : dialog_code) (alerts : list alert),
    exec_ login actions = (login', code, alerts) →
    credentials login' = credentials login
    ∧ Forall (fun a => a = AuthUsernameWrong ∨ a = AuthPasswordWrong) alerts
    ∧ (code = Accepted →
       expected_user login = JStr (Py.strip (username_edit login'))
       ∧ expected_pass login = JStr (password_edit login')
       ∧ get_username login'
         = JStr (Py.or_else (Py.strip (username_edit login'))
                   [0x5065; 0x5EB7; 0x8FBE; 0x4EBA]%N))
    ∧ (code = Rejected → get_username login' = get_username login).
Proof.
  induction actions as [|a rest IH]; intros login login' code alerts H.
  - injection H as <- <- <-.
    split; [reflexivity|split; [constructor|split; [discriminate|reflexivity]]].
  - destruct a as [s|s| |].
    + apply IH in H as (Hc & Ha & Hacc & Hrej).
      exact (conj Hc (conj Ha (conj Hacc Hrej))).
    + apply IH in H as (Hc & Ha & Hacc & Hrej).
      exact (conj Hc (conj Ha (conj Hacc Hrej))).
    + cbn [exec_] in H.
      destruct (validate_login_cases login) as [(a & Hv & Hor)|(Hv & Hu & Hp)];
        rewrite Hv in H.
      * destruct (exec_ login rest) as [[l c] al] eqn:Hrest.
        injection H as <- <- <-.
        apply IH in Hrest as (Hc & Ha & Hacc & Hrej).
        split; [exact Hc|]. split; [constructor; assumption|].
        split; assumption.
      * injection H as <- <- <-.
        split; [reflexivity|]. split; [constructor|].
        split; [|discriminate]. intros _.
        split; [exact Hu|]. split; [exact Hp|reflexivity].
    + injection H as <- <- <-.
      split; [reflexivity|split; [constructor|split; [discriminate|reflexivity]]].
Qed.

Lemma exec_without_click (actions : list user_action) :
  ∀ login : t, ClickLogin ∉ actions →
    ∃ login', exec_ login actions = (login', Rejected, []).
Proof.
  induction actions as [|a rest IH]; intros login Hno.
  - eexists. reflexivity.
  - apply not_elem_of_cons in Hno as [Ha Hrest].
    destruct a; [apply (IH _ Hrest)|apply (IH _ Hrest)|congruence|eexists; reflexivity].
Qed.

(** X24: who gets in.  The login window is accepted only with the stored
    user name, entered with or without white space around it, and the
    stored password in its fields, and then gives the entered name, or the
    stock name for an empty one, as the user; every attempt before that
    showed one of the two authentication alerts.  A window that is closed
    instead, or in which the button is never pressed, is rejected and gives
    the user name it was opened with.  The credentials are never changed. *)
Theorem login_accepts_matching_entries (login login' : t)
    (actions : list user_action) (code : dialog_code) (alerts : list alert) :
  exec_ login actions = (login', code, alerts) →
  credentials login' = credentials login
  ∧ Forall (fun a => a = AuthUsernameWrong ∨ a = AuthPasswordWrong) alerts
  ∧ (code = Accepted →
     expected_user login = JStr (Py.strip (username_edit login'))
     ∧ expected_pass login = JStr (password_edit login')
     ∧ get_username login'
       = JStr (Py.or_else (Py.strip (username_edit login'))
                 [0x5065; 0x5EB7; 0x8FBE; 0x4EBA]%N))
  ∧ (code = Rejected → get_username login' = get_username login)
  ∧ (ClickLogin ∉ actions → code = Rejected ∧ alerts = []).
Proof.
  intros H. destruct (exec_spec actions login login' code alerts H)
    as (Hc & Ha & Hacc & Hrej).
  repeat (split; [assumption|]).
  intros Hno. destruct (exec_without_click actions login Hno) as [l Hl].
  rewrite Hl in H. injection H as _ <- <-. auto.
Qed.

End logging_in.

Lemma login_accepts_matching_entries_witness :
  let login := LoginWindow.mk DEFAULT_CREDENTIALS default_username []
                 (JStr default_username) in
  let login' := LoginWindow.mk DEFAULT_CREDENTIALS (lit " " ++ default_username)
                  (lit "123456") (JStr default_username) in
  LoginWindow.exec_ login
    [LoginWindow.TypePassword (lit "654321"); LoginWindow.ClickLogin;
     LoginWindow.TypeUsername (lit " " ++ default_username);
     LoginWindow.TypePassword (lit "123456"); LoginWindow.ClickLogin]
  = (login', Accepted, [AuthPasswordWrong])
  ∧ LoginWindow.expected_user login = JStr (Py.strip (lit " " ++ default_username))
  ∧ LoginWindow.expected_pass login = JStr (lit "123456")
  ∧ LoginWindow.get_username login' = JStr default_username.
Proof.
  cbv zeta.
  assert (H : LoginWindow.exec_
                (LoginWindow.mk DEFAULT_CREDENTIALS default_username []
                   (JStr default_username))
                [LoginWindow.TypePassword (lit "654321"); LoginWindow.ClickLogin;
                 LoginWindow.TypeUsername (lit " " ++ default_username);
                 LoginWindow.TypePassword (lit "123456"); LoginWindow.ClickLogin]
              = (LoginWindow.mk DEFAULT_CREDENTIALS (lit " " ++ default_username)
                   (lit "123456") (JStr default_username),
                 Accepted, [AuthPasswordWrong]))
    by (vm_compute; reflexivity).
  split; [exact H|].
  exact (proj1 (proj2 (proj2 (login_accepts_matching_entries _ _ _ _ _ H))) eq_refl).
Defined.

Section logging_out.
Import MainWindow ConfigManager.
Variable json_loads : str → result jval.
Variable fromString : str → QDate.t.
Variable today : QDate.t.

Lemma apply_user_preferences_returns (w : t) (h k : Z) :
  credentials w !! lit "height" = Some (JInt h) →
  credentials w !! lit "weight" = Some (JInt k) →
  100 <= h <= 250 → 30 <= k <= 200 →
  ∃ w', _apply_user_preferences fromString today w = Ok w'
        ∧ username w' = username w
        ∧ records w' = records w
        ∧ target_calories w' = target_calories w
        ∧ credentials w' = credentials w.
Proof.
  intros Hh Hk Hhr Hkr. unfold _apply_user_preferences.
  destruct (name_input w) as [text|].
  - destruct (refresh_all_returns fromString today
                (set_name_input (Some (username w)) w) h k Hh Hk Hhr Hkr)
      as (w' & Hw' & Hu & Hr & Ht & Hc).
    exists w'. auto.
  - destruct (refresh_all_returns fromString today w h k Hh Hk Hhr Hkr)
      as (w' & Hw' & Hu & Hr & Ht & Hc).
    exists w'. auto.
Qed.

Lemma init_given (merged : gmap str jval) (fs : FS) (v : jval) :
  merged !! lit "username" = Some v →
  LoginWindow.init json_loads (Some merged) fs
  = match LoginWindow.line_edit_of v with
    | Ok text => (Returned (LoginWindow.mk merged text [] v), fs)
    | Raise e => (Raising (Exn e), fs)
    end.
Proof.
  intros Hv. unfold LoginWindow.init.
  assert (Hsize : (size merged =? 0)%nat = false).
  { apply Nat.eqb_neq. intros H0. apply map_size_empty_iff in H0.
    rewrite H0, lookup_empty in Hv. discriminate Hv. }
  rewrite Hsize, Hv. reflexivity.
Qed.

(** X25: logging out and in again.  With a profile file that
    [load_credentials] reads, leaving it as it is, the slot always returns
    and writes nothing.  A rejected confirmation leaves the window as it
    is, and so does a login window that is closed, after which the
    application is asked to quit.  After a login the session has the
    credentials of the file in place of those it had, and as user name the
    user name of the file (the stock name for an empty one), whatever the
    display name was; records and target are kept.  A user name in the
    file without white space around it can log in with the password of the
    file alone. *)
Theorem logout_then_login (w : t) (fs : FS) (merged : gmap str jval)
    (u : str) (h k : Z) :
  load_credentials json_loads fs = (Returned merged, fs) →
  merged !! lit "username" = Some (JStr u) →
  merged !! lit "height" = Some (JInt h) →
  merged !! lit "weight" = Some (JInt k) →
  100 <= h <= 250 → 30 <= k <= 200 →
  (∀ confirm actions,
     ∃ out alerts,
       handle_logout json_loads fromString today confirm actions w fs
         = (Returned (out, alerts), fs)
       ∧ Forall (fun a => a = AuthUsernameWrong ∨ a = AuthPasswordWrong) alerts
       ∧ match out with
         | Stayed w' => confirm = Rejected ∧ w' = w ∧ alerts = []
         | QuitCalled w' => confirm = Accepted ∧ w' = w
         | Relogged w' =>
             confirm = Accepted
             ∧ Py.strip u = u
             ∧ username w' = Py.or_else u [0x5065; 0x5EB7; 0x8FBE; 0x4EBA]%N
             ∧ records w' = records w
             ∧ target_calories w' = target_calories w
             ∧ credentials w' = merged
         end)
  ∧ (Py.strip u = u →
     ∀ p, merged !! lit "password" = Some (JStr p) →
       ∃ w', handle_logout json_loads fromString today Accepted
               [LoginWindow.TypePassword p; LoginWindow.ClickLogin] w fs
             = (Returned (Relogged w', []), fs)).
Proof.
  intros Hload Hu Hh Hk Hhr Hkr.
  assert (Hinit : LoginWindow.init json_loads (Some merged) fs
                  = (Returned (LoginWindow.mk merged u [] (JStr u)), fs))
    by (rewrite (init_given merged fs (JStr u) Hu); reflexivity).
  assert (Hback : ∀ name,
            ∃ w', _apply_user_preferences fromString today
                    (set_credentials merged (set_username name w)) = Ok w'
                  ∧ username w' = name
                  ∧ records w' = records w
                  ∧ target_calories w' = target_calories w
                  ∧ credentials w' = merged).
  { intros name.
    destruct (apply_user_preferences_returns
                (set_credentials merged (set_username name w)) h k Hh Hk Hhr Hkr)
      as (w' & Hw' & Hn & Hr & Ht & Hc).
    exists w'. auto. }
  split.
  - intros confirm actions. unfold handle_logout.
    destruct confirm.
    2: { exists (Stayed w), []. split; [reflexivity|]. split; [constructor|auto]. }
    rewrite Hload, Hinit.
    destruct (LoginWindow.exec_ _ actions) as [[login' code] alerts] eqn:Hexec.
    destruct (exec_spec actions _ _ _ _ Hexec) as (_ & Halerts & Hacc & _).
    destruct code.
    + destruct (Hacc eq_refl) as (Huser & _ & Hname).
      unfold LoginWindow.expected_user in Huser. cbn [LoginWindow.credentials] in Huser.
      rewrite Hu in Huser. cbn [default from_option id] in Huser.
      injection Huser as Huser.
      rewrite Hname, Hload. cbv zeta.
      destruct (Hback (Py.or_else (Py.strip (LoginWindow.username_edit login'))
                         [0x5065; 0x5EB7; 0x8FBE; 0x4EBA]%N))
        as (w' & Hw' & Hn & Hr & Ht & Hc).
      rewrite Hw'. exists (Relogged w'), alerts.
      split; [reflexivity|]. split; [exact Halerts|].
      split; [reflexivity|]. split; [rewrite Huser; apply strip_idemp|].
      rewrite Huser. auto.
    + exists (QuitCalled w), alerts. split; [reflexivity|]. split; [exact Halerts|auto].
  - intros Hstrip p Hp. unfold handle_logout. rewrite Hload, Hinit.
    assert (Hexec : LoginWindow.exec_ (LoginWindow.mk merged u [] (JStr u))
                      [LoginWindow.TypePassword p; LoginWindow.ClickLogin]
                    = (LoginWindow.mk merged u p
                         (JStr (Py.or_else u [0x5065; 0x5EB7; 0x8FBE; 0x4EBA]%N)),
                       Accepted, [])).
    { cbn [LoginWindow.exec_ LoginWindow.edit LoginWindow.credentials
             LoginWindow.username_edit LoginWindow.password_edit
             LoginWindow.authenticated_user].
      unfold LoginWindow.validate_login, LoginWindow.expected_user,
        LoginWindow.expected_pass.
      cbn [LoginWindow.credentials LoginWindow.username_edit LoginWindow.password_edit].
      rewrite Hu, Hp, Hstrip. cbn [default from_option id str_eq].
      rewrite !bool_decide_eq_true_2 by reflexivity. reflexivity. }
    rewrite Hexec. cbn [LoginWindow.get_username LoginWindow.authenticated_user].
    rewrite Hload. cbv zeta.
    destruct (Hback (Py.or_else u [0x5065; 0x5EB7; 0x8FBE; 0x4EBA]%N))
      as (w' & Hw' & _).
    rewrite Hw'. exists w'. reflexivity.
Qed.

(** X26: logging out on a profile nobody can log in with.  A profile that
    [load_credentials] cannot read makes the slot raise what
    [load_credentials] raises; a user name in the profile that is neither
    a string nor null makes the login window raise TypeError when it is
    built; with null for the user name, or a string with white space
    around it, no entry is ever accepted, so that every login ends with
    the application asked to quit and the window as it was.  None of this
    happens before the confirmation is accepted. *)
Theorem logout_on_unusable_profile (w : t) (fs : FS)
    (actions : list LoginWindow.user_action) :
  handle_logout json_loads fromString today Rejected actions w fs
    = (Returned (Stayed w, []), fs)
  ∧ (∀ e fs', load_credentials json_loads fs = (Raising e, fs') →
       handle_logout json_loads fromString today Accepted actions w fs
         = (Raising e, fs'))
  ∧ (∀ merged fs' v,
       load_credentials json_loads fs = (Returned merged, fs') →
       merged !! lit "username" = Some v →
       v ≠ JNull → (∀ s, v ≠ JStr s) →
       handle_logout json_loads fromString today Accepted actions w fs
         = (Raising (Exn TypeError), fs'))
  ∧ (∀ merged fs' v,
       load_credentials json_loads fs = (Returned merged, fs') →
       merged !! lit "username" = Some v →
       v = JNull ∨ (∃ s, v = JStr s ∧ Py.strip s ≠ s) →
       ∃ alerts,
         handle_logout json_loads fromString today Accepted actions w fs
           = (Returned (QuitCalled w, alerts), fs')
         ∧ Forall (fun a => a = AuthUsernameWrong ∨ a = AuthPasswordWrong) alerts).
Proof.
  split; [reflexivity|]. split; [|split].
  - intros e fs' Hload. unfold handle_logout. rewrite Hload. reflexivity.
  - intros merged fs' v Hload Hv Hnull Hstr. unfold handle_logout.
    rewrite Hload, (init_given merged fs' v Hv).
    destruct v; try reflexivity; [contradiction|exfalso; eapply Hstr; reflexivity].
  - intros merged fs' v Hload Hv Hor. unfold handle_logout.
    rewrite Hload, (init_given merged fs' v Hv).
    assert (Hline : ∃ text, LoginWindow.line_edit_of v = Ok text)
      by (destruct Hor as [->|(s & -> & _)]; eexists; reflexivity).
    destruct Hline as [text ->].
    destruct (LoginWindow.exec_ _ actions) as [[login' code] alerts] eqn:Hexec.
    destruct (exec_spec actions _ _ _ _ Hexec) as (_ & Halerts & Hacc & _).
    destruct code.
    + exfalso. destruct (Hacc eq_refl) as (Huser & _).
      unfold LoginWindow.expected_user in Huser. cbn [LoginWindow.credentials] in Huser.
      rewrite Hv in Huser. cbn [default from_option id] in Huser.
      destruct Hor as [->|(s & -> & Hs)]; [discriminate Huser|].
      injection Huser as ->. apply Hs. apply strip_idemp.
    + exists alerts. split; [reflexivity|exact Halerts].
Qed.

End logging_out.

Lemma logout_then_login_witness :
  let fs := ConfigManager.save_credentials DEFAULT_CREDENTIALS ∅ in
  ∃ w',
    MainWindow.handle_logout JsonRef.loads QDate.fromString_iso example_day Accepted
      [LoginWindow.TypePassword (lit "123456"); LoginWindow.ClickLogin]
      fresh_window fs
    = (Returned (MainWindow.Relogged w', []), fs).
Proof.
  cbv zeta.
  assert (Hload : ConfigManager.load_credentials JsonRef.loads
                    (ConfigManager.save_credentials DEFAULT_CREDENTIALS ∅)
                  = (Returned DEFAULT_CREDENTIALS,
                     ConfigManager.save_credentials DEFAULT_CREDENTIALS ∅)).
  { vm_compute. reflexivity. }
  assert (Hu : DEFAULT_CREDENTIALS !! lit "username" = Some (JStr default_username))
    by (vm_compute; reflexivity).
  assert (Hh : DEFAULT_CREDENTIALS !! lit "height" = Some (JInt 170))
    by (vm_compute; reflexivity).
  assert (Hk : DEFAULT_CREDENTIALS !! lit "weight" = Some (JInt 65))
    by (vm_compute; reflexivity).
  assert (Hp : DEFAULT_CREDENTIALS !! lit "password" = Some (JStr (lit "123456")))
    by (vm_compute; reflexivity).
  assert (Hs : Py.strip default_username = default_username)
    by (vm_compute; reflexivity).
  exact (proj2 (logout_then_login JsonRef.loads QDate.fromString_iso example_day
                  fresh_window (ConfigManager.save_credentials DEFAULT_CREDENTIALS ∅)
                  DEFAULT_CREDENTIALS default_username 170 65
                  Hload Hu Hh Hk ltac:(lia) ltac:(lia)) Hs (lit "123456") Hp).
Defined.
